(** * Period: time ranges over Go's [time.Time]

    A shallow embedding of the Go package [period] (studiofrenetic/period):
    the [Period] struct, its calendar constructors, its comparison
    predicates and its derived-period operations, together with the part of
    Go's standard [time] and [fmt] packages that the package calls.

    Layout of the development:
    - [Int64]: two's-complement 64-bit arithmetic, as Go's [int64] and
      [time.Duration] compute;
    - [fmt]: the two [Sprintf] verbs the constructors use;
    - [time]: instants, the proleptic Gregorian calendar, ISO weeks and the
      parser for the one layout the package uses;
    - [period]: the functions of [period.go];
    - [period_alt]: the functions of the second copy of the package that
      differ from [period.go] and that a statement refers to;
    - [vocabulary]: the notions the statements are written with;
    - the theorems, each under the identifier of the property it settles. *)

From Stdlib Require Import ZArith List String Ascii Bool Lia Permutation.
Import ListNotations.
Open Scope Z_scope.

(* ------------------------------------------------------------------ *)
(** ** 64-bit signed integers *)

Module Int64.

Definition min_int : Z := - 2 ^ 63.
Definition max_int : Z := 2 ^ 63 - 1.

(** The value a Go [int64] holds after an operation whose exact result is
    [x]: the representative of [x] modulo [2^64] in [min_int .. max_int]. *)
Definition wrap (x : Z) : Z := (x + 2 ^ 63) mod 2 ^ 64 - 2 ^ 63.

Definition add (x y : Z) : Z := wrap (x + y).
Definition sub (x y : Z) : Z := wrap (x - y).
Definition mul (x y : Z) : Z := wrap (x * y).
Definition neg (x : Z) : Z := wrap (- x).

Definition in_range (x : Z) : Prop := min_int <= x <= max_int.

End Int64.

(* ------------------------------------------------------------------ *)
(** ** Go's [fmt.Sprintf] for the verbs [%d] and [%02d] *)

Module fmt.

Definition digitChar (d : Z) : ascii := ascii_of_nat (48 + Z.to_nat d).

(** The digit loop of [fmtInteger]: least significant digit first, written
    from the end of the buffer.  A 64-bit value has at most 20 digits, which
    is the fuel [fmt_d] gives it. *)
Fixpoint fmtDigits (fuel : nat) (u : Z) (acc : string) : string :=
  match fuel with
  | O => acc
  | S fuel' =>
      if 10 <=? u
      then fmtDigits fuel' (u / 10) (String (digitChar (u mod 10)) acc)
      else String (digitChar u) acc
  end.

Definition digits (u : Z) : string := fmtDigits 20 u EmptyString.

Fixpoint zeros (n : nat) : string :=
  match n with
  | O => EmptyString
  | S n' => String "0" (zeros n')
  end.

(** [%d] *)
Definition fmt_d (a : Z) : string :=
  if a <? 0 then String "-" (digits (- a)) else digits a.

(** [%02d]: width two, padded with zeros; a sign counts in the width. *)
Definition fmt_02d (a : Z) : string :=
  let ds := digits (Z.abs a) in
  let prec := if a <? 0 then 1%nat else 2%nat in
  let padded := (zeros (prec - String.length ds) ++ ds)%string in
  if a <? 0 then String "-" padded else padded.

End fmt.

(* ------------------------------------------------------------------ *)
(** ** Go's [time] package

    An instant is the pair Go keeps: whole seconds since
    0001-01-01T00:00:00Z and nanoseconds within the second.  The location is
    left out: the package builds every calendar value in its default
    [Timezone], UTC, and [period.go] reads instants only through [UnixNano],
    which ignores the location and the monotonic clock reading.  The
    second count and the calendar arithmetic are written on unbounded
    integers; they agree with Go's wherever the second count fits Go's
    64-bit field (some 292 billion years either side of year 1), beyond
    which Go's [Add] saturates. *)

Module time.

Record Time : Type := mkTime { sec : Z; nsec : Z }.

(** [time.Time{}] *)
Definition zeroTime : Time := mkTime 0 0.

(** A [time.Duration] is an [int64] count of nanoseconds. *)
Definition Duration : Type := Z.

Definition Nanosecond : Duration := 1.
Definition Second : Duration := 1000000000.

Definition secondsPerMinute : Z := 60.
Definition secondsPerHour : Z := 3600.
Definition secondsPerDay : Z := 86400.
Definition secondsPerWeek : Z := 604800.
Definition daysPer400Years : Z := 146097.
Definition daysPer100Years : Z := 36524.
Definition daysPer4Years : Z := 1461.

(** Seconds from 0001-01-01 to 1970-01-01, negated. *)
Definition internalToUnix : Z := -62135596800.

Definition unixSec (t : Time) : Z := sec t + internalToUnix.

(** [t.UnixNano()]: [unixSec*1e9 + nsec] in [int64] arithmetic. *)
Definition UnixNano (t : Time) : Z :=
  Int64.add (Int64.mul (unixSec t) 1000000000) (nsec t).

(** [time.Unix(sec, nsec)] *)
Definition Unix (s ns : Z) : Time :=
  let '(s, ns) :=
    if (ns <? 0) || (1000000000 <=? ns)
    then
      let n := Z.quot ns 1000000000 in
      let s := s + n in
      let ns := ns - n * 1000000000 in
      if ns <? 0 then (s - 1, ns + 1000000000) else (s, ns)
    else (s, ns) in
  mkTime (s - internalToUnix) ns.

(** [t.After(u)], [t.Before(u)], [t.Equal(u)] for wall-clock instants. *)
Definition After (t u : Time) : bool :=
  (sec u <? sec t) || ((sec t =? sec u) && (nsec u <? nsec t)).
Definition Before (t u : Time) : bool :=
  (sec t <? sec u) || ((sec t =? sec u) && (nsec t <? nsec u)).
Definition Equal (t u : Time) : bool :=
  (sec t =? sec u) && (nsec t =? nsec u).

(** [t.Add(d)] *)
Definition Add (t : Time) (d : Duration) : Time :=
  let dsec := Z.quot d 1000000000 in
  let ns := nsec t + Z.rem d 1000000000 in
  if 1000000000 <=? ns then mkTime (sec t + (dsec + 1)) (ns - 1000000000)
  else if ns <? 0 then mkTime (sec t + (dsec - 1)) (ns + 1000000000)
  else mkTime (sec t + dsec) ns.

Definition minDuration : Duration := Int64.min_int.
Definition maxDuration : Duration := Int64.max_int.

(** [t.Sub(u)]: the difference, saturated when it does not fit. *)
Definition Sub (t u : Time) : Duration :=
  let d := Int64.add (Int64.mul (Int64.sub (sec t) (sec u)) Second)
                     (nsec t - nsec u) in
  if Equal (Add u d) t then d
  else if Before t u then minDuration
  else maxDuration.

(** *** Calendar *)

Definition Sunday : Z := 0.
Definition Monday : Z := 1.
Definition Thursday : Z := 4.
Definition February : Z := 2.
Definition March : Z := 3.

(** [norm(hi, lo, base)] *)
Definition norm (hi lo base : Z) : Z * Z :=
  let '(hi, lo) :=
    if lo <? 0
    then let n := Z.quot (- lo - 1) base + 1 in (hi - n, lo + n * base)
    else (hi, lo) in
  if base <=? lo
  then let n := Z.quot lo base in (hi + n, lo - n * base)
  else (hi, lo).

Definition isLeap (year : Z) : bool :=
  (Z.rem year 4 =? 0) && (negb (Z.rem year 100 =? 0) || (Z.rem year 400 =? 0)).

(** [daysBefore[m]]: days in a non-leap year before month [m+1]. *)
Definition daysBefore (m : Z) : Z :=
  nth (Z.to_nat m) [0; 31; 59; 90; 120; 151; 181; 212; 243; 273; 304; 334; 365] 0.

Definition daysIn (m year : Z) : Z :=
  if (m =? February) && isLeap year then 29
  else daysBefore m - daysBefore (m - 1).

(** [daysSinceEpoch(year)], counted from 0001-01-01, the first day of a
    400-year cycle just as Go's absolute epoch is. *)
Definition daysSinceEpoch (year : Z) : Z :=
  let y := year - 1 in
  let n := y / 400 in
  let y := y - 400 * n in
  let d := daysPer400Years * n in
  let n := y / 100 in
  let y := y - 100 * n in
  let d := d + daysPer100Years * n in
  let n := y / 4 in
  let y := y - 4 * n in
  let d := d + daysPer4Years * n in
  let n := y in
  d + 365 * n.

(** [time.Date(year, month, day, hour, min, sec, nsec, UTC)].  The day and
    second counts are exact here; Go keeps them in 64 bits, and they wrap
    around for years further than some 292 billion from year 1.  What is
    proved of a date for a year that is not fixed is stated for the years
    of [calendarYear], where the two agree. *)
Definition Date (year month day hour min s ns : Z) : Time :=
  let m := month - 1 in
  let '(year, m) := norm year m 12 in
  let month := m + 1 in
  let '(s, ns) := norm s ns 1000000000 in
  let '(min, s) := norm min s 60 in
  let '(hour, min) := norm hour min 60 in
  let '(day, hour) := norm day hour 24 in
  let d := daysSinceEpoch year in
  let d := d + daysBefore (month - 1) in
  let d := if isLeap year && (March <=? month) then d + 1 else d in
  let d := d + (day - 1) in
  let abs := d * secondsPerDay in
  let abs := abs + (hour * secondsPerHour + min * secondsPerMinute + s) in
  mkTime abs ns.

(** The year and the day within the year of a day count ([absDate], first
    half). *)
Definition absYear (days : Z) : Z * Z :=
  let d := days in
  let n := d / daysPer400Years in
  let y := 400 * n in
  let d := d - daysPer400Years * n in
  let n := d / daysPer100Years in
  let n := n - Z.shiftr n 2 in
  let y := y + 100 * n in
  let d := d - daysPer100Years * n in
  let n := d / daysPer4Years in
  let y := y + 4 * n in
  let d := d - daysPer4Years * n in
  let n := d / 365 in
  let n := n - Z.shiftr n 2 in
  let y := y + n in
  let d := d - 365 * n in
  (y + 1, d).

(** The month and the day of the month of a day within a year ([absDate],
    second half). *)
Definition monthDay (leap : bool) (yday : Z) : Z * Z :=
  if leap && (yday =? 31 + 29 - 1) then (February, 29)
  else
    let day := if leap && (31 + 29 - 1 <? yday) then yday - 1 else yday in
    let month := day / 31 in
    let e := daysBefore (month + 1) in
    let '(month, begin) :=
      if e <=? day then (month + 1, e) else (month, daysBefore month) in
    (month + 1, day - begin + 1).

(** [absDate(abs, true)]: year, month, day, day of the year. *)
Definition absDate (abs : Z) : Z * Z * Z * Z :=
  let '(year, yday) := absYear (abs / secondsPerDay) in
  let '(month, day) := monthDay (isLeap year) yday in
  (year, month, day, yday).

(** [t.Date()] *)
Definition Time_Date (t : Time) : Z * Z * Z :=
  let '(year, month, day, _) := absDate (sec t) in (year, month, day).

(** [t.Clock()] *)
Definition Time_Clock (t : Time) : Z * Z * Z :=
  let s := sec t mod secondsPerDay in
  let hour := s / secondsPerHour in
  let s := s - hour * secondsPerHour in
  let min := s / secondsPerMinute in
  let s := s - min * secondsPerMinute in
  (hour, min, s).

(** [t.AddDate(years, months, days)] *)
Definition AddDate (t : Time) (years months days : Z) : Time :=
  let '(year, month, day) := Time_Date t in
  let '(hour, min, s) := Time_Clock t in
  Date (year + years) (month + months) (day + days) hour min s (nsec t).

(** [t.Weekday()] *)
Definition Weekday (t : Time) : Z :=
  let s := (sec t + Monday * secondsPerDay) mod secondsPerWeek in
  s / secondsPerDay.

(** [t.ISOWeek()]: the year and the week of the Thursday of [t]'s week. *)
Definition ISOWeek (t : Time) : Z * Z :=
  let abs := sec t in
  let d := Thursday - Weekday t in
  let d := if d =? 4 then -3 else d in
  let abs := abs + d * secondsPerDay in
  let '(year, yday) := absYear (abs / secondsPerDay) in
  (year, yday / 7 + 1).

(** *** Parsing with the layout ["2006-01-02 15:04:05"]

    [Parse] specialised to the one layout the package passes: a four-digit
    year, two-digit month and day, a run of spaces, an hour of one or two
    digits, two-digit minute and second, and the fractional second Go
    accepts after the seconds even though the layout has none. *)

Definition isDigit (c : ascii) : bool :=
  let n := nat_of_ascii c in ((48 <=? n) && (n <=? 57))%nat.

Definition digitVal (c : ascii) : Z := Z.of_nat (nat_of_ascii c) - 48.

Definition bind {A B : Type} (o : option A) (f : A -> option B) : option B :=
  match o with
  | Some a => f a
  | None => None
  end.

Notation "' p <- o ;; k" := (bind o (fun p => k))
  (at level 61, p pattern, o at next level, right associativity).
Notation "x <- o ;; k" := (bind o (fun x => k))
  (at level 61, o at next level, right associativity).

Definition guard (b : bool) : option unit := if b then Some tt else None.

(** The [stdLongYear] case: exactly four digits. *)
Definition getyear (s : string) : option (Z * string) :=
  match s with
  | String a (String b (String c (String d rest))) =>
      if isDigit a && isDigit b && isDigit c && isDigit d
      then Some (((digitVal a * 10 + digitVal b) * 10 + digitVal c) * 10
                 + digitVal d, rest)
      else None
  | _ => None
  end.

(** [getnum(s, fixed)] *)
Definition getnum (s : string) (fixed : bool) : option (Z * string) :=
  match s with
  | String c0 rest =>
      if isDigit c0 then
        match rest with
        | String c1 rest' =>
            if isDigit c1 then Some (digitVal c0 * 10 + digitVal c1, rest')
            else if fixed then None else Some (digitVal c0, rest)
        | EmptyString => if fixed then None else Some (digitVal c0, rest)
        end
      else None
  | EmptyString => None
  end.

(** [skip] for a one-character literal other than a space. *)
Definition skipChar (c : ascii) (s : string) : option string :=
  match s with
  | String c' rest => if Ascii.eqb c c' then Some rest else None
  | EmptyString => None
  end.

Fixpoint cutspace (s : string) : string :=
  match s with
  | String c rest => if Ascii.eqb c " " then cutspace rest else s
  | EmptyString => s
  end.

(** [skip] for a space of the layout: any run of spaces, or the end. *)
Definition skipSpace (s : string) : option string :=
  match s with
  | String c _ => if Ascii.eqb c " " then Some (cutspace s) else None
  | EmptyString => Some s
  end.

Fixpoint spanDigits (s : string) : string * string :=
  match s with
  | String c rest =>
      if isDigit c
      then let '(ds, r) := spanDigits rest in (String c ds, r)
      else (EmptyString, s)
  | EmptyString => (EmptyString, s)
  end.

(** The value of at most [n] leading digits of [ds], scaled to [n] digits. *)
Fixpoint fracValue (n : nat) (ds : string) (acc : Z) : Z :=
  match n with
  | O => acc
  | S n' =>
      match ds with
      | String c rest => fracValue n' rest (acc * 10 + digitVal c)
      | EmptyString => fracValue n' ds (acc * 10)
      end
  end.

Definition commaOrPeriod (c : ascii) : bool :=
  Ascii.eqb c "." || Ascii.eqb c ",".

(** The fractional second after the seconds field, when the input has one. *)
Definition fraction (s : string) : Z * string :=
  match s with
  | String c (String d r) =>
      if commaOrPeriod c && isDigit d
      then let '(ds, rest) := spanDigits (String d r) in
           (fracValue 9 ds 0, rest)
      else (0, s)
  | _ => (0, s)
  end.

Definition parseFields (value : string) : option Time :=
  '(year, value) <- getyear value ;;
  value <- skipChar "-" value ;;
  '(month, value) <- getnum value true ;;
  _ <- guard (negb ((month <=? 0) || (12 <? month))) ;;
  value <- skipChar "-" value ;;
  '(day, value) <- getnum value true ;;
  value <- skipSpace value ;;
  '(hour, value) <- getnum value false ;;
  _ <- guard (negb ((hour <? 0) || (24 <=? hour))) ;;
  value <- skipChar ":" value ;;
  '(min, value) <- getnum value true ;;
  _ <- guard (negb ((min <? 0) || (60 <=? min))) ;;
  value <- skipChar ":" value ;;
  '(s, value) <- getnum value true ;;
  _ <- guard (negb ((s <? 0) || (60 <=? s))) ;;
  let '(ns, value) := fraction value in
  _ <- guard (String.eqb value EmptyString) ;;
  _ <- guard (negb ((day <? 1) || (daysIn month year <? day))) ;;
  Some (Date year month day hour min s ns).

Inductive ParseError : Type := parseError.

(** [time.Parse("2006-01-02 15:04:05", value)]: on failure the zero [Time]
    and an error. *)
Definition Parse_YMDHIS (value : string) : Time * option ParseError :=
  match parseFields value with
  | Some t => (t, None)
  | None => (zeroTime, Some parseError)
  end.

End time.

(* ------------------------------------------------------------------ *)
(** ** The package: [period.go] *)

Module period.

Import time.

(** Modelled from the spec: the three error values are declared in a file of
    the package that is not among the sources; the spec names them
    OutOfRangeError, MustOverlapError and AbutsError, the code
    [OutOfRangeError], [ShouldOverlapsError] and [BothShouldNotAbuts]. *)
Inductive error : Type :=
  | OutOfRangeError
  | ShouldOverlapsError
  | BothShouldNotAbuts.

(** [var StartWeek time.Weekday = time.Monday] *)
Definition StartWeek : Z := Monday.

Record Period : Type := mkPeriod { Start : Time; End : Time }.

(** The zero value of [Period], what [var p Period] holds. *)
Definition zeroPeriod : Period := mkPeriod zeroTime zeroTime.

Definition compareDate (date1 date2 : Time) : Z :=
  if UnixNano date2 <? UnixNano date1 then 1
  else if UnixNano date1 <? UnixNano date2 then -1
  else 0.

Definition validateRange (value min max : Z) : Z * list error :=
  if (value <? min) || (max <? value)
  then (value, [OutOfRangeError])
  else (value, []).

(** [err != nil] for a slice of errors. *)
Definition notNil (err : list error) : bool :=
  match err with
  | [] => false
  | _ :: _ => true
  end.

(** [fmt.Sprintf("%d-%02d-01 00:00:00", year, month)] *)
Definition sprintfYearMonth (year month : Z) : string :=
  (fmt.fmt_d year ++ "-" ++ fmt.fmt_02d month ++ "-01 00:00:00")%string.

(** [fmt.Sprintf("%d-01-01 00:00:00", year)] *)
Definition sprintfYear (year : Z) : string :=
  (fmt.fmt_d year ++ "-01-01 00:00:00")%string.

(** A Go [for cond { body }] loop, run for at most [fuel] turns: [None]
    when the fuel runs out before the condition fails. *)
Fixpoint while {S : Type} (fuel : nat) (cond : S -> bool) (body : S -> S)
  (s : S) : option S :=
  match fuel with
  | O => if cond s then None else Some s
  | S fuel' => if cond s then while fuel' cond body (body s) else Some s
  end.

(** The variables the loops of [CreateFromWeek] update: [p.Start],
    [isoYear] and [isoWeek]. *)
Record weekState : Type :=
  mkWeekState { wsStart : Time; isoYear : Z; isoWeek : Z }.

(** [p.Start = p.Start.AddDate(0, 0, days)] followed by
    [isoYear, isoWeek = p.Start.ISOWeek()]. *)
Definition advance (days : Z) (s : weekState) : weekState :=
  let start := AddDate (wsStart s) 0 0 days in
  let '(y, w) := ISOWeek start in
  mkWeekState start y w.

(** [CreateFromWeek] with the package variable [StartWeek] as an argument.
    The loops walk over the exact dates of [Date] and [AddDate]: they stand
    for the loops of the code for the years of [calendarYear]. *)
Definition CreateFromWeekAt (startWeek : Z) (fuel : nat) (year week : Z)
  : option (Period * list error) :=
  let p := zeroPeriod in
  let '(week, err) := validateRange week 1 53 in
  if notNil err then Some (p, err)
  else
    let start := Date year 0 0 0 0 0 0 in
    let '(y, w) := ISOWeek start in
    s <- while fuel (fun s => negb (Weekday (wsStart s) =? Monday))
           (advance (-1)) (mkWeekState start y w) ;;
    s <- while fuel (fun s => isoYear s <? year) (advance 1) s ;;
    s <- while fuel (fun s => isoWeek s <? week) (advance 1) s ;;
    s <- while fuel (fun s => negb (Weekday (wsStart s) =? startWeek))
           (advance (startWeek - Monday)) s ;;
    Some (mkPeriod (wsStart s) (AddDate (wsStart s) 0 0 7), []).

Definition CreateFromWeek (fuel : nat) (year week : Z)
  : option (Period * list error) :=
  CreateFromWeekAt StartWeek fuel year week.

Definition CreateFromMonth (year month : Z) : Period * list error :=
  let p := zeroPeriod in
  let '(month, err) := validateRange month 1 12 in
  if notNil err then (p, err)
  else
    let start := fst (Parse_YMDHIS (sprintfYearMonth year month)) in
    (mkPeriod start (AddDate start 0 1 0), []).

Definition CreateFromQuarter (year quarter : Z) : Period * list error :=
  let p := zeroPeriod in
  let '(quarter, err) := validateRange quarter 1 4 in
  if notNil err then (p, err)
  else
    let start :=
      fst (Parse_YMDHIS (sprintfYearMonth year ((quarter - 1) * 3 + 1))) in
    (mkPeriod start (AddDate start 0 3 0), []).

Definition CreateFromSemester (year semester : Z) : Period * list error :=
  let p := zeroPeriod in
  let '(semester, err) := validateRange semester 1 2 in
  if notNil err then (p, err)
  else
    let start :=
      fst (Parse_YMDHIS (sprintfYearMonth year ((semester - 1) * 6 + 1))) in
    (mkPeriod start (AddDate start 0 6 0), []).

Definition CreateFromYear (year : Z) : Period * list error :=
  let start := fst (Parse_YMDHIS (sprintfYear year)) in
  (mkPeriod start (AddDate start 1 0 0), []).

Definition addDuration (date : Time) (duration : Duration) : Time :=
  Add date duration.

Definition subDuration (date : Time) (duration : Duration) : Time :=
  let sub := Int64.mul (Int64.neg duration) Nanosecond in
  Add date sub.

Definition CreateFromDuration (start : Time) (duration : Duration)
  : Period * list error :=
  (mkPeriod start (addDuration start duration), []).

Definition CreateFromDurationBeforeEnd (e : Time) (duration : Duration)
  : Period * list error :=
  (mkPeriod (subDuration e duration) e, []).

Definition Contains (p : Period) (index : Time) : bool :=
  (-1 <? compareDate index (Start p)) && (-1 =? compareDate index (End p)).

Definition StartingOn (p : Period) (start : Time) : Period :=
  mkPeriod start (End p).

Definition EndingOn (p : Period) (e : Time) : Period :=
  mkPeriod (Start p) e.

Definition GetDurationInterval (p : Period) : Duration :=
  let e := UnixNano (End p) in
  let start := UnixNano (Start p) in
  Int64.mul (Int64.sub e start) Nanosecond.

Definition WithDuration (p : Period) (duration : Duration) : Period :=
  mkPeriod (Start p) (addDuration (Start p) duration).

(** [Next] and [Previous] change the receiver; here they return it. *)
Definition Next (p : Period) : Period :=
  let clone := p in
  let duration := GetDurationInterval clone in
  mkPeriod (End clone) (addDuration (End clone) duration).

Definition Previous (p : Period) : Period :=
  let clone := p in
  let duration := GetDurationInterval clone in
  mkPeriod (subDuration (Start clone) duration) (Start clone).

(** [in_array(val, array)] on a slice of [int]: whether [val] occurs and the
    index of its first occurrence, [-1] when it does not. *)
Fixpoint in_array_from (i : Z) (val : Z) (array : list Z) : bool * Z :=
  match array with
  | [] => (false, -1)
  | x :: rest => if val =? x then (true, i) else in_array_from (i + 1) val rest
  end.

Definition in_array (val : Z) (array : list Z) : bool * Z :=
  in_array_from 0 val array.

Definition Abuts (p period : Period) : bool * Z :=
  in_array 0 [compareDate (Start p) (End period);
              compareDate (End p) (Start period)].

Definition Overlaps (p period : Period) : bool :=
  if fst (Abuts p period) then false
  else (-1 =? compareDate (Start p) (End period))
       && (1 =? compareDate (End p) (Start period)).

Definition SameValueAs (p period : Period) : bool :=
  (0 =? compareDate (Start p) (Start period))
  && (0 =? compareDate (End p) (End period)).

Definition IsAfter (p period : Period) : bool :=
  -1 <? compareDate (Start p) (Start period).

Definition IsBefore (p period : Period) : bool :=
  compareDate (End p) (End period) <? 1.

Definition createFromDatepoints (date1 date2 : Time) : Period :=
  if 1 =? compareDate date1 date2 then mkPeriod date2 date1
  else mkPeriod date1 date2.

Definition Diff (p period : Period) : list Period * list error :=
  if negb (Overlaps p period) then ([], [ShouldOverlapsError])
  else
    let res := [] in
    let period1 := createFromDatepoints (Start p) (Start period) in
    let period2 := createFromDatepoints (End p) (End period) in
    let res :=
      if negb (compareDate (Start period1) (End period1) =? 0)
      then res ++ [period1] else res in
    let res :=
      if negb (compareDate (Start period2) (End period2) =? 0)
      then res ++ [period2] else res in
    (res, []).

(** One turn of the loop of [Merge]. *)
Definition mergeStep (p period : Period) : Period :=
  let p :=
    if 1 =? compareDate (Start p) (Start period)
    then StartingOn p (Start period) else p in
  if -1 =? compareDate (End p) (End period)
  then EndingOn p (End period) else p.

Definition Merge (p : Period) (periods : list Period) : Period :=
  fold_left mergeStep periods p.

Definition Intersect (p period : Period) : Period * list error :=
  let newPeriod := zeroPeriod in
  if fst (Abuts p period) then (newPeriod, [BothShouldNotAbuts])
  else
    let newPeriod := mkPeriod (Start p) (End newPeriod) in
    let newPeriod :=
      if 1 =? compareDate (Start period) (Start p)
      then mkPeriod (Start period) (End newPeriod) else newPeriod in
    let newPeriod := mkPeriod (Start newPeriod) (End p) in
    let newPeriod :=
      if -1 =? compareDate (End period) (End p)
      then mkPeriod (Start newPeriod) (End period) else newPeriod in
    (newPeriod, []).

Definition CompareDuration (p period : Period) : Z :=
  compareDate (End p) (End period).

Definition DurationGreaterThan (p period : Period) : bool :=
  1 =? CompareDuration p period.

Definition DurationLessThan (p period : Period) : bool :=
  -1 =? CompareDuration p period.

Definition SameDurationAs (p period : Period) : bool :=
  0 =? CompareDuration p period.

(** [(p *Period) Add(duration)] and [(p *Period) Sub(duration)]; the names
    [Add] and [Sub] are those of the [time] package here. *)
Definition Period_Add (p : Period) (duration : Duration) : Period :=
  mkPeriod (Start p) (addDuration (End p) duration).

Definition Period_Sub (p : Period) (duration : Duration) : Period :=
  mkPeriod (Start p) (subDuration (End p) duration).

Definition Gap (p period : Period) : Period :=
  if 1 =? compareDate (Start period) (Start p)
  then mkPeriod (End p) (Start period)
  else mkPeriod (End period) (Start p).

Definition TimestampDurationDiff (p period : Period) : Z :=
  Int64.sub (GetDurationInterval p) (GetDurationInterval period).

Definition DurationDiff (p period : Period) : Duration :=
  Int64.mul (TimestampDurationDiff p period) Nanosecond.

End period.

(* ------------------------------------------------------------------ *)
(** ** The second copy of the package

    The sources hold a second file of package [period].  It compares
    instants with [After] and [Before] instead of [UnixNano], takes the
    duration with [Sub], and its [SameDurationAs] compares durations; its
    constructors return the error of [time.Parse], and it has
    [CreateFromDay] and the period methods [After] and [Before], which the
    first copy has not.  The functions that differ are embedded. *)

Module period_alt.

Import time.

Definition Period : Type := period.Period.
Definition Start : Period -> Time := period.Start.
Definition End : Period -> Time := period.End.

Definition compareDate (date1 date2 : Time) : Z :=
  if After date1 date2 then 1
  else if Before date1 date2 then -1
  else 0.

Definition GetDurationInterval (p : Period) : Duration :=
  Sub (End p) (Start p).

Definition CompareDuration (p period : Period) : Z :=
  compareDate (End p) (End period).

Definition DurationGreaterThan (p period : Period) : bool :=
  1 =? CompareDuration p period.

Definition DurationLessThan (p period : Period) : bool :=
  -1 =? CompareDuration p period.

Definition SameDurationAs (p period : Period) : bool :=
  GetDurationInterval p =? GetDurationInterval period.

(** This copy returns a single [error]: one of the package's error values or
    the failure of [time.Parse]. *)
Inductive error : Type :=
  | PeriodError (e : period.error)
  | ParseFailure (e : ParseError).

Definition validateRange (value min max : Z) : Z * option error :=
  if (value <? min) || (max <? value)
  then (value, Some (PeriodError period.OutOfRangeError))
  else (value, None).

(** [CreateFromDay]; its date is the exact one of [Date], that of the code
    for the years of [calendarYear]. *)
Definition CreateFromDay (year month day : Z) : Period * option error :=
  let p := period.zeroPeriod in
  let '(month, err) := validateRange month 1 12 in
  match err with
  | Some e => (p, Some e)
  | None =>
      let '(day, err) := validateRange day 1 31 in
      match err with
      | Some e => (p, Some e)
      | None =>
          let start := Date year month day 0 0 0 0 in
          (period.mkPeriod start (AddDate start 0 0 1), None)
      end
  end.

Definition CreateFromMonth (year month : Z) : Period * option error :=
  let p := period.zeroPeriod in
  let '(month, err) := validateRange month 1 12 in
  match err with
  | Some e => (p, Some e)
  | None =>
      let '(start, err) :=
        Parse_YMDHIS (period.sprintfYearMonth year month) in
      match err with
      | Some e => (period.mkPeriod start (End p), Some (ParseFailure e))
      | None => (period.mkPeriod start (AddDate start 0 1 0), None)
      end
  end.

Definition CreateFromYear (year : Z) : Period * option error :=
  let p := period.zeroPeriod in
  let '(start, err) := Parse_YMDHIS (period.sprintfYear year) in
  match err with
  | Some e => (period.mkPeriod start (End p), Some (ParseFailure e))
  | None => (period.mkPeriod start (AddDate start 1 0 0), None)
  end.

Definition Contains (p : Period) (index : Time) : bool :=
  (-1 <? compareDate index (Start p)) && (-1 =? compareDate index (End p)).

Definition Abuts (p period : Period) : bool * Z :=
  if Equal (Start p) (End period) || Equal (End p) (Start period)
  then
    let pos :=
      if compareDate (Start p) (End period) =? 0 then 0
      else if compareDate (End p) (Start period) =? 0 then 1
      else -1 in
    (true, pos)
  else (false, -1).

Definition Overlaps (p period : Period) : bool :=
  if fst (Abuts p period) then false
  else (-1 =? compareDate (Start p) (End period))
       && (1 =? compareDate (End p) (Start period)).

(** [(p *Period) After(period)] and [(p *Period) Before(period)]; the names
    [After] and [Before] are those of the [time] package here. *)
Definition Period_After (p period : Period) : bool :=
  After (Start p) (End period).

Definition Period_Before (p period : Period) : bool :=
  Before (End p) (Start period).

End period_alt.

(* ------------------------------------------------------------------ *)
(** ** Vocabulary of the statements *)

Module Import vocabulary.

Import time.

(** The exact count of nanoseconds since the Unix epoch. *)
Definition nanos (t : Time) : Z := unixSec t * 1000000000 + nsec t.

(** What Go keeps in the nanosecond field: a value below one second. *)
Definition wf_time (t : Time) : Prop := 0 <= nsec t < 1000000000.

(** The instants [UnixNano] is documented for: those whose nanosecond count
    fits an [int64] (years 1678 to 2262). *)
Definition representable (t : Time) : Prop := Int64.in_range (nanos t).

(** The extra day of a leap year. *)
Definition leapDay (year : Z) : Z := if isLeap year then 1 else 0.

(** The count of whole days since 0001-01-01, a Monday. *)
Definition dayOf (t : Time) : Z := sec t / secondsPerDay.

(** The instant [n] days later, at the same time of day. *)
Definition shiftDays (n : Z) (t : Time) : Time :=
  mkTime (sec t + n * secondsPerDay) (nsec t).

(** The Thursday of the Monday-to-Sunday week of a day. *)
Definition thursdayOf (d : Z) : Z :=
  let wd := (d + 1) mod 7 in
  d + (if Thursday - wd =? 4 then -3 else Thursday - wd).

(** [monthDay] inverts the count of days before a month. *)
Definition monthDay_ok (leap : bool) (yday : Z) : bool :=
  let '(m, d) := monthDay leap yday in
  (1 <=? m) && (m <=? 12)
  && (daysBefore (m - 1) + (if leap && (March <=? m) then 1 else 0) + (d - 1)
      =? yday).

Fixpoint allDigits (s : string) : bool :=
  match s with
  | EmptyString => true
  | String c rest => isDigit c && allDigits rest
  end.

(** The number of digits a string starts with. *)
Fixpoint leadingDigits (s : string) : nat :=
  match s with
  | EmptyString => O
  | String c rest => if isDigit c then S (leadingDigits rest) else O
  end.

(** The state after [n] turns of a loop body. *)
Fixpoint steps {S : Type} (body : S -> S) (n : nat) (s : S) : S :=
  match n with
  | O => s
  | Datatypes.S n' => steps body n' (body s)
  end.

(** The loop state of [CreateFromWeek] when [p.Start] is [t]. *)
Definition stateAt (t : Time) : period.weekState :=
  let '(y, w) := ISOWeek t in period.mkWeekState t y w.

(** Two periods that end together, [[0,10)] and [[5,10)] in seconds of Unix
    time: their ends compare equal, their durations differ. *)
Definition tenSeconds : period.Period :=
  period.mkPeriod (Unix 0 0) (Unix 10 0).
Definition lastFiveSeconds : period.Period :=
  period.mkPeriod (Unix 5 0) (Unix 10 0).

(** A period of five centuries, from 1700-01-01 to 2200-01-01: both ends
    lie in the range [UnixNano] is documented for, the distance between
    them does not fit a [Duration]. *)
Definition fiveCenturies : period.Period :=
  period.mkPeriod (Date 1700 1 1 0 0 0 0) (Date 2200 1 1 0 0 0 0).

(** A well-formed instant in the range [UnixNano] is documented for, and a
    period between two of them. *)
Definition ordinary (t : Time) : Prop := wf_time t /\ representable t.
Definition ordinaryPeriod (p : period.Period) : Prop :=
  ordinary (period.Start p) /\ ordinary (period.End p).

(** The day of the year, from 0, of a day of a month. *)
Definition yearDay (leap : bool) (m d : Z) : Z :=
  daysBefore (m - 1) + (if leap && (March <=? m) then 1 else 0) + (d - 1).

(** [monthDay] gives back the month and the day of a day of the year that
    was counted from them, for the days the month has. *)
Definition monthDay_back (leap : bool) (m d : Z) : bool :=
  let len :=
    if (m =? February) && leap then 29
    else daysBefore m - daysBefore (m - 1) in
  if d <=? len
  then
    let '(m', d') := monthDay leap (yearDay leap m d) in
    (m' =? m) && (d' =? d)
    && (yearDay leap m d <? 365 + (if leap then 1 else 0))
  else true.

(** A period between two instants in the range of [UnixNano]. *)
Definition representablePeriod (p : period.Period) : Prop :=
  representable (period.Start p) /\ representable (period.End p).

(** The years the calendar arithmetic is verified for.  Go keeps the second
    count of an instant in 64 bits, which hold some 292 billion years
    either side of year 1; within 100 billion years every count the
    constructors go through fits, and the exact arithmetic of [Date],
    [AddDate] and [ISOWeek] is that of the code. *)
Definition calendarYear (year : Z) : Prop :=
  -100000000000 <= year <= 100000000000.

(** The period from 1 January of one year to 1 January of another. *)
Definition years (a b : Z) : period.Period :=
  period.mkPeriod (Date a 1 1 0 0 0 0) (Date b 1 1 0 0 0 0).

(** The year 2262, in which the range of [UnixNano] ends (on 11 April), and
    its month of February, as the constructors return them. *)
Definition year2262 : period.Period := fst (period.CreateFromYear 2262).
Definition february2262 : period.Period :=
  fst (period.CreateFromMonth 2262 2).

(** The instant [2^64] nanoseconds after 1700-01-01: its [UnixNano] reading
    is that of 1700-01-01. *)
Definition readsAs1700 : Time := Date 2284 7 21 23 34 33 709551616.

End vocabulary.

Ltac zdiv := Z.to_euclidean_division_equations; lia.

(* ------------------------------------------------------------------ *)
(** ** Facts about 64-bit arithmetic *)

Section Int64Facts.

Import Int64.

Lemma wrap_in_range (x : Z) : in_range (wrap x).
Proof.
  unfold in_range, wrap, min_int, max_int.
  pose proof (Z.mod_pos_bound (x + 2 ^ 63) (2 ^ 64) ltac:(lia)). lia.
Qed.

Lemma wrap_small (x : Z) : in_range x -> wrap x = x.
Proof.
  unfold in_range, wrap, min_int, max_int. intros H.
  rewrite Z.mod_small; lia.
Qed.

Lemma wrap_congr (x y : Z) :
  x mod 2 ^ 64 = y mod 2 ^ 64 -> wrap x = wrap y.
Proof.
  intros H. unfold wrap. f_equal.
  rewrite <- (Z.add_mod_idemp_l x), <- (Z.add_mod_idemp_l y) by lia.
  now rewrite H.
Qed.

Lemma wrap_mod (x : Z) : wrap x mod 2 ^ 64 = x mod 2 ^ 64.
Proof.
  unfold wrap.
  rewrite Zminus_mod_idemp_l.
  replace (x + 2 ^ 63 - 2 ^ 63) with x by lia.
  reflexivity.
Qed.

Lemma wrap_add_l (x y : Z) : wrap (wrap x + y) = wrap (x + y).
Proof.
  apply wrap_congr.
  rewrite <- Z.add_mod_idemp_l, wrap_mod, Z.add_mod_idemp_l by lia.
  reflexivity.
Qed.

Lemma wrap_add_r (x y : Z) : wrap (x + wrap y) = wrap (x + y).
Proof. rewrite Z.add_comm, wrap_add_l. f_equal. lia. Qed.

Lemma wrap_sub_l (x y : Z) : wrap (wrap x - y) = wrap (x - y).
Proof. apply (wrap_add_l x (- y)). Qed.

Lemma wrap_sub_r (x y : Z) : wrap (x - wrap y) = wrap (x - y).
Proof.
  apply wrap_congr.
  rewrite <- Zminus_mod_idemp_r, wrap_mod, Zminus_mod_idemp_r.
  reflexivity.
Qed.

Lemma wrap_wrap (x : Z) : wrap (wrap x) = wrap x.
Proof. apply wrap_small, wrap_in_range. Qed.

Lemma mul_one (x : Z) : mul x 1 = wrap x.
Proof. unfold mul. f_equal. lia. Qed.

End Int64Facts.

(* ------------------------------------------------------------------ *)
(** ** Instants and their nanosecond readings *)

Section Instants.

Import time.

Lemma UnixNano_wrap (t : Time) : UnixNano t = Int64.wrap (nanos t).
Proof. unfold UnixNano, Int64.add, Int64.mul, nanos. apply wrap_add_l. Qed.

Lemma UnixNano_in_range (t : Time) : Int64.in_range (UnixNano t).
Proof. rewrite UnixNano_wrap. apply wrap_in_range. Qed.

Lemma UnixNano_exact (t : Time) : representable t -> UnixNano t = nanos t.
Proof. intros H. rewrite UnixNano_wrap. now apply wrap_small. Qed.

Lemma nanos_Add (t : Time) (d : Duration) : nanos (Add t d) = nanos t + d.
Proof.
  unfold Add, nanos, unixSec.
  pose proof (Z.quot_rem' d 1000000000) as E.
  destruct (1000000000 <=? _); [| destruct (_ <? 0)]; cbn [sec nsec]; lia.
Qed.

Lemma wf_Add (t : Time) (d : Duration) : wf_time t -> wf_time (Add t d).
Proof.
  unfold wf_time, Add. intros H.
  pose proof (Z.rem_bound_abs d 1000000000 ltac:(lia)) as B.
  destruct (Z.leb_spec 1000000000 (nsec t + Z.rem d 1000000000));
    [| destruct (Z.ltb_spec (nsec t + Z.rem d 1000000000) 0)];
    cbn [nsec]; lia.
Qed.

Lemma nanos_inj (t u : Time) :
  wf_time t -> wf_time u -> nanos t = nanos u -> t = u.
Proof.
  destruct t as [s n], u as [s' n']. unfold wf_time, nanos, unixSec.
  cbn [sec nsec]. intros H H' E.
  assert (s = s') by lia. subst. f_equal. lia.
Qed.

End Instants.

(* ------------------------------------------------------------------ *)
(** ** Endpoint comparison *)

Section Comparison.

Import time period.

Lemma compareDate_gt (a b : Time) :
  compareDate a b = 1 <-> UnixNano b < UnixNano a.
Proof.
  unfold compareDate.
  destruct (Z.ltb_spec (UnixNano b) (UnixNano a));
    [| destruct (Z.ltb_spec (UnixNano a) (UnixNano b))]; lia.
Qed.

Lemma compareDate_lt (a b : Time) :
  compareDate a b = -1 <-> UnixNano a < UnixNano b.
Proof.
  unfold compareDate.
  destruct (Z.ltb_spec (UnixNano b) (UnixNano a));
    [| destruct (Z.ltb_spec (UnixNano a) (UnixNano b))]; lia.
Qed.

Lemma compareDate_eq (a b : Time) :
  compareDate a b = 0 <-> UnixNano a = UnixNano b.
Proof.
  unfold compareDate.
  destruct (Z.ltb_spec (UnixNano b) (UnixNano a));
    [| destruct (Z.ltb_spec (UnixNano a) (UnixNano b))]; lia.
Qed.

Lemma compareDate_values (a b : Time) :
  compareDate a b = -1 \/ compareDate a b = 0 \/ compareDate a b = 1.
Proof.
  unfold compareDate.
  destruct (_ <? _); [| destruct (_ <? _)]; auto.
Qed.

(** X2. On the instants [UnixNano] is documented for, [compareDate] is the
    three-way comparison of the instants themselves. *)
Lemma compareDate_exact (a b : Time) :
  representable a -> representable b ->
  compareDate a b =
    match nanos a ?= nanos b with Lt => -1 | Eq => 0 | Gt => 1 end.
Proof.
  intros Ha Hb. unfold compareDate.
  rewrite !UnixNano_exact by assumption.
  destruct (Z.compare_spec (nanos a) (nanos b));
    destruct (Z.ltb_spec (nanos b) (nanos a));
    destruct (Z.ltb_spec (nanos a) (nanos b)); lia.
Qed.

Lemma Abuts_true (p q : Period) :
  fst (Abuts p q) = true <->
  compareDate (Start p) (End q) = 0 \/ compareDate (End p) (Start q) = 0.
Proof.
  unfold Abuts, in_array. cbn [in_array_from].
  generalize (compareDate (Start p) (End q)) (compareDate (End p) (Start q)).
  intros x y.
  destruct (Z.eqb_spec 0 x) as [Hx | Hx].
  - cbn [fst]. split; auto.
  - destruct (Z.eqb_spec 0 y) as [Hy | Hy]; cbn [fst].
    + split; auto.
    + split; [discriminate | intros [H | H]; congruence].
Qed.

Lemma Abuts_false (p q : Period) :
  fst (Abuts p q) = false <->
  compareDate (Start p) (End q) <> 0 /\ compareDate (End p) (Start q) <> 0.
Proof.
  pose proof (Abuts_true p q) as [H1 H2].
  destruct (fst (Abuts p q)).
  - split; [discriminate |]. intros [Ha Hb].
    destruct (H1 eq_refl) as [H | H]; [exact (False_ind _ (Ha H)) | exact (False_ind _ (Hb H))].
  - split; [| reflexivity]. intros _.
    split; intros E.
    + specialize (H2 (or_introl E)). discriminate H2.
    + specialize (H2 (or_intror E)). discriminate H2.
Qed.

End Comparison.

(* ------------------------------------------------------------------ *)
(** ** Containment and adjacency *)

Section Predicates.

Import time period.

(** [Overlaps] on the readings: [Overlaps(p, q)] is true exactly when
    [Abuts(p, q)] is false, [p.Start] compares strictly before [q.End] and
    [p.End] compares strictly after [q.Start]; the comparisons are those of
    [compareDate], that is of the nanosecond readings, which are not the
    instants outside the range of [UnixNano].  In particular abutting
    periods never overlap. *)
Theorem Overlaps_iff_not_abuts_and_strict (p q : Period) :
  (Overlaps p q = true <->
     fst (Abuts p q) = false
     /\ compareDate (Start p) (End q) = -1
     /\ compareDate (End p) (Start q) = 1)
  /\ (Overlaps p q = true <->
     fst (Abuts p q) = false
     /\ UnixNano (Start p) < UnixNano (End q)
     /\ UnixNano (Start q) < UnixNano (End p))
  /\ (fst (Abuts p q) = true -> Overlaps p q = false).
Proof.
  assert (E : Overlaps p q = true <->
     fst (Abuts p q) = false
     /\ compareDate (Start p) (End q) = -1
     /\ compareDate (End p) (Start q) = 1).
  { unfold Overlaps.
    generalize (compareDate (Start p) (End q)) (compareDate (End p) (Start q)).
    intros x y. destruct (fst (Abuts p q)).
    - split; [discriminate | intros [H _]; discriminate H].
    - rewrite andb_true_iff, !Z.eqb_eq. intuition lia. }
  split; [exact E | split].
  - rewrite E, compareDate_lt, compareDate_gt. reflexivity.
  - unfold Overlaps. intros ->. reflexivity.
Qed.

(** [Contains] on the readings: [Contains(p, t)] is true exactly when [t]
    compares greater than or equal to [p.Start] and strictly less than
    [p.End].  The comparison is [compareDate], which orders the nanosecond
    readings of the instants. *)
Theorem Contains_half_open (p : Period) (t : Time) :
  (Contains p t = true <->
     0 <= compareDate t (Start p) /\ compareDate t (End p) < 0)
  /\ (Contains p t = true <->
     UnixNano (Start p) <= UnixNano t < UnixNano (End p)).
Proof.
  assert (E : Contains p t = true <->
     0 <= compareDate t (Start p) /\ compareDate t (End p) < 0).
  { unfold Contains. rewrite andb_true_iff, Z.ltb_lt, Z.eqb_eq.
    pose proof (compareDate_values t (End p)).
    generalize dependent (compareDate t (End p)).
    generalize (compareDate t (Start p)). intros; lia. }
  split; [exact E |].
  rewrite E.
  pose proof (compareDate_values t (Start p)) as V1.
  pose proof (compareDate_values t (End p)) as V2.
  pose proof (compareDate_lt t (Start p)) as L1.
  pose proof (compareDate_lt t (End p)) as L2.
  generalize dependent (compareDate t (End p)).
  generalize dependent (compareDate t (Start p)).
  intros x L1 V1 y L2 V2. lia.
Qed.

End Predicates.

(* ------------------------------------------------------------------ *)
(** ** Derived periods *)

Section Derived.

Import time period.

Lemma createFromDatepoints_spec (a b : Time) :
  let r := createFromDatepoints a b in
  ((Start r = a /\ End r = b) \/ (Start r = b /\ End r = a))
  /\ UnixNano (Start r) = Z.min (UnixNano a) (UnixNano b)
  /\ UnixNano (End r) = Z.max (UnixNano a) (UnixNano b).
Proof.
  unfold createFromDatepoints.
  pose proof (compareDate_gt a b) as G.
  destruct (Z.eqb_spec 1 (compareDate a b)) as [E | E]; cbn [Start End].
  - symmetry in E. apply G in E. split; [right; auto | lia].
  - assert (~ UnixNano b < UnixNano a) by (intros H; apply G in H; congruence).
    split; [left; auto | lia].
Qed.

Lemma Intersect_not_abuts (p q : Period) :
  fst (Abuts p q) = false ->
  exists r, Intersect p q = (r, [])
    /\ (Start r = Start p \/ Start r = Start q)
    /\ UnixNano (Start r) = Z.max (UnixNano (Start p)) (UnixNano (Start q))
    /\ (End r = End p \/ End r = End q)
    /\ UnixNano (End r) = Z.min (UnixNano (End p)) (UnixNano (End q)).
Proof.
  intros A. unfold Intersect. rewrite A.
  pose proof (compareDate_gt (Start q) (Start p)) as G.
  pose proof (compareDate_lt (End q) (End p)) as L.
  destruct (Z.eqb_spec 1 (compareDate (Start q) (Start p))) as [E1 | E1];
    destruct (Z.eqb_spec (-1) (compareDate (End q) (End p))) as [E2 | E2];
    cbn [Start End]; eexists; (split; [reflexivity |]); cbn [Start End];
    try (symmetry in E1; apply G in E1);
    try (symmetry in E2; apply L in E2);
    try (assert (~ UnixNano (Start p) < UnixNano (Start q))
           by (intros H; apply G in H; congruence));
    try (assert (~ UnixNano (End q) < UnixNano (End p))
           by (intros H; apply L in H; congruence));
    repeat split; auto; lia.
Qed.

(** [Intersect] on the readings: [Intersect(p, q)] fails with
    [BothShouldNotAbuts] exactly when the periods abut, that is when
    [p.Start] compares equal to [q.End] or [p.End] to [q.Start]; otherwise
    it returns, without error, the period from the start with the greater
    reading to the end with the smaller reading.  With [p = [0,10)] and
    [q = [5,15)] (seconds of Unix time) it returns [[5,10)]. *)
Theorem Intersect_abuts_or_max_min (p q : Period) :
  (fst (Abuts p q) = true ->
     Intersect p q = (zeroPeriod, [BothShouldNotAbuts]))
  /\ (fst (Abuts p q) = false ->
      exists r, Intersect p q = (r, [])
        /\ (Start r = Start p \/ Start r = Start q)
        /\ UnixNano (Start r) = Z.max (UnixNano (Start p)) (UnixNano (Start q))
        /\ (End r = End p \/ End r = End q)
        /\ UnixNano (End r) = Z.min (UnixNano (End p)) (UnixNano (End q)))
  /\ (snd (Intersect p q) = [BothShouldNotAbuts] <->
      UnixNano (Start p) = UnixNano (End q)
      \/ UnixNano (End p) = UnixNano (Start q))
  /\ Intersect (mkPeriod (Unix 0 0) (Unix 10 0))
               (mkPeriod (Unix 5 0) (Unix 15 0))
     = (mkPeriod (Unix 5 0) (Unix 10 0), []).
Proof.
  split; [| split; [| split]].
  - intros A. unfold Intersect. rewrite A. reflexivity.
  - apply Intersect_not_abuts.
  - rewrite <- !compareDate_eq, <- Abuts_true.
    destruct (fst (Abuts p q)) eqn:A.
    + unfold Intersect. rewrite A. split; reflexivity.
    + destruct (Intersect_not_abuts p q A) as (r & -> & _).
      split; discriminate.
  - vm_compute. reflexivity.
Qed.

(** [Diff] on the readings: [Diff(p, q)] fails with [ShouldOverlapsError]
    exactly when [Overlaps(p, q)] is false.  When the periods overlap it
    returns the leading slice, between the two starts, and the trailing
    slice, between the two ends, each ordered by the readings of its ends
    and kept only when they differ; so at most two periods are returned
    and in each the start compares before the end. *)
Theorem Diff_must_overlap_or_fringe (p q : Period) :
  let lead := createFromDatepoints (Start p) (Start q) in
  let trail := createFromDatepoints (End p) (End q) in
  (Overlaps p q = false -> Diff p q = ([], [ShouldOverlapsError]))
  /\ (Overlaps p q = true ->
      Diff p q =
        (filter (fun r => negb (compareDate (Start r) (End r) =? 0))
                [lead; trail], []))
  /\ (snd (Diff p q) = [ShouldOverlapsError] <-> Overlaps p q = false)
  /\ UnixNano (Start lead) = Z.min (UnixNano (Start p)) (UnixNano (Start q))
  /\ UnixNano (End lead) = Z.max (UnixNano (Start p)) (UnixNano (Start q))
  /\ UnixNano (Start trail) = Z.min (UnixNano (End p)) (UnixNano (End q))
  /\ UnixNano (End trail) = Z.max (UnixNano (End p)) (UnixNano (End q))
  /\ (List.length (fst (Diff p q)) <= 2)%nat
  /\ (forall r, In r (fst (Diff p q)) ->
        compareDate (Start r) (End r) = -1).
Proof.
  intros lead trail.
  pose proof (createFromDatepoints_spec (Start p) (Start q)) as (_ & L1 & L2).
  pose proof (createFromDatepoints_spec (End p) (End q)) as (_ & T1 & T2).
  fold lead in L1, L2. fold trail in T1, T2.
  assert (D : Overlaps p q = true ->
      Diff p q =
        (filter (fun r => negb (compareDate (Start r) (End r) =? 0))
                [lead; trail], [])).
  { intros O. unfold Diff. rewrite O. cbn [negb filter].
    fold lead. fold trail.
    destruct (negb (compareDate (Start lead) (End lead) =? 0));
      destruct (negb (compareDate (Start trail) (End trail) =? 0));
      reflexivity. }
  assert (F : Overlaps p q = false -> Diff p q = ([], [ShouldOverlapsError])).
  { intros O. unfold Diff. rewrite O. reflexivity. }
  assert (Sorted : forall r, r = lead \/ r = trail ->
            negb (compareDate (Start r) (End r) =? 0) = true ->
            compareDate (Start r) (End r) = -1).
  { intros r Hr N. apply negb_true_iff, Z.eqb_neq in N.
    apply compareDate_lt.
    assert (UnixNano (Start r) <> UnixNano (End r))
      by (intros E; apply compareDate_eq in E; exact (N E)).
    destruct Hr; subst r; lia. }
  repeat split; auto.
  - intros S. destruct (Overlaps p q) eqn:O; [| reflexivity].
    rewrite (D eq_refl) in S. discriminate S.
  - intros O. rewrite (F O). reflexivity.
  - destruct (Overlaps p q) eqn:O.
    + rewrite (D eq_refl). cbn [fst].
      etransitivity; [apply filter_length_le | cbn; lia].
    + rewrite (F eq_refl). cbn. lia.
  - intros r. destruct (Overlaps p q) eqn:O.
    + rewrite (D eq_refl). cbn [fst]. intros I.
      apply filter_In in I. destruct I as [I N].
      apply Sorted; [| exact N].
      cbn [In] in I. intuition.
    + rewrite (F eq_refl). cbn [fst In]. intros [].
Qed.

End Derived.

(* ------------------------------------------------------------------ *)
(** ** Merge *)

Section MergeEnvelope.

Import time period.

Lemma mergeStep_Start (p x : Period) :
  (Start (mergeStep p x) = Start p \/ Start (mergeStep p x) = Start x)
  /\ UnixNano (Start (mergeStep p x))
     = Z.min (UnixNano (Start p)) (UnixNano (Start x)).
Proof.
  unfold mergeStep, StartingOn, EndingOn.
  pose proof (compareDate_gt (Start p) (Start x)) as G.
  destruct (Z.eqb_spec 1 (compareDate (Start p) (Start x))) as [E | E];
    destruct (-1 =? _); cbn [Start End].
  all: try (symmetry in E; apply G in E).
  all: try (assert (~ UnixNano (Start x) < UnixNano (Start p))
              by (intros H; apply G in H; congruence)).
  all: split; auto; lia.
Qed.

Lemma mergeStep_End (p x : Period) :
  (End (mergeStep p x) = End p \/ End (mergeStep p x) = End x)
  /\ UnixNano (End (mergeStep p x))
     = Z.max (UnixNano (End p)) (UnixNano (End x)).
Proof.
  unfold mergeStep, StartingOn, EndingOn.
  destruct (1 =? compareDate (Start p) (Start x)); cbn [Start End].
  all: pose proof (compareDate_lt (End p) (End x)) as L.
  all: destruct (Z.eqb_spec (-1) (compareDate (End p) (End x))) as [E | E];
    cbn [Start End].
  all: try (symmetry in E; apply L in E).
  all: try (assert (~ UnixNano (End p) < UnixNano (End x))
              by (intros H; apply L in H; congruence)).
  all: split; auto; lia.
Qed.

Lemma Merge_Start (periods : list Period) : forall p,
  In (Start (Merge p periods)) (map Start (p :: periods))
  /\ (forall x, In x (p :: periods) ->
        UnixNano (Start (Merge p periods)) <= UnixNano (Start x)).
Proof.
  induction periods as [| y l IH]; intros p.
  - cbn. split; [auto | intros x [<- | []]; lia].
  - change (Merge p (y :: l)) with (Merge (mergeStep p y) l).
    destruct (IH (mergeStep p y)) as [I B].
    destruct (mergeStep_Start p y) as [S M].
    split.
    + cbn [map In] in I |- *. destruct I as [I | I]; [| auto].
      rewrite <- I. destruct S as [S | S]; rewrite S; auto.
    + intros x Hx.
      assert (UnixNano (Start (Merge (mergeStep p y) l))
              <= UnixNano (Start (mergeStep p y))) by (apply B; left; auto).
      destruct Hx as [<- | [<- | Hx]]; [lia | lia |].
      apply B. right. exact Hx.
Qed.

Lemma Merge_End (periods : list Period) : forall p,
  In (End (Merge p periods)) (map End (p :: periods))
  /\ (forall x, In x (p :: periods) ->
        UnixNano (End x) <= UnixNano (End (Merge p periods))).
Proof.
  induction periods as [| y l IH]; intros p.
  - cbn. split; [auto | intros x [<- | []]; lia].
  - change (Merge p (y :: l)) with (Merge (mergeStep p y) l).
    destruct (IH (mergeStep p y)) as [I B].
    destruct (mergeStep_End p y) as [S M].
    split.
    + cbn [map In] in I |- *. destruct I as [I | I]; [| auto].
      rewrite <- I. destruct S as [S | S]; rewrite S; auto.
    + intros x Hx.
      assert (UnixNano (End (mergeStep p y))
              <= UnixNano (End (Merge (mergeStep p y) l)))
        by (apply B; left; auto).
      destruct Hx as [<- | [<- | Hx]]; [lia | lia |].
      apply B. right. exact Hx.
Qed.

(** [Merge] on the readings: after [Merge(p, periods...)] the receiver's
    [Start] and [End] are among the given endpoints, and no given start
    compares before the start nor any given end after the end.  Two merges
    of the same periods in different orders, the receiver included, have
    the same value ([SameValueAs]). *)
Theorem Merge_envelope (p : Period) (periods : list Period) :
  In (Start (Merge p periods)) (map Start (p :: periods))
  /\ In (End (Merge p periods)) (map End (p :: periods))
  /\ (forall x, In x (p :: periods) ->
        compareDate (Start (Merge p periods)) (Start x) <> 1
        /\ compareDate (End (Merge p periods)) (End x) <> -1)
  /\ (forall x, In x (p :: periods) ->
        UnixNano (Start (Merge p periods)) <= UnixNano (Start x)
        /\ UnixNano (End x) <= UnixNano (End (Merge p periods)))
  /\ (forall p' periods', Permutation (p :: periods) (p' :: periods') ->
        SameValueAs (Merge p periods) (Merge p' periods') = true).
Proof.
  destruct (Merge_Start periods p) as [IS BS].
  destruct (Merge_End periods p) as [IE BE].
  repeat split; auto.
  - intros C. apply compareDate_gt in C. specialize (BS x H). lia.
  - intros C. apply compareDate_lt in C. specialize (BE x H). lia.
  - intros p' periods' P.
    destruct (Merge_Start periods' p') as [IS' BS'].
    destruct (Merge_End periods' p') as [IE' BE'].
    unfold SameValueAs. apply andb_true_iff.
    split; apply Z.eqb_eq; symmetry; apply compareDate_eq.
    + apply in_map_iff in IS. destruct IS as (a & Ea & Ia).
      apply in_map_iff in IS'. destruct IS' as (b & Eb & Ib).
      pose proof (BS b (Permutation_in _ (Permutation_sym P) Ib)).
      pose proof (BS' a (Permutation_in _ P Ia)).
      rewrite <- Ea, <- Eb in *. lia.
    + apply in_map_iff in IE. destruct IE as (a & Ea & Ia).
      apply in_map_iff in IE'. destruct IE' as (b & Eb & Ib).
      pose proof (BE b (Permutation_in _ (Permutation_sym P) Ib)).
      pose proof (BE' a (Permutation_in _ P Ia)).
      rewrite <- Ea, <- Eb in *. lia.
Qed.

(** X4. When every endpoint is an instant [UnixNano] is documented for,
    merging the same periods in any order, the receiver included, gives the
    very same period. *)
Theorem Merge_order_independent (p p' : Period) (l l' : list Period) :
  (forall x, In x (p :: l) ->
     wf_time (Start x) /\ representable (Start x)
     /\ wf_time (End x) /\ representable (End x)) ->
  Permutation (p :: l) (p' :: l') ->
  Merge p l = Merge p' l'.
Proof.
  intros G P.
  assert (G' : forall x, In x (p' :: l') ->
     wf_time (Start x) /\ representable (Start x)
     /\ wf_time (End x) /\ representable (End x)).
  { intros x Hx. apply G. apply (Permutation_in _ (Permutation_sym P) Hx). }
  destruct (Merge_Start l p) as [IS BS]. destruct (Merge_End l p) as [IE BE].
  destruct (Merge_Start l' p') as [IS' BS'].
  destruct (Merge_End l' p') as [IE' BE'].
  apply in_map_iff in IS, IE, IS', IE'.
  destruct IS as (a & Ea & Ia). destruct IE as (b & Eb & Ib).
  destruct IS' as (a' & Ea' & Ia'). destruct IE' as (b' & Eb' & Ib').
  pose proof (BS a' (Permutation_in _ (Permutation_sym P) Ia')) as S1.
  pose proof (BS' a (Permutation_in _ P Ia)) as S2.
  pose proof (BE b' (Permutation_in _ (Permutation_sym P) Ib')) as E1.
  pose proof (BE' b (Permutation_in _ P Ib)) as E2.
  destruct (G a Ia) as (Wa & Ra & _). destruct (G b Ib) as (_ & _ & Wb & Rb).
  destruct (G' a' Ia') as (Wa' & Ra' & _).
  destruct (G' b' Ib') as (_ & _ & Wb' & Rb').
  destruct (Merge p l) as [s e]. destruct (Merge p' l') as [s' e'].
  cbn [Start End] in *. subst s e s' e'.
  rewrite !UnixNano_exact in S1, S2, E1, E2 by assumption.
  f_equal; apply nanos_inj; try assumption; lia.
Qed.

Lemma Merge_order_independent_witness :
  Merge tenSeconds [lastFiveSeconds] = Merge lastFiveSeconds [tenSeconds].
Proof.
  refine (Merge_order_independent tenSeconds lastFiveSeconds
            [lastFiveSeconds] [tenSeconds] _ (perm_swap _ _ _)).
  intros x [<- | [<- | []]]; vm_compute;
    repeat split; discriminate.
Defined.

End MergeEnvelope.

(* ------------------------------------------------------------------ *)
(** ** Duration comparisons *)

Section DurationComparison.

Import time.

(** C7, on the second copy of the package: there [SameDurationAs] is not
    "the comparison of the ends is 0".  For [[0,10)] and [[5,10)] the ends
    compare equal, yet [SameDurationAs] is false, the durations being 10 s
    and 5 s. *)
Lemma alt_SameDurationAs_is_not_end_comparison :
  period_alt.CompareDuration tenSeconds lastFiveSeconds = 0
  /\ period_alt.SameDurationAs tenSeconds lastFiveSeconds = false
  /\ period_alt.SameDurationAs tenSeconds lastFiveSeconds
     <> (0 =? period_alt.CompareDuration tenSeconds lastFiveSeconds).
Proof. vm_compute. repeat split. discriminate. Qed.

(** The duration comparisons as [compareDate] of the ends.  In [period.go],
    [CompareDuration(p, q)] is [compareDate] of [p.End] and [q.End], that
    is the comparison of their readings, and [DurationGreaterThan],
    [DurationLessThan] and [SameDurationAs] tell whether it is [+1], [-1]
    and [0].  In the second copy of the package [CompareDuration] is its
    own [compareDate] of the ends, by [After] and [Before], and
    [SameDurationAs] tells whether the two durations, [End.Sub(Start)], are
    equal. *)
Theorem CompareDuration_compares_ends (p q : period.Period) :
  period.CompareDuration p q = period.compareDate (period.End p) (period.End q)
  /\ (period.CompareDuration p q = 1 <->
        UnixNano (period.End q) < UnixNano (period.End p))
  /\ (period.CompareDuration p q = -1 <->
        UnixNano (period.End p) < UnixNano (period.End q))
  /\ (period.CompareDuration p q = 0 <->
        UnixNano (period.End p) = UnixNano (period.End q))
  /\ period.DurationGreaterThan p q = (period.CompareDuration p q =? 1)
  /\ period.DurationLessThan p q = (period.CompareDuration p q =? -1)
  /\ period.SameDurationAs p q = (period.CompareDuration p q =? 0)
  /\ period.SameDurationAs tenSeconds lastFiveSeconds = true
  /\ period_alt.CompareDuration p q
     = period_alt.compareDate (period.End p) (period.End q)
  /\ (period_alt.CompareDuration p q = 1 <->
        After (period.End p) (period.End q) = true)
  /\ (period_alt.CompareDuration p q = -1 <->
        After (period.End p) (period.End q) = false
        /\ Before (period.End p) (period.End q) = true)
  /\ period_alt.DurationGreaterThan p q = (period_alt.CompareDuration p q =? 1)
  /\ period_alt.DurationLessThan p q = (period_alt.CompareDuration p q =? -1)
  /\ period_alt.SameDurationAs p q
     = (Sub (period.End p) (period.Start p)
        =? Sub (period.End q) (period.Start q)).
Proof.
  unfold period.DurationGreaterThan, period.DurationLessThan,
    period.SameDurationAs, period_alt.DurationGreaterThan,
    period_alt.DurationLessThan, period_alt.SameDurationAs,
    period_alt.GetDurationInterval, period_alt.End, period_alt.Start.
  repeat match goal with |- _ /\ _ => split end;
    try reflexivity; try apply Z.eqb_sym.
  - apply compareDate_gt.
  - apply compareDate_lt.
  - apply compareDate_eq.
  - unfold period_alt.CompareDuration, period_alt.compareDate,
      period_alt.End.
    destruct (After _ _); [| destruct (Before _ _)];
      split; congruence.
  - unfold period_alt.CompareDuration, period_alt.compareDate,
      period_alt.End.
    destruct (After _ _); [| destruct (Before _ _)];
      split; try congruence; try (intros [? ?]; congruence); auto.
Qed.

End DurationComparison.

(* ------------------------------------------------------------------ *)
(** ** Next and Previous *)

Section NextPrevious.

Import time period.

Lemma GetDurationInterval_wrap (p : Period) :
  GetDurationInterval p = Int64.wrap (nanos (End p) - nanos (Start p)).
Proof.
  unfold GetDurationInterval, Nanosecond.
  rewrite mul_one. unfold Int64.sub. rewrite wrap_wrap, !UnixNano_wrap.
  rewrite wrap_sub_l, wrap_sub_r. reflexivity.
Qed.

Lemma GetDurationInterval_exact (p : Period) :
  Int64.in_range (nanos (End p) - nanos (Start p)) ->
  GetDurationInterval p = nanos (End p) - nanos (Start p).
Proof. intros H. rewrite GetDurationInterval_wrap. now apply wrap_small. Qed.

Lemma nanos_subDuration (t : Time) (d : Duration) :
  nanos (subDuration t d) = nanos t + Int64.wrap (- d).
Proof.
  unfold subDuration, Nanosecond, Int64.neg.
  rewrite mul_one, wrap_wrap. apply nanos_Add.
Qed.

(** C9, where it fails: for the period from 1700 to 2200 the duration
    [Next] adds is not the distance from start to end, and [Next] followed
    by [Previous] leaves the start at 2284-07-21T23:34:33.709551616Z. *)
Lemma Next_Previous_five_centuries :
  representable (Start fiveCenturies) /\ representable (End fiveCenturies)
  /\ wf_time (Start fiveCenturies) /\ wf_time (End fiveCenturies)
  /\ nanos (End (Next fiveCenturies))
     <> nanos (End fiveCenturies)
        + (nanos (End fiveCenturies) - nanos (Start fiveCenturies))
  /\ Start (Previous (Next fiveCenturies)) <> Start fiveCenturies
  /\ Start (Previous (Next fiveCenturies))
     = Date 2284 7 21 23 34 33 709551616.
Proof.
  vm_compute. repeat split; discriminate.
Qed.

(** C9, as the code has it.  [Next(p)] sets the new start to the old end
    and the new end to the old end plus [GetDurationInterval(p)].  When the
    distance from start to end lies strictly between [-2^63] and [2^63]
    nanoseconds (some 292 years), that duration is the distance itself, the
    new end is the old end plus end minus start, and [Next] followed by
    [Previous] restores the original [Start]. *)
Theorem Next_then_Previous_restores_Start (p : Period) :
  wf_time (Start p) -> wf_time (End p) ->
  - 2 ^ 63 < nanos (End p) - nanos (Start p) < 2 ^ 63 ->
  Start (Next p) = End p
  /\ End (Next p) = Add (End p) (GetDurationInterval p)
  /\ GetDurationInterval p = nanos (End p) - nanos (Start p)
  /\ nanos (End (Next p))
     = nanos (End p) + (nanos (End p) - nanos (Start p))
  /\ Start (Previous (Next p)) = Start p
  /\ End (Previous (Next p)) = End p.
Proof.
  intros WS WE R.
  assert (IR : Int64.in_range (nanos (End p) - nanos (Start p)))
    by (unfold Int64.in_range, Int64.min_int, Int64.max_int; lia).
  pose proof (GetDurationInterval_exact p IR) as D.
  assert (N : nanos (End (Next p))
              = nanos (End p) + (nanos (End p) - nanos (Start p))).
  { unfold Next, addDuration. cbn [End]. rewrite nanos_Add, D. reflexivity. }
  assert (D' : GetDurationInterval (Next p)
               = nanos (End p) - nanos (Start p)).
  { rewrite GetDurationInterval_wrap, N.
    change (Start (Next p)) with (End p).
    replace (nanos (End p) + (nanos (End p) - nanos (Start p)) - nanos (End p))
      with (nanos (End p) - nanos (Start p)) by lia.
    now apply wrap_small. }
  repeat match goal with |- _ /\ _ => split end;
    try reflexivity; try assumption.
  unfold Previous. cbn [Start].
  change (Start (Next p)) with (End p).
  apply nanos_inj.
  - unfold subDuration. apply wf_Add. exact WE.
  - exact WS.
  - rewrite nanos_subDuration, D'.
    rewrite wrap_small; [lia |].
    unfold Int64.in_range, Int64.min_int, Int64.max_int. lia.
Qed.

(** X3. For every period, whatever its length, [Next] followed by [Previous]
    brings back a start with the nanosecond reading of the original one, so
    that [compareDate] finds them equal. *)
Lemma Next_then_Previous_same_reading (p : Period) :
  compareDate (Start (Previous (Next p))) (Start p) = 0.
Proof.
  apply compareDate_eq. rewrite !UnixNano_wrap.
  unfold Previous. cbn [Start].
  change (Start (Next p)) with (End p).
  rewrite nanos_subDuration, GetDurationInterval_wrap.
  change (Start (Next p)) with (End p).
  unfold Next, addDuration. cbn [End]. rewrite nanos_Add.
  rewrite GetDurationInterval_wrap.
  apply wrap_congr.
  set (e := nanos (End p)). set (s := nanos (Start p)).
  replace (e + Int64.wrap (e - s) - e) with (Int64.wrap (e - s)) by lia.
  rewrite <- Z.add_mod_idemp_r, wrap_mod by lia.
  rewrite Z.add_mod_idemp_r by lia.
  rewrite wrap_wrap.
  rewrite <- (Z.add_mod_idemp_r e), <- Z.sub_0_l by lia.
  rewrite <- Zminus_mod_idemp_r, wrap_mod, Zminus_mod_idemp_r.
  rewrite Z.add_mod_idemp_r by lia.
  f_equal. lia.
Qed.

Lemma Next_then_Previous_restores_Start_witness :
  wf_time (Start tenSeconds) /\ wf_time (End tenSeconds)
  /\ Start (Previous (Next tenSeconds)) = Start tenSeconds.
Proof.
  refine (conj _ (conj _ _)).
  - vm_compute. split; [discriminate | reflexivity].
  - vm_compute. split; [discriminate | reflexivity].
  - refine (proj1 (proj2 (proj2 (proj2 (proj2
      (Next_then_Previous_restores_Start tenSeconds _ _ _)))))).
    + vm_compute. split; [discriminate | reflexivity].
    + vm_compute. split; [discriminate | reflexivity].
    + vm_compute. split; reflexivity.
Defined.

End NextPrevious.

(* ------------------------------------------------------------------ *)
(** ** Rendering a year and parsing it back *)

Section YearText.

Import time fmt.
Local Open Scope string_scope.

Lemma isDigit_digitChar (d : Z) :
  (0 <= d <= 9)%Z -> isDigit (digitChar d) = true.
Proof.
  intros H.
  assert (C : (d = 0 \/ d = 1 \/ d = 2 \/ d = 3 \/ d = 4 \/ d = 5 \/ d = 6
               \/ d = 7 \/ d = 8 \/ d = 9)%Z) by lia.
  repeat (destruct C as [-> | C]; [reflexivity |]). subst. reflexivity.
Qed.

Lemma isDigit_not_dash (c : ascii) :
  isDigit c = true -> Ascii.eqb "-" c = false.
Proof.
  destruct c as [b0 b1 b2 b3 b4 b5 b6 b7].
  destruct b0, b1, b2, b3, b4, b5, b6, b7; vm_compute; congruence.
Qed.

Lemma append_assoc (s t u : string) : (s ++ t) ++ u = s ++ (t ++ u).
Proof.
  induction s as [| c s IH]; cbn [append]; [reflexivity | now rewrite IH].
Qed.

Lemma length_append (s t : string) :
  String.length (s ++ t) = (String.length s + String.length t)%nat.
Proof.
  induction s as [| c s IH]; cbn [append String.length];
    [reflexivity | now rewrite IH].
Qed.

Lemma allDigits_app (s t : string) :
  allDigits (s ++ t) = allDigits s && allDigits t.
Proof.
  induction s as [| c s IH]; cbn [append allDigits]; [reflexivity |].
  rewrite IH. apply andb_assoc.
Qed.

Lemma leadingDigits_app (s t : string) :
  allDigits s = true -> (String.length s <= leadingDigits (s ++ t))%nat.
Proof.
  induction s as [| c s IH]; cbn [append allDigits leadingDigits String.length].
  - lia.
  - intros H. apply andb_true_iff in H. destruct H as [Hc Hs].
    rewrite Hc. specialize (IH Hs). lia.
Qed.

Lemma leadingDigits_dash (ds tail : string) :
  (leadingDigits (ds ++ String "-" tail) <= String.length ds)%nat.
Proof.
  induction ds as [| c ds IH]; cbn [append leadingDigits String.length].
  - change (isDigit "-") with false. cbv iota. lia.
  - destruct (isDigit c); lia.
Qed.

(** With fuel left, the digit loop writes at least one character, and only
    digits, in front of what it was given. *)
Lemma fmtDigits_shape (fuel : nat) : forall u acc,
  (0 <= u)%Z ->
  exists pre, fmtDigits (S fuel) u acc = pre ++ acc
    /\ allDigits pre = true /\ (1 <= String.length pre)%nat.
Proof.
  induction fuel as [| fuel IH]; intros u acc Hu.
  - cbn [fmtDigits]. destruct (Z.leb_spec 10 u).
    + exists (String (digitChar (u mod 10)) "").
      cbn [append allDigits String.length].
      rewrite isDigit_digitChar by (pose proof (Z.mod_pos_bound u 10); lia).
      repeat split; lia.
    + exists (String (digitChar u) "").
      cbn [append allDigits String.length].
      rewrite isDigit_digitChar by lia. repeat split; lia.
  - change (fmtDigits (S (S fuel)) u acc)
      with (if (10 <=? u)%Z
            then fmtDigits (S fuel) (u / 10)
                   (String (digitChar (u mod 10)) acc)
            else String (digitChar u) acc).
    destruct (Z.leb_spec 10 u).
    + destruct (IH (u / 10)%Z (String (digitChar (u mod 10)) acc))
        as (pre & E & D & L); [apply Z.div_pos; lia |].
      exists (pre ++ String (digitChar (u mod 10)) "").
      rewrite E, append_assoc. cbn [append].
      rewrite allDigits_app, D. cbn [allDigits].
      rewrite isDigit_digitChar by (pose proof (Z.mod_pos_bound u 10); lia).
      repeat split. rewrite length_append. lia.
    + exists (String (digitChar u) "").
      cbn [append allDigits String.length].
      rewrite isDigit_digitChar by lia. repeat split; lia.
Qed.

Lemma digits_allDigits (u : Z) :
  (0 <= u)%Z -> allDigits (digits u) = true.
Proof.
  intros H. unfold digits.
  destruct (fmtDigits_shape 19 u "" H) as (pre & E & D & _).
  rewrite E, allDigits_app, D. reflexivity.
Qed.

Lemma step_fmtDigits (fuel : nat) (u : Z) (acc : string) :
  (10 <= u)%Z ->
  fmtDigits (S fuel) u acc
  = fmtDigits fuel (u / 10) (String (digitChar (u mod 10)) acc).
Proof.
  intros H. cbn [fmtDigits].
  destruct (Z.leb_spec 10 u); [reflexivity | lia].
Qed.

Lemma last_fmtDigits (fuel : nat) (u : Z) (acc : string) :
  (u < 10)%Z -> fmtDigits (S fuel) u acc = String (digitChar u) acc.
Proof.
  intros H. cbn [fmtDigits].
  destruct (Z.leb_spec 10 u); [lia | reflexivity].
Qed.

(** A number below 1000 has at most three digits. *)
Lemma digits_short (u : Z) :
  (0 <= u < 1000)%Z -> (String.length (digits u) <= 3)%nat.
Proof.
  intros H. unfold digits.
  destruct (Z.ltb_spec u 10).
  { rewrite last_fmtDigits by lia. cbn. lia. }
  rewrite step_fmtDigits by lia.
  assert ((0 <= u / 10 < 100)%Z)
    by (split; [apply Z.div_pos; lia | apply Z.div_lt_upper_bound; lia]).
  destruct (Z.ltb_spec (u / 10) 10).
  { rewrite last_fmtDigits by lia. cbn. lia. }
  rewrite step_fmtDigits by lia.
  assert ((0 <= u / 10 / 10 < 10)%Z)
    by (split; [apply Z.div_pos; lia | apply Z.div_lt_upper_bound; lia]).
  rewrite last_fmtDigits by lia. cbn. lia.
Qed.

(** A number from 10000 on has at least five. *)
Lemma digits_long (u : Z) :
  (10000 <= u)%Z -> (5 <= String.length (digits u))%nat.
Proof.
  intros H. unfold digits.
  assert ((1000 <= u / 10)%Z) by (apply Z.div_le_lower_bound; lia).
  assert ((100 <= u / 10 / 10)%Z) by (apply Z.div_le_lower_bound; lia).
  assert ((10 <= u / 10 / 10 / 10)%Z) by (apply Z.div_le_lower_bound; lia).
  assert ((1 <= u / 10 / 10 / 10 / 10)%Z) by (apply Z.div_le_lower_bound; lia).
  do 4 (rewrite step_fmtDigits by lia).
  destruct (fmtDigits_shape 15 (u / 10 / 10 / 10 / 10)
              (String (digitChar (u / 10 / 10 / 10 mod 10))
                 (String (digitChar (u / 10 / 10 mod 10))
                    (String (digitChar (u / 10 mod 10))
                       (String (digitChar (u mod 10)) ""))))
              ltac:(lia)) as (pre & E & _ & L).
  rewrite E, length_append. cbn [String.length]. lia.
Qed.

Lemma getyear_few_digits (s : string) :
  (leadingDigits s < 4)%nat -> getyear s = None.
Proof.
  destruct s as [| a [| b [| c [| d rest]]]]; try reflexivity.
  cbn [leadingDigits getyear].
  destruct (isDigit a); [| reflexivity].
  destruct (isDigit b); [| reflexivity].
  destruct (isDigit c); [| reflexivity].
  destruct (isDigit d); [| reflexivity].
  lia.
Qed.

Lemma getyear_many_digits (s : string) :
  (5 <= leadingDigits s)%nat ->
  exists y c rest, getyear s = Some (y, String c rest) /\ isDigit c = true.
Proof.
  destruct s as [| a [| b [| c [| d [| e rest]]]]];
    cbn [leadingDigits getyear];
    repeat match goal with
      | |- context [isDigit ?x] => destruct (isDigit x) eqn:?
      end; try lia.
  intros _. cbn [andb]. eauto.
Qed.

Lemma Parse_fails_without_year (s : string) :
  getyear s = None -> Parse_YMDHIS s = (zeroTime, Some parseError).
Proof.
  intros H. unfold Parse_YMDHIS, parseFields. rewrite H. reflexivity.
Qed.

Lemma Parse_fails_without_dash (s : string) (y : Z) (c : ascii)
  (rest : string) :
  getyear s = Some (y, String c rest) -> isDigit c = true ->
  Parse_YMDHIS s = (zeroTime, Some parseError).
Proof.
  intros H D. unfold Parse_YMDHIS, parseFields. rewrite H.
  cbn [bind skipChar]. rewrite (isDigit_not_dash c D). reflexivity.
Qed.

(** A year that [%d] does not render with exactly four digits does not
    parse, whatever follows the dash. *)
Lemma Parse_fails_on_year (year : Z) (tail : string) :
  (year < 1000 \/ 9999 < year)%Z ->
  Parse_YMDHIS (fmt_d year ++ String "-" tail)
  = (zeroTime, Some parseError).
Proof.
  intros H. unfold fmt_d.
  destruct (Z.ltb_spec year 0) as [N | N].
  - apply Parse_fails_without_year, getyear_few_digits.
    cbn [append leadingDigits]. change (isDigit "-") with false.
    cbv iota. lia.
  - pose proof (digits_allDigits year N) as D.
    destruct H as [H | H].
    + apply Parse_fails_without_year, getyear_few_digits.
      pose proof (digits_short year ltac:(lia)) as L.
      pose proof (leadingDigits_dash (digits year) tail). lia.
    + pose proof (digits_long year ltac:(lia)) as L.
      pose proof (leadingDigits_app (digits year) (String "-" tail) D) as P.
      destruct (getyear_many_digits (digits year ++ String "-" tail)
                  ltac:(lia)) as (y & c & rest & G & Dc).
      exact (Parse_fails_without_dash _ y c rest G Dc).
Qed.

End YearText.

(* ------------------------------------------------------------------ *)
(** ** Constructors on a year that does not parse *)

Section UnparsableYear.

Import time period.

Lemma validateRange_spec (value min max : Z) :
  validateRange value min max
  = (value, if (value <? min) || (max <? value) then [OutOfRangeError] else []).
Proof. unfold validateRange. destruct (_ || _); reflexivity. Qed.

Lemma validateRange_in (value min max : Z) :
  min <= value <= max -> validateRange value min max = (value, []).
Proof.
  intros H. unfold validateRange.
  destruct (Z.ltb_spec value min); [lia |].
  destruct (Z.ltb_spec max value); [lia |]. reflexivity.
Qed.

Lemma validateRange_out (value min max : Z) :
  value < min \/ max < value ->
  validateRange value min max = (value, [OutOfRangeError]).
Proof.
  intros H. unfold validateRange.
  destruct (Z.ltb_spec value min); [reflexivity |].
  destruct (Z.ltb_spec max value); [reflexivity | lia].
Qed.

Lemma Parse_sprintfYear_fails (year : Z) :
  year < 1000 \/ 9999 < year ->
  Parse_YMDHIS (sprintfYear year) = (zeroTime, Some parseError).
Proof. intros H. exact (Parse_fails_on_year year "01-01 00:00:00" H). Qed.

Lemma Parse_sprintfYearMonth_fails (year month : Z) :
  year < 1000 \/ 9999 < year ->
  Parse_YMDHIS (sprintfYearMonth year month) = (zeroTime, Some parseError).
Proof.
  intros H.
  exact (Parse_fails_on_year year
           (fmt.fmt_02d month ++ "-01 00:00:00")%string H).
Qed.

(** C10, where it fails: for the year 999 the parse fails and no error is
    reported, but the end of the period is 0002-01-01, not the zero time. *)
Lemma CreateFromYear_999 :
  snd (Parse_YMDHIS (sprintfYear 999)) = Some parseError
  /\ CreateFromYear 999 = (mkPeriod zeroTime (Date 2 1 1 0 0 0 0), [])
  /\ End (fst (CreateFromYear 999)) <> zeroTime
  /\ CreateFromYear 999 <> (mkPeriod zeroTime zeroTime, []).
Proof. vm_compute. repeat split; discriminate. Qed.

(** C10, as the code has it.  For a year that [%d] does not render with
    exactly four digits (below 1000, negative ones included, or above 9999)
    the date does not parse, the failure is dropped and no error is
    returned; [Start] is the zero time and [End] is the zero time moved by
    the length of the unit: 0002-01-01 for [CreateFromYear], 0001-02-01,
    0001-04-01 and 0001-07-01 for [CreateFromMonth], [CreateFromQuarter]
    and [CreateFromSemester] with an index in range. *)
Theorem unparsable_year_zero_start (year : Z) :
  year < 1000 \/ 9999 < year ->
  Parse_YMDHIS (sprintfYear year) = (zeroTime, Some parseError)
  /\ CreateFromYear year = (mkPeriod zeroTime (Date 2 1 1 0 0 0 0), [])
  /\ (forall month, 1 <= month <= 12 ->
        Parse_YMDHIS (sprintfYearMonth year month)
        = (zeroTime, Some parseError)
        /\ CreateFromMonth year month
           = (mkPeriod zeroTime (Date 1 2 1 0 0 0 0), []))
  /\ (forall quarter, 1 <= quarter <= 4 ->
        CreateFromQuarter year quarter
        = (mkPeriod zeroTime (Date 1 4 1 0 0 0 0), []))
  /\ (forall semester, 1 <= semester <= 2 ->
        CreateFromSemester year semester
        = (mkPeriod zeroTime (Date 1 7 1 0 0 0 0), []))
  /\ Date 2 1 1 0 0 0 0 <> zeroTime
  /\ Date 1 2 1 0 0 0 0 <> zeroTime
  /\ Date 1 4 1 0 0 0 0 <> zeroTime
  /\ Date 1 7 1 0 0 0 0 <> zeroTime.
Proof.
  intros H.
  repeat match goal with |- _ /\ _ => split end; try discriminate.
  - apply Parse_sprintfYear_fails, H.
  - unfold CreateFromYear. rewrite Parse_sprintfYear_fails by exact H.
    reflexivity.
  - intros month M. split; [apply Parse_sprintfYearMonth_fails, H |].
    unfold CreateFromMonth. rewrite validateRange_in by assumption.
    cbn [notNil]. rewrite Parse_sprintfYearMonth_fails by exact H.
    reflexivity.
  - intros quarter Q. unfold CreateFromQuarter.
    rewrite validateRange_in by assumption.
    cbn [notNil]. rewrite Parse_sprintfYearMonth_fails by exact H.
    reflexivity.
  - intros semester S. unfold CreateFromSemester.
    rewrite validateRange_in by assumption.
    cbn [notNil]. rewrite Parse_sprintfYearMonth_fails by exact H.
    reflexivity.
Qed.

Lemma unparsable_year_zero_start_witness :
  CreateFromYear 999 = (mkPeriod zeroTime (Date 2 1 1 0 0 0 0), []).
Proof.
  refine (proj1 (proj2 (unparsable_year_zero_start 999 (or_introl _)))).
  reflexivity.
Defined.

End UnparsableYear.

(* ------------------------------------------------------------------ *)
(** ** The calendar: years and days *)

Section CalendarYears.

Import time.

Lemma isLeap_mod (y : Z) :
  isLeap y = ((y mod 4 =? 0) && (negb (y mod 100 =? 0) || (y mod 400 =? 0))).
Proof.
  unfold isLeap.
  assert (R : forall b, b <> 0 -> (Z.rem y b =? 0) = (y mod b =? 0)).
  { intros b Hb.
    destruct (Z.eqb_spec (Z.rem y b) 0) as [E | E];
      destruct (Z.eqb_spec (y mod b) 0) as [E' | E'];
      try reflexivity; exfalso.
    - apply E'. apply Z.rem_divide in E; [| assumption].
      apply Z.mod_divide; assumption.
    - apply E. apply Z.mod_divide in E'; [| assumption].
      apply Z.rem_divide; assumption. }
  rewrite !R by lia. reflexivity.
Qed.

(** The count of days before a year, in closed form. *)
Lemma daysSinceEpoch_closed (y : Z) :
  daysSinceEpoch y
  = 365 * (y - 1) + (y - 1) / 4 - (y - 1) / 100 + (y - 1) / 400.
Proof.
  unfold daysSinceEpoch, daysPer400Years, daysPer100Years, daysPer4Years.
  zdiv.
Qed.

Lemma daysSinceEpoch_succ (y : Z) :
  daysSinceEpoch (y + 1) = daysSinceEpoch y + 365 + leapDay y.
Proof.
  rewrite !daysSinceEpoch_closed. unfold leapDay. rewrite isLeap_mod.
  replace (y + 1 - 1) with y by lia.
  destruct (Z.eqb_spec (y mod 4) 0); destruct (Z.eqb_spec (y mod 100) 0);
    destruct (Z.eqb_spec (y mod 400) 0); cbn [andb orb negb]; zdiv.
Qed.

Lemma leapDay_bound (y : Z) : 0 <= leapDay y <= 1.
Proof. unfold leapDay. destruct (isLeap y); lia. Qed.

Lemma daysSinceEpoch_mono (y y' : Z) :
  y <= y' -> daysSinceEpoch y <= daysSinceEpoch y'.
Proof.
  intros H. rewrite !daysSinceEpoch_closed. zdiv.
Qed.

(** The calendar repeats every 400 years, which are 146097 days. *)
Lemma daysSinceEpoch_cycle (y k : Z) :
  daysSinceEpoch (y + 400 * k) = daysSinceEpoch y + 146097 * k.
Proof. rewrite !daysSinceEpoch_closed. zdiv. Qed.

(** [absYear] splits a day count into a year and a day of that year. *)
Lemma absYear_spec (d : Z) :
  daysSinceEpoch (fst (absYear d)) + snd (absYear d) = d
  /\ 0 <= snd (absYear d) < 365 + leapDay (fst (absYear d)).
Proof.
  destruct (absYear d) as [y yd] eqn:E. cbn [fst snd].
  unfold absYear, daysPer400Years, daysPer100Years, daysPer4Years in E.
  rewrite !Z.shiftr_div_pow2 in E by lia. change (2 ^ 2) with 4 in E.
  remember (d / 146097) as n400 eqn:En400.
  remember (d - 146097 * n400) as r eqn:Er.
  remember (r / 36524) as a eqn:Ea.
  remember (a - a / 4) as n100 eqn:En100.
  remember (r - 36524 * n100) as r2 eqn:Er2.
  remember (r2 / 1461) as n4 eqn:En4.
  remember (r2 - 1461 * n4) as r3 eqn:Er3.
  remember (r3 / 365) as b eqn:Eb.
  remember (b - b / 4) as n1 eqn:En1.
  pose proof (f_equal fst E) as Ey. pose proof (f_equal snd E) as Eyd.
  cbn [fst snd] in Ey, Eyd. clear E.
  assert (Hr : 0 <= r < 146097) by zdiv.
  assert (Ha : 0 <= a <= 4) by zdiv.
  assert (Hn100 : 0 <= n100 <= 3 /\ (a <= 3 -> n100 = a)
                  /\ (a = 4 -> n100 = 3)) by zdiv.
  assert (Hr2 : 0 <= r2 <= 36524 /\ (a <= 3 -> r2 < 36524)) by zdiv.
  assert (Hn4 : 0 <= n4 <= 24) by zdiv.
  assert (Hr3 : 0 <= r3 < 1461
                /\ (n4 = 24 -> r2 < 36524 -> r3 < 1460)) by zdiv.
  assert (Hb : 0 <= b <= 4 /\ (b = 4 -> r3 = 1460)) by zdiv.
  assert (Hn1 : 0 <= n1 <= 3 /\ (b <= 3 -> n1 = b)
                /\ (b = 4 -> n1 = 3)) by zdiv.
  assert (Hyd : 0 <= yd /\ (b <= 3 -> yd < 365)
                /\ (b = 4 -> yd = 365)) by zdiv.
  assert (Hd : d = 146097 * n400 + 36524 * n100 + 1461 * n4 + 365 * n1 + yd)
    by lia.
  assert (Hy : y - 1 = 400 * n400 + 100 * n100 + 4 * n4 + n1) by lia.
  clear En400 Er Ea En100 Er2 En4 Er3 Eb En1 Ey Eyd.
  rewrite daysSinceEpoch_closed. unfold leapDay. rewrite isLeap_mod.
  destruct (Z.eqb_spec (y mod 4) 0); destruct (Z.eqb_spec (y mod 100) 0);
    destruct (Z.eqb_spec (y mod 400) 0); cbn [andb orb negb].
  all: zdiv.
Qed.

(** A day count belongs to the one year whose days surround it. *)
Lemma absYear_unique (d y : Z) :
  daysSinceEpoch y <= d < daysSinceEpoch (y + 1) ->
  absYear d = (y, d - daysSinceEpoch y).
Proof.
  intros H. destruct (absYear_spec d) as [S B].
  destruct (absYear d) as [y' yd]. cbn [fst snd] in S, B.
  pose proof (daysSinceEpoch_succ y') as N.
  assert (y' = y).
  { destruct (Z.lt_trichotomy y' y) as [L | [E | L]]; [| exact E |].
    - pose proof (daysSinceEpoch_mono (y' + 1) y ltac:(lia)). lia.
    - pose proof (daysSinceEpoch_mono (y + 1) y' ltac:(lia)). lia. }
  subst y'. f_equal. lia.
Qed.

(** From the first day of a year on, the year is at least that year. *)
Lemma absYear_year_ge (d y : Z) :
  daysSinceEpoch y <= d -> y <= fst (absYear d).
Proof.
  intros H. destruct (absYear_spec d) as [S B].
  pose proof (daysSinceEpoch_succ (fst (absYear d))) as N.
  destruct (Z.le_gt_cases y (fst (absYear d))) as [L | L]; [exact L |].
  pose proof (daysSinceEpoch_mono (fst (absYear d) + 1) y ltac:(lia)). lia.
Qed.

(** Within the years of [calendarYear] the second count of every day from
    the year before to two years after fits the 64 bits Go keeps it in. *)
Lemma calendarYear_seconds_fit (year d : Z) :
  calendarYear year ->
  daysSinceEpoch (year - 1) <= d <= daysSinceEpoch (year + 2) ->
  Int64.in_range (d * secondsPerDay)
  /\ Int64.in_range (d * secondsPerDay + (secondsPerDay - 1)).
Proof.
  unfold calendarYear, Int64.in_range, Int64.min_int, Int64.max_int,
    secondsPerDay.
  rewrite !daysSinceEpoch_closed. intros Y D.
  assert (B : -36600000000000 <= d <= 36600000000000) by zdiv.
  lia.
Qed.

End CalendarYears.

(* ------------------------------------------------------------------ *)
(** ** The calendar: dates and weeks of an instant *)

Section CalendarDays.

Import time.

Lemma monthDay_table :
  forallb (fun n => monthDay_ok false (Z.of_nat n)) (seq 0 365)
  && forallb (fun n => monthDay_ok true (Z.of_nat n)) (seq 0 366) = true.
Proof. vm_compute. reflexivity. Qed.

Lemma monthDay_spec (leap : bool) (yday : Z) :
  0 <= yday < 365 + (if leap then 1 else 0) ->
  1 <= fst (monthDay leap yday) <= 12
  /\ daysBefore (fst (monthDay leap yday) - 1)
     + (if leap && (March <=? fst (monthDay leap yday)) then 1 else 0)
     + (snd (monthDay leap yday) - 1) = yday.
Proof.
  intros H.
  pose proof monthDay_table as T. apply andb_true_iff in T.
  destruct T as [T0 T1].
  assert (O : monthDay_ok leap yday = true).
  { rewrite <- (Z2Nat.id yday) by lia.
    destruct leap.
    - rewrite forallb_forall in T1. apply T1, in_seq. lia.
    - rewrite forallb_forall in T0. apply T0, in_seq. lia. }
  unfold monthDay_ok in O.
  destruct (monthDay leap yday) as [m d]. cbn [fst snd].
  apply andb_true_iff in O. destruct O as [O E].
  apply andb_true_iff in O. destruct O as [O1 O2].
  apply Z.leb_le in O1, O2. apply Z.eqb_eq in E. lia.
Qed.

Lemma norm_id (hi lo base : Z) :
  0 <= lo < base -> norm hi lo base = (hi, lo).
Proof.
  intros H. unfold norm.
  destruct (Z.ltb_spec lo 0); [lia |].
  destruct (Z.leb_spec base lo); [lia | reflexivity].
Qed.

Lemma Time_Clock_spec (t : Time) :
  let '(h, mi, s) := Time_Clock t in
  0 <= h < 24 /\ 0 <= mi < 60 /\ 0 <= s < 60
  /\ h * secondsPerHour + mi * secondsPerMinute + s
     = sec t - dayOf t * secondsPerDay.
Proof.
  unfold Time_Clock, dayOf, secondsPerDay, secondsPerHour, secondsPerMinute.
  zdiv.
Qed.

Lemma Weekday_dayOf (t : Time) : Weekday t = (dayOf t + 1) mod 7.
Proof.
  unfold Weekday, dayOf, Monday, secondsPerDay, secondsPerWeek. zdiv.
Qed.

Lemma dayOf_shiftDays (n : Z) (t : Time) :
  dayOf (shiftDays n t) = dayOf t + n.
Proof.
  unfold dayOf, shiftDays, secondsPerDay. cbn [sec]. zdiv.
Qed.

Lemma ISOWeek_dayOf (t : Time) :
  ISOWeek t
  = (fst (absYear (thursdayOf (dayOf t))),
     snd (absYear (thursdayOf (dayOf t))) / 7 + 1).
Proof.
  unfold ISOWeek. rewrite Weekday_dayOf. unfold thursdayOf.
  set (delta := if Thursday - (dayOf t + 1) mod 7 =? 4 then -3
                else Thursday - (dayOf t + 1) mod 7).
  replace ((sec t + delta * secondsPerDay) / secondsPerDay)
    with (dayOf t + delta)
    by (unfold dayOf, secondsPerDay; zdiv).
  destruct (absYear (dayOf t + delta)). reflexivity.
Qed.

(** Rebuilding an instant from its date and clock, with days added to the
    day of the month, gives the instant that many days later. *)
Lemma Date_of_Time_Date (t : Time) (n : Z) :
  wf_time t ->
  let '(y, m, d) := Time_Date t in
  let '(h, mi, s) := Time_Clock t in
  Date y m (d + n) h mi s (nsec t) = shiftDays n t.
Proof.
  intros W. pose proof (Time_Clock_spec t) as C.
  unfold Time_Date, absDate. fold (dayOf t).
  destruct (absYear_spec (dayOf t)) as [S B].
  destruct (absYear (dayOf t)) as [y yd]. cbn [fst snd] in S, B.
  assert (B' : 0 <= yd < 365 + (if isLeap y then 1 else 0)) by exact B.
  destruct (monthDay_spec (isLeap y) yd B') as [M E].
  destruct (monthDay (isLeap y) yd) as [m d]. cbn [fst snd] in M, E.
  destruct (Time_Clock t) as [[h mi] s].
  destruct C as (Hh & Hmi & Hs & Hc).
  unfold Date.
  rewrite (norm_id y (m - 1) 12) by lia.
  rewrite (norm_id s (nsec t) 1000000000) by exact W.
  rewrite (norm_id mi s 60) by lia.
  rewrite (norm_id h mi 60) by lia.
  rewrite (norm_id (d + n) h 24) by lia.
  replace (m - 1 + 1) with m by lia.
  unfold shiftDays. f_equal.
  unfold secondsPerDay, secondsPerHour, secondsPerMinute in *.
  destruct (isLeap y && (March <=? m)); lia.
Qed.

Lemma AddDate_days (t : Time) (n : Z) :
  wf_time t -> AddDate t 0 0 n = shiftDays n t.
Proof.
  intros W. pose proof (Date_of_Time_Date t n W) as H.
  unfold AddDate.
  destruct (Time_Date t) as [[y m] d]. destruct (Time_Clock t) as [[h mi] s].
  rewrite !Z.add_0_r. exact H.
Qed.

Lemma wf_shiftDays (n : Z) (t : Time) : wf_time t -> wf_time (shiftDays n t).
Proof. intros W. exact W. Qed.

Lemma shiftDays_shiftDays (n m : Z) (t : Time) :
  shiftDays n (shiftDays m t) = shiftDays (m + n) t.
Proof. unfold shiftDays, secondsPerDay. cbn [sec nsec]. f_equal. lia. Qed.

Lemma shiftDays_0 (t : Time) : shiftDays 0 t = t.
Proof.
  destruct t as [s ns]. unfold shiftDays. cbn [sec nsec]. f_equal. lia.
Qed.

End CalendarDays.


(* ------------------------------------------------------------------ *)
(** ** The loops of [CreateFromWeek] *)

Section WeekLoops.

Import time period.

Lemma wsStart_stateAt (t : Time) : wsStart (stateAt t) = t.
Proof. unfold stateAt. destruct (ISOWeek t). reflexivity. Qed.

Lemma isoYear_stateAt (t : Time) : isoYear (stateAt t) = fst (ISOWeek t).
Proof. unfold stateAt. destruct (ISOWeek t). reflexivity. Qed.

Lemma isoWeek_stateAt (t : Time) : isoWeek (stateAt t) = snd (ISOWeek t).
Proof. unfold stateAt. destruct (ISOWeek t). reflexivity. Qed.

Lemma advance_stateAt (n : Z) (t : Time) :
  wf_time t -> advance n (stateAt t) = stateAt (shiftDays n t).
Proof.
  intros W. unfold advance.
  rewrite wsStart_stateAt, AddDate_days by exact W. reflexivity.
Qed.

Lemma steps_S {S : Type} (body : S -> S) (n : nat) (s : S) :
  steps body (Datatypes.S n) s = steps body n (body s).
Proof. reflexivity. Qed.

Lemma steps_O {S : Type} (body : S -> S) (s : S) : steps body O s = s.
Proof. reflexivity. Qed.

Lemma steps_advance (n : Z) (k : nat) : forall t,
  wf_time t ->
  steps (advance n) k (stateAt t) = stateAt (shiftDays (Z.of_nat k * n) t).
Proof.
  induction k as [| k IH]; intros t W.
  - rewrite steps_O. replace (Z.of_nat 0 * n) with 0 by lia.
    rewrite shiftDays_0. reflexivity.
  - rewrite steps_S, advance_stateAt by exact W.
    rewrite IH by (apply wf_shiftDays; exact W).
    rewrite shiftDays_shiftDays.
    f_equal. f_equal. lia.
Qed.

Lemma thursdayOf_bounds (d : Z) : d - 3 <= thursdayOf d <= d + 3.
Proof. unfold thursdayOf, Thursday. destruct (_ =? 4) eqn:E; [apply Z.eqb_eq in E|apply Z.eqb_neq in E]; zdiv. Qed.

Lemma thursdayOf_same_week (d : Z) :
  (d + 1) mod 7 <> 1 -> thursdayOf d = thursdayOf (d - 1).
Proof.
  unfold thursdayOf, Thursday. intros H.
  replace (d - 1 + 1) with d by lia.
  destruct (4 - (d + 1) mod 7 =? 4) eqn:E; [apply Z.eqb_eq in E|apply Z.eqb_neq in E];
  destruct (4 - d mod 7 =? 4) eqn:E'; [apply Z.eqb_eq in E'|apply Z.eqb_neq in E'|apply Z.eqb_eq in E'|apply Z.eqb_neq in E']; zdiv.
Qed.

Lemma thursdayOf_from_monday (d j : Z) :
  (d + 1) mod 7 = 1 -> thursdayOf (d + j) = d + 3 + 7 * (j / 7).
Proof.
  unfold thursdayOf, Thursday. intros H.
  destruct (_ =? 4) eqn:E; [apply Z.eqb_eq in E|apply Z.eqb_neq in E]; zdiv.
Qed.

Lemma ISOWeek_shiftDays (n : Z) (t : Time) :
  ISOWeek (shiftDays n t)
  = (fst (absYear (thursdayOf (dayOf t + n))),
     snd (absYear (thursdayOf (dayOf t + n))) / 7 + 1).
Proof. rewrite ISOWeek_dayOf, dayOf_shiftDays. reflexivity. Qed.

Lemma Weekday_shiftDays (n : Z) (t : Time) :
  Weekday (shiftDays n t) = (dayOf t + n + 1) mod 7.
Proof. rewrite Weekday_dayOf, dayOf_shiftDays. reflexivity. Qed.

Lemma first_exit {S : Type} (cond : S -> bool) (body : S -> S) (n : nat) :
  forall s, cond (steps body n s) = false ->
  exists k, (k <= n)%nat /\ cond (steps body k s) = false
    /\ (forall j, (j < k)%nat -> cond (steps body j s) = true).
Proof.
  induction n as [| n IH]; intros s C.
  - exists O. split; [lia | split; [exact C | intros j Hj; lia]].
  - destruct (cond s) eqn:Cs.
    + rewrite steps_S in C.
      destruct (IH (body s) C) as (k & Hk & Ck & Before).
      exists (Datatypes.S k). rewrite steps_S.
      split; [lia | split; [exact Ck |]].
      intros [| j] Hj; [exact Cs |].
      rewrite steps_S. apply Before. lia.
    + exists O. split; [lia | split; [exact Cs | intros j Hj; lia]].
Qed.

Lemma while_first_exit {S : Type} (cond : S -> bool) (body : S -> S)
  (k : nat) : forall s fuel,
  cond (steps body k s) = false ->
  (forall j, (j < k)%nat -> cond (steps body j s) = true) ->
  (k <= fuel)%nat ->
  while fuel cond body s = Some (steps body k s).
Proof.
  induction k as [| k IH]; intros s fuel C Before F.
  - rewrite steps_O in *.
    destruct fuel; cbn [while]; rewrite C; reflexivity.
  - destruct fuel as [| fuel]; [lia |].
    pose proof (Before O ltac:(lia)) as Cs. rewrite steps_O in Cs.
    cbn [while]. rewrite Cs, steps_S.
    apply IH; [rewrite <- steps_S; exact C | | lia].
    intros j Hj. rewrite <- steps_S. apply Before. lia.
Qed.

Lemma fst_ISOWeek (t : Time) :
  fst (ISOWeek t) = fst (absYear (thursdayOf (dayOf t))).
Proof. rewrite ISOWeek_dayOf. destruct (absYear _). reflexivity. Qed.

Lemma snd_ISOWeek (t : Time) :
  snd (ISOWeek t) = snd (absYear (thursdayOf (dayOf t))) / 7 + 1.
Proof. rewrite ISOWeek_dayOf. destruct (absYear _). reflexivity. Qed.

(** A loop of [CreateFromWeek] that steps forward a day at a time while a
    test on the ISO year and week, which the Thursday of the week decides,
    holds: started on a Monday it stops on a Monday, the first day on which
    the test fails. *)
Lemma loop_forward (c : weekState -> bool) (h : Z -> bool) :
  (forall t, c (stateAt t) = h (thursdayOf (dayOf t))) ->
  forall (t : Time) (n : nat),
  wf_time t -> (dayOf t + 1) mod 7 = 1 ->
  h (thursdayOf (dayOf t + Z.of_nat n)) = false ->
  exists k, (k <= n)%nat
    /\ (forall fuel, (k <= fuel)%nat ->
          while fuel c (advance 1) (stateAt t)
          = Some (stateAt (shiftDays (Z.of_nat k) t)))
    /\ (dayOf t + Z.of_nat k + 1) mod 7 = 1
    /\ h (thursdayOf (dayOf t + Z.of_nat k)) = false
    /\ (forall j, (j < k)%nat ->
          h (thursdayOf (dayOf t + Z.of_nat j)) = true).
Proof.
  intros Hc t n W M G.
  assert (St : forall j, steps (advance 1) j (stateAt t)
                         = stateAt (shiftDays (Z.of_nat j) t)).
  { intros j. rewrite steps_advance by exact W. f_equal. f_equal. lia. }
  assert (Cj : forall j, c (steps (advance 1) j (stateAt t))
                         = h (thursdayOf (dayOf t + Z.of_nat j))).
  { intros j. rewrite St, Hc, dayOf_shiftDays. reflexivity. }
  destruct (first_exit c (advance 1) n (stateAt t)) as (k & Hk & Ck & Before).
  { rewrite Cj. exact G. }
  exists k. rewrite Cj in Ck.
  assert (Before' : forall j, (j < k)%nat ->
            h (thursdayOf (dayOf t + Z.of_nat j)) = true).
  { intros j Hj. rewrite <- Cj. apply Before. exact Hj. }
  split; [exact Hk | split; [| split; [| split; [exact Ck | exact Before']]]].
  - intros fuel F. rewrite <- St.
    apply while_first_exit; [rewrite Cj; exact Ck | exact Before | exact F].
  - destruct k as [| k]; [rewrite Z.add_0_r; exact M |].
    destruct (Z.eq_dec ((dayOf t + Z.of_nat (Datatypes.S k) + 1) mod 7) 1)
      as [E | E]; [exact E | exfalso].
    pose proof (Before' k ltac:(lia)) as Bk.
    rewrite (thursdayOf_same_week _ E) in Ck.
    replace (dayOf t + Z.of_nat (Datatypes.S k) - 1)
      with (dayOf t + Z.of_nat k) in Ck by lia.
    rewrite Ck in Bk. discriminate Bk.
Qed.

Lemma isoYear_test (year : Z) (t : Time) :
  (fun s => isoYear s <? year) (stateAt t)
  = (fun T => fst (absYear T) <? year) (thursdayOf (dayOf t)).
Proof. cbv beta. rewrite isoYear_stateAt, fst_ISOWeek. reflexivity. Qed.

Lemma isoWeek_test (week : Z) (t : Time) :
  (fun s => isoWeek s <? week) (stateAt t)
  = (fun T => snd (absYear T) / 7 + 1 <? week) (thursdayOf (dayOf t)).
Proof. cbv beta. rewrite isoWeek_stateAt, snd_ISOWeek. reflexivity. Qed.

(** The seed date of [CreateFromWeek], [time.Date(year, 0, 0, ...)], is
    November 30 of the year before, 32 days before January 1. *)
Lemma Date_seed (year : Z) :
  Date year 0 0 0 0 0 0
  = mkTime ((daysSinceEpoch year - 32) * secondsPerDay) 0.
Proof.
  unfold Date.
  assert (N : norm year (0 - 1) 12 = (year - 1, 11)).
  { unfold norm. cbn. f_equal. }
  rewrite N.
  change (norm 0 0 1000000000) with (0, 0). cbv beta iota zeta.
  change (norm 0 0 60) with (0, 0). cbv beta iota zeta.
  change (norm 0 0 60) with (0, 0). cbv beta iota zeta.
  change (norm 0 0 24) with (0, 0). cbv beta iota zeta.
  change (11 + 1 - 1) with 11. change (daysBefore 11) with 334.
  change (March <=? 11 + 1) with true. rewrite andb_true_r.
  pose proof (daysSinceEpoch_succ (year - 1)) as E.
  replace (year - 1 + 1) with year in E by lia.
  fold (leapDay (year - 1)).
  unfold secondsPerDay, secondsPerHour, secondsPerMinute.
  f_equal. unfold leapDay in *. destruct (isLeap (year - 1)); lia.
Qed.

Lemma loop_back_to_monday (t : Time) :
  wf_time t ->
  exists k, (k <= 6)%nat
    /\ (forall fuel, (k <= fuel)%nat ->
          while fuel (fun s => negb (Weekday (wsStart s) =? Monday))
            (advance (-1)) (stateAt t)
          = Some (stateAt (shiftDays (- Z.of_nat k) t)))
    /\ (dayOf t - Z.of_nat k + 1) mod 7 = 1.
Proof.
  intros W.
  set (c := fun s => negb (Weekday (wsStart s) =? Monday)).
  assert (Hc : forall u, c (stateAt u) = negb ((dayOf u + 1) mod 7 =? 1)).
  { intros u. unfold c. rewrite wsStart_stateAt, Weekday_dayOf. reflexivity. }
  assert (St : forall j, steps (advance (-1)) j (stateAt t)
                         = stateAt (shiftDays (- Z.of_nat j) t)).
  { intros j. rewrite steps_advance by exact W. f_equal. f_equal. lia. }
  destruct (first_exit c (advance (-1)) (Z.to_nat (dayOf t mod 7)) (stateAt t))
    as (k & Hk & Ck & Before).
  { rewrite St, Hc, dayOf_shiftDays.
    apply negb_false_iff, Z.eqb_eq. zdiv. }
  exists k.
  split; [zdiv | split].
  - intros fuel F. rewrite <- St.
    apply while_first_exit; [exact Ck | exact Before | exact F].
  - rewrite St, Hc, dayOf_shiftDays in Ck.
    apply negb_false_iff, Z.eqb_eq in Ck.
    rewrite <- Ck. f_equal. lia.
Qed.

Lemma loop_to_start_week (startWeek : Z) (t : Time) :
  wf_time t -> (dayOf t + 1) mod 7 = 1 -> 0 <= startWeek <= 6 ->
  exists k, (k <= 1)%nat
    /\ (forall fuel, (k <= fuel)%nat ->
          while fuel (fun s => negb (Weekday (wsStart s) =? startWeek))
            (advance (startWeek - Monday)) (stateAt t)
          = Some (stateAt (shiftDays (Z.of_nat k * (startWeek - Monday)) t)))
    /\ Weekday (shiftDays (Z.of_nat k * (startWeek - Monday)) t) = startWeek.
Proof.
  intros W M R.
  set (c := fun s => negb (Weekday (wsStart s) =? startWeek)).
  assert (Hc : forall u, c (stateAt u)
                         = negb ((dayOf u + 1) mod 7 =? startWeek)).
  { intros u. unfold c. rewrite wsStart_stateAt, Weekday_dayOf. reflexivity. }
  destruct (first_exit c (advance (startWeek - Monday)) 1 (stateAt t))
    as (k & Hk & Ck & Before).
  { rewrite steps_advance, Hc, dayOf_shiftDays by exact W.
    apply negb_false_iff, Z.eqb_eq. unfold Monday. zdiv. }
  exists k. split; [exact Hk | split].
  - intros fuel F. rewrite <- steps_advance by exact W.
    apply while_first_exit; [exact Ck | exact Before | exact F].
  - rewrite steps_advance, Hc in Ck by exact W.
    apply negb_false_iff, Z.eqb_eq in Ck.
    rewrite Weekday_dayOf. exact Ck.
Qed.

(** From any day on there is a day of an ISO week 53: the last day of a
    year 2015 + 400k, a Thursday, is one. *)
Lemma week_53_ahead (d : Z) :
  exists n : nat, snd (absYear (thursdayOf (d + Z.of_nat n))) / 7 + 1 = 53.
Proof.
  set (k := Z.max 0 d).
  assert (E : daysSinceEpoch (2015 + 400 * k) = 735598 + 146097 * k).
  { rewrite daysSinceEpoch_cycle. reflexivity. }
  set (D := 735598 + 146097 * k + 364).
  exists (Z.to_nat (D - d)).
  replace (d + Z.of_nat (Z.to_nat (D - d))) with D by (subst D k; lia).
  assert (T : thursdayOf D = D).
  { unfold thursdayOf, Thursday. subst D.
    destruct (_ =? 4) eqn:C;
      [apply Z.eqb_eq in C | apply Z.eqb_neq in C]; zdiv. }
  rewrite T.
  rewrite (absYear_unique D (2015 + 400 * k)).
  - cbn [snd]. rewrite E. subst D.
    replace (735598 + 146097 * k + 364 - (735598 + 146097 * k)) with 364
      by lia.
    reflexivity.
  - rewrite daysSinceEpoch_succ, E.
    pose proof (leapDay_bound (2015 + 400 * k)). subst D. lia.
Qed.

Lemma absYear_year_le (d y : Z) :
  y <= fst (absYear d) -> daysSinceEpoch y <= d.
Proof.
  intros H. destruct (absYear_spec d) as [S B].
  pose proof (daysSinceEpoch_mono y (fst (absYear d)) H). lia.
Qed.

Lemma bind_Some {A B : Type} (a : A) (f : A -> option B) :
  bind (Some a) f = f a.
Proof. reflexivity. Qed.

(** [CreateFromWeek] past the range check: the four loops in a row. *)
Lemma CreateFromWeekAt_in_range (startWeek : Z) (fuel : nat) (year week : Z) :
  1 <= week <= 53 ->
  CreateFromWeekAt startWeek fuel year week
  = bind (while fuel (fun s => negb (Weekday (wsStart s) =? Monday))
            (advance (-1)) (stateAt (Date year 0 0 0 0 0 0)))
      (fun s =>
         bind (while fuel (fun s => isoYear s <? year) (advance 1) s)
           (fun s =>
              bind (while fuel (fun s => isoWeek s <? week) (advance 1) s)
                (fun s =>
                   bind (while fuel
                           (fun s => negb (Weekday (wsStart s) =? startWeek))
                           (advance (startWeek - Monday)) s)
                     (fun s =>
                        Some (mkPeriod (wsStart s)
                                (AddDate (wsStart s) 0 0 7), []))))).
Proof.
  intros HW. unfold CreateFromWeekAt.
  rewrite validateRange_in by exact HW.
  unfold stateAt. destruct (ISOWeek (Date year 0 0 0 0 0 0)). reflexivity.
Qed.

(** The run of [CreateFromWeek] for a week in range.  The first two loops
    reach [t2], the Monday of the week that holds the first Thursday of the
    year; the third goes on [k3] days, to the first day whose ISO week
    number is at least [week]; the fourth moves to the first day of the
    week. *)
Lemma CreateFromWeekAt_run (startWeek year week : Z) :
  0 <= startWeek <= 6 -> 1 <= week <= 53 ->
  exists (N k3 k4 : nat) (t2 : Time),
    wf_time t2
    /\ (dayOf t2 + 1) mod 7 = 1
    /\ daysSinceEpoch year <= dayOf t2 + 3 < daysSinceEpoch year + 7
    /\ week <= snd (absYear (thursdayOf (dayOf t2 + Z.of_nat k3))) / 7 + 1
    /\ (forall j, (j < k3)%nat ->
          snd (absYear (thursdayOf (dayOf t2 + Z.of_nat j))) / 7 + 1 < week)
    /\ (dayOf t2 + Z.of_nat k3 + 1) mod 7 = 1
    /\ (k4 <= 1)%nat
    /\ Weekday (shiftDays (Z.of_nat k4 * (startWeek - Monday))
                  (shiftDays (Z.of_nat k3) t2)) = startWeek
    /\ (forall fuel, (N <= fuel)%nat ->
          CreateFromWeekAt startWeek fuel year week
          = Some (mkPeriod
                    (shiftDays (Z.of_nat k4 * (startWeek - Monday))
                       (shiftDays (Z.of_nat k3) t2))
                    (shiftDays 7
                       (shiftDays (Z.of_nat k4 * (startWeek - Monday))
                          (shiftDays (Z.of_nat k3) t2))), [])).
Proof.
  intros HS HW.
  pose proof (Date_seed year) as Seed.
  remember (Date year 0 0 0 0 0 0) as t0 eqn:Et0.
  assert (W0 : wf_time t0).
  { rewrite Seed. unfold wf_time. cbn [nsec]. lia. }
  assert (D0 : dayOf t0 = daysSinceEpoch year - 32).
  { rewrite Seed. unfold dayOf, secondsPerDay. cbn [sec]. zdiv. }
  (* back to Monday *)
  destruct (loop_back_to_monday t0 W0) as (k1 & _ & L1 & M1).
  remember (shiftDays (- Z.of_nat k1) t0) as t1 eqn:Et1.
  assert (W1 : wf_time t1) by (rewrite Et1; apply wf_shiftDays; exact W0).
  assert (E1 : dayOf t1 = dayOf t0 - Z.of_nat k1).
  { rewrite Et1, dayOf_shiftDays. lia. }
  assert (D1 : (dayOf t1 + 1) mod 7 = 1).
  { rewrite E1. exact M1. }
  (* forward to the ISO year *)
  destruct (loop_forward _ _ (isoYear_test year)
              t1 (Z.to_nat (daysSinceEpoch year + 3 - dayOf t1)) W1 D1)
    as (k2 & _ & L2 & D2 & C2 & B2).
  { cbv beta. apply Z.ltb_ge, absYear_year_ge.
    pose proof (thursdayOf_bounds
                  (dayOf t1
                   + Z.of_nat (Z.to_nat (daysSinceEpoch year + 3 - dayOf t1)))).
    lia. }
  cbv beta in C2, B2. apply Z.ltb_ge, absYear_year_le in C2.
  remember (shiftDays (Z.of_nat k2) t1) as t2 eqn:Et2.
  assert (W2 : wf_time t2) by (rewrite Et2; apply wf_shiftDays; exact W1).
  assert (E2 : dayOf t2 = dayOf t1 + Z.of_nat k2).
  { rewrite Et2. apply dayOf_shiftDays. }
  assert (D2' : (dayOf t2 + 1) mod 7 = 1).
  { rewrite E2. exact D2. }
  assert (T2 : daysSinceEpoch year <= dayOf t2 + 3 < daysSinceEpoch year + 7).
  { rewrite <- E2 in C2.
    pose proof (thursdayOf_from_monday (dayOf t2) 0 D2') as T.
    rewrite Z.add_0_r in T. change (0 / 7) with 0 in T.
    split; [lia |].
    destruct k2 as [| k2].
    - change (Z.of_nat 0) with 0 in E2. lia.
    - pose proof (B2 k2 ltac:(lia)) as P. apply Z.ltb_lt in P.
      assert (Q : thursdayOf (dayOf t1 + Z.of_nat k2) < daysSinceEpoch year).
      { destruct (Z.lt_ge_cases (thursdayOf (dayOf t1 + Z.of_nat k2))
                    (daysSinceEpoch year)) as [Q | Q]; [exact Q |].
        apply absYear_year_ge in Q. lia. }
      pose proof (thursdayOf_from_monday (dayOf t2) (-1) D2') as T'.
      replace (dayOf t2 + -1) with (dayOf t1 + Z.of_nat k2) in T' by lia.
      change (-1 / 7) with (-1) in T'. lia. }
  (* forward to the week *)
  destruct (week_53_ahead (dayOf t2)) as (n3 & H53).
  destruct (loop_forward _ _ (isoWeek_test week) t2 n3 W2 D2')
    as (k3 & _ & L3 & D3 & C3 & B3).
  { cbv beta. apply Z.ltb_ge. lia. }
  cbv beta in C3, B3. apply Z.ltb_ge in C3.
  remember (shiftDays (Z.of_nat k3) t2) as t3 eqn:Et3.
  assert (W3 : wf_time t3) by (rewrite Et3; apply wf_shiftDays; exact W2).
  assert (D3' : (dayOf t3 + 1) mod 7 = 1).
  { rewrite Et3, dayOf_shiftDays. exact D3. }
  (* to the first day of the week *)
  destruct (loop_to_start_week startWeek t3 W3 D3' HS) as (k4 & K4 & L4 & D4).
  remember (shiftDays (Z.of_nat k4 * (startWeek - Monday)) t3) as t4 eqn:Et4.
  assert (W4 : wf_time t4) by (rewrite Et4; apply wf_shiftDays; exact W3).
  exists (Nat.max (Nat.max k1 k2) (Nat.max k3 k4)), k3, k4, t2.
  rewrite <- Et3, <- Et4.
  refine (conj W2 (conj D2' (conj T2 (conj C3 (conj _
            (conj D3 (conj K4 (conj D4 _)))))))).
  - intros j Hj. apply Z.ltb_lt. apply B3. exact Hj.
  - intros fuel F.
    rewrite (CreateFromWeekAt_in_range _ _ _ _ HW), <- Et0.
    rewrite L1, bind_Some by lia.
    rewrite L2, bind_Some by lia.
    rewrite L3, bind_Some by lia.
    rewrite L4, bind_Some by lia.
    rewrite wsStart_stateAt, AddDate_days by exact W4.
    reflexivity.
Qed.

(** [CreateFromWeek] returns: for a week from 1 to 53 and a first day of the
    week from Sunday to Saturday every loop stops, and the period found
    starts on that day of the week and lasts seven days. *)
Lemma CreateFromWeekAt_returns (startWeek year week : Z) :
  0 <= startWeek <= 6 -> 1 <= week <= 53 ->
  exists (N : nat) (p : Period),
    (forall fuel, (N <= fuel)%nat ->
       CreateFromWeekAt startWeek fuel year week = Some (p, []))
    /\ Weekday (Start p) = startWeek
    /\ End p = shiftDays 7 (Start p).
Proof.
  intros HS HW.
  destruct (CreateFromWeekAt_run startWeek year week HS HW)
    as (N & k3 & k4 & t2 & _ & _ & _ & _ & _ & _ & _ & D4 & R).
  exists N. eexists. split; [exact R | split; [exact D4 | reflexivity]].
Qed.

Lemma thursdayOf_is_thursday (d : Z) : (thursdayOf d + 1) mod 7 = 4.
Proof.
  unfold thursdayOf, Thursday.
  destruct (_ =? 4) eqn:C; [apply Z.eqb_eq in C | apply Z.eqb_neq in C]; zdiv.
Qed.

(** From the Monday of week 1 on, and as long as the Thursday of the week
    stays in the year, the ISO week number grows by one every seven days. *)
Lemma ISOWeek_from_week_one (year : Z) (t2 : Time) (j : Z) :
  (dayOf t2 + 1) mod 7 = 1 ->
  daysSinceEpoch year <= dayOf t2 + 3 < daysSinceEpoch year + 7 ->
  0 <= j ->
  dayOf t2 + 3 + 7 * (j / 7) < daysSinceEpoch (year + 1) ->
  ISOWeek (shiftDays j t2) = (year, j / 7 + 1).
Proof.
  intros M T J B.
  rewrite ISOWeek_shiftDays, (thursdayOf_from_monday _ _ M).
  rewrite (absYear_unique _ year) by zdiv.
  cbn [fst snd]. f_equal. zdiv.
Qed.

(** [CreateFromWeek] on a week the ISO year has: the period starts on the
    Monday of that week of that year and lasts seven days. *)
Lemma CreateFromWeek_existing_week (year week : Z) :
  1 <= week <= 53 ->
  (exists t, ISOWeek t = (year, week)) ->
  exists (N : nat) (p : Period),
    (forall fuel, (N <= fuel)%nat ->
       CreateFromWeek fuel year week = Some (p, []))
    /\ ISOWeek (Start p) = (year, week)
    /\ Weekday (Start p) = Monday
    /\ End p = shiftDays 7 (Start p).
Proof.
  intros HW (t & Ht).
  assert (HS : 0 <= StartWeek <= 6) by (unfold StartWeek, Monday; lia).
  destruct (CreateFromWeekAt_run StartWeek year week HS HW)
    as (N & k3 & k4 & t2 & W2 & M2 & T2 & C3 & B3 & D3 & K4 & D4 & R).
  (* the Thursday of the week asked for *)
  pose proof (fst_ISOWeek t) as Ey. pose proof (snd_ISOWeek t) as Ew.
  rewrite Ht in Ey, Ew. cbn [fst snd] in Ey, Ew.
  pose proof (thursdayOf_is_thursday (dayOf t)) as Th.
  destruct (absYear_spec (thursdayOf (dayOf t))) as [S B].
  rewrite <- Ey in S, B.
  pose proof (daysSinceEpoch_succ year) as Y1.
  remember (thursdayOf (dayOf t)) as T eqn:ET0.
  remember (snd (absYear T)) as yd eqn:Eyd.
  assert (ET : T = dayOf t2 + 3 + 7 * (week - 1)) by zdiv.
  (* the week numbers on the way *)
  assert (Wk : forall j, 0 <= j <= 7 * (week - 1) + 6 ->
            ISOWeek (shiftDays j t2) = (year, j / 7 + 1)).
  { intros j Hj. apply ISOWeek_from_week_one; try assumption; zdiv. }
  assert (Wk' : forall j, 0 <= j <= 7 * (week - 1) + 6 ->
            snd (absYear (thursdayOf (dayOf t2 + j))) / 7 + 1 = j / 7 + 1).
  { intros j Hj. rewrite <- dayOf_shiftDays, <- snd_ISOWeek, Wk by exact Hj.
    reflexivity. }
  assert (K3 : Z.of_nat k3 = 7 * (week - 1)).
  { destruct (Z.lt_trichotomy (Z.of_nat k3) (7 * (week - 1)))
      as [L | [E | L]]; [exfalso | exact E | exfalso].
    - rewrite Wk' in C3 by lia. zdiv.
    - pose proof (B3 (Z.to_nat (7 * (week - 1))) ltac:(lia)) as P.
      rewrite Z2Nat.id in P by lia.
      rewrite Wk' in P by lia. zdiv. }
  exists N. eexists. split; [exact R |].
  cbn [Start End].
  replace (Z.of_nat k4 * (StartWeek - Monday)) with 0
    by (unfold StartWeek; lia).
  rewrite shiftDays_0.
  split; [| split; [| reflexivity]].
  - rewrite K3, Wk by lia. f_equal. zdiv.
  - rewrite Weekday_shiftDays. exact D3.
Qed.

(** Every ISO year has the weeks 1 to 52. *)
Lemma week_exists (year week : Z) :
  1 <= week <= 52 -> exists t, ISOWeek t = (year, week).
Proof.
  intros HW.
  exists (mkTime ((daysSinceEpoch year + 3 + 7 * (week - 1)) * secondsPerDay) 0).
  rewrite ISOWeek_dayOf.
  assert (D : dayOf (mkTime ((daysSinceEpoch year + 3 + 7 * (week - 1))
                             * secondsPerDay) 0)
              = daysSinceEpoch year + 3 + 7 * (week - 1)).
  { unfold dayOf, secondsPerDay. cbn [sec]. zdiv. }
  rewrite D.
  pose proof (thursdayOf_bounds (daysSinceEpoch year + 3 + 7 * (week - 1))).
  pose proof (daysSinceEpoch_succ year). pose proof (leapDay_bound year).
  rewrite (absYear_unique _ year) by lia.
  cbn [fst snd]. f_equal. zdiv.
Qed.

End WeekLoops.

(* ------------------------------------------------------------------ *)
(** ** What the calendar constructors return *)

Section WeekResults.

Import time period.

Lemma while_mono {S : Type} (cond : S -> bool) (body : S -> S) (fuel : nat) :
  forall s r fuel',
  while fuel cond body s = Some r -> (fuel <= fuel')%nat ->
  while fuel' cond body s = Some r.
Proof.
  induction fuel as [| fuel IH]; intros s r fuel' H F.
  - cbn [while] in H. destruct (cond s) eqn:C; [discriminate |].
    destruct fuel'; cbn [while]; rewrite C; exact H.
  - cbn [while] in H. destruct fuel' as [| fuel']; [lia |].
    cbn [while]. destruct (cond s); [| exact H].
    apply IH; [exact H | lia].
Qed.

(** More fuel does not change what [CreateFromWeek] returns. *)
Lemma CreateFromWeekAt_mono (startWeek : Z) (fuel fuel' : nat)
  (year week : Z) (r : Period * list error) :
  CreateFromWeekAt startWeek fuel year week = Some r -> (fuel <= fuel')%nat ->
  CreateFromWeekAt startWeek fuel' year week = Some r.
Proof.
  intros H F.
  destruct (Z.ltb_spec week 1) as [L | L];
    [| destruct (Z.ltb_spec 53 week) as [L' | L']].
  - unfold CreateFromWeekAt in *.
    rewrite validateRange_out in * by lia. exact H.
  - unfold CreateFromWeekAt in *.
    rewrite validateRange_out in * by lia. exact H.
  - rewrite CreateFromWeekAt_in_range in * by lia.
    destruct (while fuel _ (advance (-1)) _) as [s1 |] eqn:E1;
      [| discriminate H].
    rewrite (while_mono _ _ _ _ _ _ E1 F). rewrite bind_Some in *.
    destruct (while fuel _ (advance 1) s1) as [s2 |] eqn:E2;
      [| discriminate H].
    rewrite (while_mono _ _ _ _ _ _ E2 F). rewrite bind_Some in *.
    destruct (while fuel _ (advance 1) s2) as [s3 |] eqn:E3;
      [| discriminate H].
    rewrite (while_mono _ _ _ _ _ _ E3 F). rewrite bind_Some in *.
    destruct (while fuel _ _ s3) as [s4 |] eqn:E4;
      [| discriminate H].
    rewrite (while_mono _ _ _ _ _ _ E4 F). rewrite bind_Some in *.
    exact H.
Qed.

(** Past the range check [CreateFromWeek] reports no error. *)
Lemma CreateFromWeekAt_no_error (startWeek : Z) (fuel : nat)
  (year week : Z) (r : Period * list error) :
  1 <= week <= 53 ->
  CreateFromWeekAt startWeek fuel year week = Some r -> snd r = [].
Proof.
  intros HW H. rewrite CreateFromWeekAt_in_range in H by exact HW.
  destruct (while fuel _ (advance (-1)) _) as [s1 |]; [| discriminate H].
  rewrite bind_Some in H.
  destruct (while fuel _ (advance 1) s1) as [s2 |]; [| discriminate H].
  rewrite bind_Some in H.
  destruct (while fuel _ (advance 1) s2) as [s3 |]; [| discriminate H].
  rewrite bind_Some in H.
  destruct (while fuel _ _ s3) as [s4 |]; [| discriminate H].
  rewrite bind_Some in H.
  injection H as <-. reflexivity.
Qed.

Lemma CreateFromWeekAt_out_of_range (startWeek : Z) (fuel : nat)
  (year week : Z) :
  week < 1 \/ 53 < week ->
  CreateFromWeekAt startWeek fuel year week
  = Some (zeroPeriod, [OutOfRangeError]).
Proof.
  intros H. unfold CreateFromWeekAt.
  rewrite validateRange_out by exact H. reflexivity.
Qed.

(** The ISO year 2014 has no week 53: its last day is a Wednesday. *)
Lemma no_week_53_in_2014 (t : Time) : ISOWeek t <> (2014, 53).
Proof.
  intros H.
  pose proof (fst_ISOWeek t) as Ey. pose proof (snd_ISOWeek t) as Ew.
  rewrite H in Ey, Ew. cbn [fst snd] in Ey, Ew.
  pose proof (thursdayOf_is_thursday (dayOf t)) as Th.
  destruct (absYear_spec (thursdayOf (dayOf t))) as [S B].
  rewrite <- Ey in S, B.
  change (daysSinceEpoch 2014) with 735233 in S.
  change (leapDay 2014) with 0 in B.
  remember (thursdayOf (dayOf t)) as T eqn:ET.
  remember (snd (absYear T)) as yd eqn:Eyd.
  zdiv.
Qed.

(** Every week from 1 to 52: [CreateFromWeek] returns the period that
    starts on the Monday of that ISO week of that ISO year and lasts seven
    days. *)
Lemma CreateFromWeek_weeks_1_to_52 (year week : Z) :
  1 <= week <= 52 ->
  exists (N : nat) (p : Period),
    (forall fuel, (N <= fuel)%nat ->
       CreateFromWeek fuel year week = Some (p, []))
    /\ ISOWeek (Start p) = (year, week)
    /\ Weekday (Start p) = Monday
    /\ End p = shiftDays 7 (Start p).
Proof.
  intros HW.
  apply CreateFromWeek_existing_week; [lia | apply week_exists; exact HW].
Qed.

(** C5.  [CreateFromWeek(2015, 1)] is the week from Monday 2014-12-29, as
    the claim says.  [CreateFromWeek(2014, 53)] is the week from Monday
    2015-12-28, the week 53 of the ISO year 2015: the ISO year 2014 has no
    week 53, and the loop that looks for the week number runs on through
    the whole of 2015. *)
Theorem CreateFromWeek_2014_week_53 :
  (forall fuel,
     CreateFromWeek (100 + fuel) 2015 1
     = Some (mkPeriod (Date 2014 12 29 0 0 0 0) (Date 2015 1 5 0 0 0 0), []))
  /\ Date 2015 1 5 0 0 0 0 = shiftDays 7 (Date 2014 12 29 0 0 0 0)
  /\ ISOWeek (Date 2014 12 29 0 0 0 0) = (2015, 1)
  /\ Weekday (Date 2014 12 29 0 0 0 0) = Monday
  /\ (forall fuel,
        CreateFromWeek (1000 + fuel) 2014 53
        = Some (mkPeriod (Date 2015 12 28 0 0 0 0) (Date 2016 1 4 0 0 0 0),
                []))
  /\ ISOWeek (Date 2015 12 28 0 0 0 0) = (2015, 53)
  /\ (forall t, ISOWeek t <> (2014, 53)).
Proof.
  split; [| split; [| split; [| split; [| split; [| split]]]]].
  - intros fuel. apply (CreateFromWeekAt_mono StartWeek 100); [| lia].
    vm_compute. reflexivity.
  - vm_compute. reflexivity.
  - vm_compute. reflexivity.
  - vm_compute. reflexivity.
  - intros fuel. apply (CreateFromWeekAt_mono StartWeek 1000); [| lia].
    vm_compute. reflexivity.
  - vm_compute. reflexivity.
  - exact no_week_53_in_2014.
Qed.

(** C8.  Each calendar constructor reports [OutOfRangeError] exactly when
    its index is outside its bound: 1 to 53 for the week, 1 to 12 for the
    month, 1 to 4 for the quarter, 1 to 2 for the semester.  The error comes
    back in the result, with the zero period; [validateRange] hands the
    index back unchanged and, in range, the constructor builds the period
    from that very index.  That [CreateFromWeek] returns, and what it
    returns, is stated for the years of [calendarYear]. *)
Theorem constructors_check_their_range (year index : Z) :
  (forall lo hi,
     fst (validateRange index lo hi) = index
     /\ (snd (validateRange index lo hi) = [OutOfRangeError] <->
         index < lo \/ hi < index)
     /\ (snd (validateRange index lo hi) = [] <-> lo <= index <= hi))
  (* week *)
  /\ (index < 1 \/ 53 < index ->
      forall fuel,
        CreateFromWeek fuel year index = Some (zeroPeriod, [OutOfRangeError]))
  /\ (calendarYear year -> 1 <= index <= 53 ->
      exists (N : nat) (p : Period),
        (forall fuel, (N <= fuel)%nat ->
           CreateFromWeek fuel year index = Some (p, []))
        /\ Weekday (Start p) = StartWeek
        /\ End p = shiftDays 7 (Start p))
  /\ (calendarYear year -> 1 <= index <= 52 ->
      exists (N : nat) (p : Period),
        (forall fuel, (N <= fuel)%nat ->
           CreateFromWeek fuel year index = Some (p, []))
        /\ ISOWeek (Start p) = (year, index))
  /\ (forall fuel r, CreateFromWeek fuel year index = Some r ->
        (snd r = [OutOfRangeError] <-> index < 1 \/ 53 < index))
  (* month *)
  /\ (snd (CreateFromMonth year index) = [OutOfRangeError] <->
      index < 1 \/ 12 < index)
  /\ (index < 1 \/ 12 < index ->
      CreateFromMonth year index = (zeroPeriod, [OutOfRangeError]))
  /\ (1 <= index <= 12 ->
      CreateFromMonth year index
      = (mkPeriod (fst (Parse_YMDHIS (sprintfYearMonth year index)))
           (AddDate (fst (Parse_YMDHIS (sprintfYearMonth year index))) 0 1 0),
         []))
  (* quarter *)
  /\ (snd (CreateFromQuarter year index) = [OutOfRangeError] <->
      index < 1 \/ 4 < index)
  /\ (index < 1 \/ 4 < index ->
      CreateFromQuarter year index = (zeroPeriod, [OutOfRangeError]))
  /\ (1 <= index <= 4 ->
      CreateFromQuarter year index
      = (mkPeriod
           (fst (Parse_YMDHIS (sprintfYearMonth year ((index - 1) * 3 + 1))))
           (AddDate
              (fst (Parse_YMDHIS
                      (sprintfYearMonth year ((index - 1) * 3 + 1)))) 0 3 0),
         []))
  (* semester *)
  /\ (snd (CreateFromSemester year index) = [OutOfRangeError] <->
      index < 1 \/ 2 < index)
  /\ (index < 1 \/ 2 < index ->
      CreateFromSemester year index = (zeroPeriod, [OutOfRangeError]))
  /\ (1 <= index <= 2 ->
      CreateFromSemester year index
      = (mkPeriod
           (fst (Parse_YMDHIS (sprintfYearMonth year ((index - 1) * 6 + 1))))
           (AddDate
              (fst (Parse_YMDHIS
                      (sprintfYearMonth year ((index - 1) * 6 + 1)))) 0 6 0),
         [])).
Proof.
  assert (V : forall lo hi,
     fst (validateRange index lo hi) = index
     /\ (snd (validateRange index lo hi) = [OutOfRangeError] <->
         index < lo \/ hi < index)
     /\ (snd (validateRange index lo hi) = [] <-> lo <= index <= hi)).
  { intros lo hi.
    destruct (Z_lt_dec index lo) as [L | L];
      [| destruct (Z_lt_dec hi index) as [L' | L']].
    - rewrite validateRange_out by lia. cbn [fst snd].
      split; [reflexivity | split; split; intros; try lia; try discriminate;
                            reflexivity].
    - rewrite validateRange_out by lia. cbn [fst snd].
      split; [reflexivity | split; split; intros; try lia; try discriminate;
                            reflexivity].
    - rewrite validateRange_in by lia. cbn [fst snd].
      split; [reflexivity | split; split; intros; try lia; try discriminate;
                            reflexivity]. }
  assert (Out : forall (f : Z -> Z -> Period * list error) lo hi,
            (index < lo \/ hi < index -> f year index
                                         = (zeroPeriod, [OutOfRangeError])) ->
            (lo <= index <= hi -> snd (f year index) = []) ->
            (snd (f year index) = [OutOfRangeError] <->
             index < lo \/ hi < index)).
  { intros f lo hi O I. split.
    - intros E. destruct (Z_lt_dec index lo); [lia |].
      destruct (Z_lt_dec hi index); [lia |].
      rewrite I in E by lia. discriminate E.
    - intros H. rewrite (O H). reflexivity. }
  assert (MO : index < 1 \/ 12 < index ->
               CreateFromMonth year index = (zeroPeriod, [OutOfRangeError])).
  { intros H. unfold CreateFromMonth. rewrite validateRange_out by exact H.
    reflexivity. }
  assert (MI : 1 <= index <= 12 ->
      CreateFromMonth year index
      = (mkPeriod (fst (Parse_YMDHIS (sprintfYearMonth year index)))
           (AddDate (fst (Parse_YMDHIS (sprintfYearMonth year index))) 0 1 0),
         [])).
  { intros H. unfold CreateFromMonth. rewrite validateRange_in by exact H.
    reflexivity. }
  assert (QO : index < 1 \/ 4 < index ->
               CreateFromQuarter year index = (zeroPeriod, [OutOfRangeError])).
  { intros H. unfold CreateFromQuarter. rewrite validateRange_out by exact H.
    reflexivity. }
  assert (QI : 1 <= index <= 4 ->
      CreateFromQuarter year index
      = (mkPeriod
           (fst (Parse_YMDHIS (sprintfYearMonth year ((index - 1) * 3 + 1))))
           (AddDate
              (fst (Parse_YMDHIS
                      (sprintfYearMonth year ((index - 1) * 3 + 1)))) 0 3 0),
         [])).
  { intros H. unfold CreateFromQuarter. rewrite validateRange_in by exact H.
    reflexivity. }
  assert (SO : index < 1 \/ 2 < index ->
               CreateFromSemester year index
               = (zeroPeriod, [OutOfRangeError])).
  { intros H. unfold CreateFromSemester. rewrite validateRange_out by exact H.
    reflexivity. }
  assert (SI : 1 <= index <= 2 ->
      CreateFromSemester year index
      = (mkPeriod
           (fst (Parse_YMDHIS (sprintfYearMonth year ((index - 1) * 6 + 1))))
           (AddDate
              (fst (Parse_YMDHIS
                      (sprintfYearMonth year ((index - 1) * 6 + 1)))) 0 6 0),
         [])).
  { intros H. unfold CreateFromSemester. rewrite validateRange_in by exact H.
    reflexivity. }
  split; [exact V |].
  split; [intros H fuel; apply CreateFromWeekAt_out_of_range; exact H |].
  split.
  { intros _ H. apply CreateFromWeekAt_returns;
      [unfold StartWeek, Monday; lia | exact H]. }
  split.
  { intros _ H.
    destruct (CreateFromWeek_weeks_1_to_52 year index H)
      as (N & p & R & I & _).
    exists N, p. split; assumption. }
  split.
  { intros fuel r H. split.
    - intros E. destruct (Z_lt_dec index 1); [lia |].
      destruct (Z_lt_dec 53 index); [lia |].
      assert (I : 1 <= index <= 53) by lia.
      rewrite (CreateFromWeekAt_no_error _ _ _ _ _ I H) in E.
      discriminate E.
    - intros O. unfold CreateFromWeek in H.
      rewrite (CreateFromWeekAt_out_of_range _ _ _ _ O) in H.
      injection H as <-. reflexivity. }
  split; [apply (Out CreateFromMonth 1 12 MO);
          intros H; rewrite (MI H); reflexivity |].
  split; [exact MO | split; [exact MI |]].
  split; [apply (Out CreateFromQuarter 1 4 QO);
          intros H; rewrite (QI H); reflexivity |].
  split; [exact QO | split; [exact QI |]].
  split; [apply (Out CreateFromSemester 1 2 SO);
          intros H; rewrite (SI H); reflexivity |].
  split; [exact SO | exact SI].
Qed.

(** X1. For every year of [calendarYear] and every week that the ISO year
    has (every week from 1 to 52, and week 53 in the years where some day
    has it), with the default Monday first day of the week,
    [CreateFromWeek] returns the period whose start is the Monday of that
    ISO week of that ISO year and whose end is seven days later. *)
Theorem CreateFromWeek_returns_the_week_asked (year week : Z) :
  calendarYear year ->
  1 <= week <= 53 ->
  week <= 52 \/ (exists t, ISOWeek t = (year, week)) ->
  exists (N : nat) (p : Period),
    (forall fuel, (N <= fuel)%nat ->
       CreateFromWeek fuel year week = Some (p, []))
    /\ ISOWeek (Start p) = (year, week)
    /\ Weekday (Start p) = Monday
    /\ End p = shiftDays 7 (Start p).
Proof.
  intros _ HW [H | H].
  - apply CreateFromWeek_weeks_1_to_52. lia.
  - apply CreateFromWeek_existing_week; assumption.
Qed.

Lemma CreateFromWeek_returns_the_week_asked_witness :
  exists (N : nat) (p : Period),
    (forall fuel, (N <= fuel)%nat ->
       CreateFromWeek fuel 2015 53 = Some (p, []))
    /\ ISOWeek (Start p) = (2015, 53)
    /\ Weekday (Start p) = Monday
    /\ End p = shiftDays 7 (Start p).
Proof.
  refine (CreateFromWeek_returns_the_week_asked 2015 53 (conj _ _)
            (conj _ _)
            (or_intror (ex_intro _ (Date 2015 12 31 0 0 0 0) _))).
  - discriminate.
  - discriminate.
  - discriminate.
  - discriminate.
  - vm_compute. reflexivity.
Defined.

(** On the instants [UnixNano] is documented for, [compareDate] is exact:
    here on the first and the tenth second of Unix time. *)
Lemma compareDate_exact_witness :
  compareDate (Unix 0 0) (Unix 10 0) = -1.
Proof.
  refine (compareDate_exact (Unix 0 0) (Unix 10 0) _ _);
    vm_compute; split; discriminate.
Defined.

End WeekResults.

(* ------------------------------------------------------------------ *)
(** ** The algebra of periods *)

Section PeriodAlgebra.

Import time period.

Lemma compareDate_cases (a b : Time) :
  (compareDate a b = 1 /\ UnixNano b < UnixNano a)
  \/ (compareDate a b = -1 /\ UnixNano a < UnixNano b)
  \/ (compareDate a b = 0 /\ UnixNano a = UnixNano b).
Proof.
  destruct (compareDate_values a b) as [H | [H | H]].
  - right. left. split; [exact H | apply compareDate_lt, H].
  - right. right. split; [exact H | apply compareDate_eq, H].
  - left. split; [exact H | apply compareDate_gt, H].
Qed.

(** Replaces every comparison of the goal by its value, keeping what it
    says about the nanosecond readings. *)
Ltac compare_one :=
  match goal with
  | |- context [compareDate ?a ?b] =>
      lazymatch a with context [compareDate _ _] => fail | _ => idtac end;
      lazymatch b with context [compareDate _ _] => fail | _ => idtac end;
      let H := fresh "C" in
      destruct (compareDate_cases a b) as [[H ?] | [[H ?] | [H ?]]];
      rewrite !H in *; clear H
  end.

Ltac conjuncts := repeat match goal with |- _ /\ _ => split end.

Ltac compare_all :=
  repeat (compare_one; try (exfalso; lia); cbn -[compareDate UnixNano]).

Ltac by_comparisons :=
  compare_all; try reflexivity; try discriminate; try lia.

(** X5. [Overlaps] and the verdict of [Abuts] do not depend on which of the
    two periods is the receiver. *)
Theorem Overlaps_Abuts_symmetric (p q : Period) :
  Overlaps p q = Overlaps q p /\ fst (Abuts p q) = fst (Abuts q p).
Proof.
  split.
  - unfold Overlaps, Abuts, in_array. cbn [in_array_from]. by_comparisons.
  - unfold Abuts, in_array. cbn [in_array_from]. by_comparisons.
Qed.

(** X6. The position [Abuts] returns: [0] when [p.Start] compares equal to
    [q.End], also when both ends touch; [1] when only [p.End] compares equal
    to [q.Start]; [-1] exactly when the periods do not abut. *)
Theorem Abuts_position (p q : Period) :
  (snd (Abuts p q) = 0 <-> UnixNano (Start p) = UnixNano (End q))
  /\ (snd (Abuts p q) = 1 <->
      UnixNano (Start p) <> UnixNano (End q)
      /\ UnixNano (End p) = UnixNano (Start q))
  /\ (snd (Abuts p q) = -1 <-> fst (Abuts p q) = false)
  /\ (snd (Abuts p q) = 0 \/ snd (Abuts p q) = 1 \/ snd (Abuts p q) = -1).
Proof.
  unfold Abuts, in_array. cbn [in_array_from].
  compare_all; cbn -[compareDate UnixNano];
    repeat split; intros; try lia; try discriminate; auto;
    repeat match goal with H : _ /\ _ |- _ => destruct H end; try lia.
Qed.

(** X7. An instant lies in the intersection exactly when it lies in both
    periods; for abutting periods, where [Intersect] fails and returns the
    zero period, both sides are false. *)
Theorem Contains_Intersect (p q : Period) (t : Time) :
  Contains (fst (Intersect p q)) t = Contains p t && Contains q t.
Proof.
  unfold Intersect, Abuts, in_array. cbn [in_array_from].
  unfold Contains, zeroPeriod.
  by_comparisons.
Qed.

(** X8. For overlapping periods the slices [Diff] returns hold exactly the
    instants that lie in one of the two periods and not in the other. *)
Theorem Diff_symmetric_difference (p q : Period) (t : Time) :
  Overlaps p q = true ->
  existsb (fun r => Contains r t) (fst (Diff p q))
  = xorb (Contains p t) (Contains q t).
Proof.
  intros O. unfold Diff. rewrite O. cbn [negb].
  revert O.
  unfold Overlaps, Abuts, in_array. cbn [in_array_from].
  unfold createFromDatepoints, Contains.
  by_comparisons.
Qed.

Lemma Contains_nanos (p : Period) (t : Time) :
  Contains p t = true <->
  UnixNano (Start p) <= UnixNano t < UnixNano (End p).
Proof.
  unfold Contains.
  compare_all; split; intros; try lia; try discriminate; reflexivity.
Qed.

(** X9. The merged period contains every instant that one of the merged
    periods contains. *)
Theorem Merge_contains (p : Period) (periods : list Period)
  (x : Period) (t : Time) :
  In x (p :: periods) -> Contains x t = true ->
  Contains (Merge p periods) t = true.
Proof.
  intros I C. apply Contains_nanos in C. apply Contains_nanos.
  pose proof (proj2 (Merge_Start periods p) x I).
  pose proof (proj2 (Merge_End periods p) x I).
  lia.
Qed.

Lemma Merge_contains_witness :
  Contains (Merge tenSeconds [lastFiveSeconds]) (Unix 7 0) = true.
Proof.
  apply (Merge_contains tenSeconds [lastFiveSeconds] lastFiveSeconds).
  - right. left. reflexivity.
  - vm_compute. reflexivity.
Defined.

(** X10. The gap abuts both periods and overlaps neither; unless the two
    starts compare equal it does not depend on which period is the
    receiver. *)
Theorem Gap_abuts_both (p q : Period) :
  fst (Abuts p (Gap p q)) = true
  /\ fst (Abuts (Gap p q) q) = true
  /\ Overlaps p (Gap p q) = false
  /\ Overlaps (Gap p q) q = false
  /\ (compareDate (Start p) (Start q) = 0 \/ Gap p q = Gap q p).
Proof.
  unfold Overlaps, Abuts, in_array, Gap. cbn [in_array_from].
  destruct (compareDate_cases (Start q) (Start p)) as [[C ?] | [[C ?] | [C ?]]];
    rewrite C; cbn -[compareDate UnixNano];
    destruct (compareDate_cases (Start p) (Start q))
      as [[D ?] | [[D ?] | [D ?]]];
    rewrite D; try (exfalso; lia);
    cbn -[compareDate UnixNano];
    (repeat split; [by_comparisons .. | auto ]).
Qed.

Lemma GetDurationInterval_in_range (p : Period) :
  Int64.in_range (GetDurationInterval p).
Proof. rewrite GetDurationInterval_wrap. apply wrap_in_range. Qed.

Lemma compareDate_refl (a : Time) : compareDate a a = 0.
Proof. apply compareDate_eq. reflexivity. Qed.

(** X11. [Next] and [Previous] keep the duration of the period, also when
    the nanosecond counts wrap around, and the period they return abuts the
    one they were given without overlapping it. *)
Theorem Next_Previous_keep_duration_and_abut (p : Period) :
  GetDurationInterval (Next p) = GetDurationInterval p
  /\ GetDurationInterval (Previous p) = GetDurationInterval p
  /\ fst (Abuts p (Next p)) = true
  /\ fst (Abuts (Previous p) p) = true
  /\ Overlaps p (Next p) = false
  /\ Overlaps (Previous p) p = false.
Proof.
  assert (A : fst (Abuts p (Next p)) = true).
  { unfold Abuts, in_array, Next. cbn [in_array_from Start End].
    rewrite (compareDate_refl (End p)).
    destruct (0 =? compareDate _ _); reflexivity. }
  assert (B : fst (Abuts (Previous p) p) = true).
  { unfold Abuts, in_array, Previous. cbn [in_array_from Start End].
    rewrite (compareDate_refl (Start p)).
    destruct (0 =? compareDate _ _); reflexivity. }
  conjuncts.
  - rewrite (GetDurationInterval_wrap (Next p)). unfold Next. cbn [Start End].
    unfold addDuration. rewrite nanos_Add.
    replace (nanos (End p) + GetDurationInterval p - nanos (End p))
      with (GetDurationInterval p) by lia.
    apply wrap_small, GetDurationInterval_in_range.
  - rewrite (GetDurationInterval_wrap (Previous p)). unfold Previous.
    cbn [Start End]. rewrite nanos_subDuration.
    replace (nanos (Start p)
             - (nanos (Start p) + Int64.wrap (- GetDurationInterval p)))
      with (0 - Int64.wrap (- GetDurationInterval p)) by lia.
    rewrite wrap_sub_r.
    replace (0 - - GetDurationInterval p) with (GetDurationInterval p) by lia.
    apply wrap_small, GetDurationInterval_in_range.
  - exact A.
  - exact B.
  - unfold Overlaps. rewrite A. reflexivity.
  - unfold Overlaps. rewrite B. reflexivity.
Qed.

(** X12. A period built from a duration has that duration: [WithDuration],
    [CreateFromDuration] and [CreateFromDurationBeforeEnd] followed by
    [GetDurationInterval] give back every [int64] duration. *)
Theorem duration_round_trip (p : Period) (t : Time) (d : Duration) :
  Int64.in_range d ->
  GetDurationInterval (WithDuration p d) = d
  /\ GetDurationInterval (fst (CreateFromDuration t d)) = d
  /\ GetDurationInterval (fst (CreateFromDurationBeforeEnd t d)) = d.
Proof.
  intros R. conjuncts.
  - rewrite GetDurationInterval_wrap. unfold WithDuration, addDuration.
    cbn [Start End]. rewrite nanos_Add.
    replace (nanos (Start p) + d - nanos (Start p)) with d by lia.
    apply wrap_small, R.
  - rewrite GetDurationInterval_wrap. unfold CreateFromDuration, addDuration.
    cbn [fst Start End]. rewrite nanos_Add.
    replace (nanos t + d - nanos t) with d by lia.
    apply wrap_small, R.
  - rewrite GetDurationInterval_wrap. unfold CreateFromDurationBeforeEnd.
    cbn [fst Start End]. rewrite nanos_subDuration.
    replace (nanos t - (nanos t + Int64.wrap (- d)))
      with (0 - Int64.wrap (- d)) by lia.
    rewrite wrap_sub_r. replace (0 - - d) with d by lia.
    apply wrap_small, R.
Qed.

Lemma duration_round_trip_witness :
  GetDurationInterval (WithDuration tenSeconds (5 * Second)) = 5 * Second
  /\ GetDurationInterval (fst (CreateFromDuration (Unix 0 0) (5 * Second)))
     = 5 * Second
  /\ GetDurationInterval
       (fst (CreateFromDurationBeforeEnd (Unix 0 0) (5 * Second)))
     = 5 * Second.
Proof.
  apply (duration_round_trip tenSeconds (Unix 0 0) (5 * Second)).
  vm_compute. split; discriminate.
Defined.

(** X13. [Add] and [Sub] of a period move its end only, and undo each
    other for every duration that has a negation in [int64]. *)
Theorem Period_Add_Sub_cancel (p : Period) (d : Duration) :
  wf_time (End p) -> Int64.min_int < d <= Int64.max_int ->
  Period_Sub (Period_Add p d) d = p /\ Period_Add (Period_Sub p d) d = p.
Proof.
  intros W R.
  assert (N : Int64.wrap (- d) = - d).
  { apply wrap_small. unfold Int64.in_range, Int64.min_int, Int64.max_int in *.
    lia. }
  destruct p as [s e]. unfold Period_Sub, Period_Add. cbn [Start End] in *.
  split; f_equal.
  - apply nanos_inj.
    + unfold subDuration. apply wf_Add. unfold addDuration. apply wf_Add, W.
    + exact W.
    + rewrite nanos_subDuration. unfold addDuration. rewrite nanos_Add. lia.
  - apply nanos_inj.
    + unfold addDuration. apply wf_Add. unfold subDuration. apply wf_Add, W.
    + exact W.
    + unfold addDuration. rewrite nanos_Add, nanos_subDuration. lia.
Qed.

Lemma Period_Add_Sub_cancel_witness :
  Period_Sub (Period_Add tenSeconds (5 * Second)) (5 * Second) = tenSeconds
  /\ Period_Add (Period_Sub tenSeconds (5 * Second)) (5 * Second)
     = tenSeconds.
Proof.
  apply (Period_Add_Sub_cancel tenSeconds (5 * Second)).
  - vm_compute. split; [discriminate | reflexivity].
  - vm_compute. split; [reflexivity | discriminate].
Defined.

Lemma wrap_sub_zero (a b : Z) :
  Int64.in_range a -> Int64.in_range b ->
  (Int64.wrap (a - b) = 0 <-> a = b).
Proof.
  unfold Int64.in_range, Int64.min_int, Int64.max_int, Int64.wrap.
  intros Ra Rb. split; intros E.
  - revert E. zdiv.
  - subst b. replace (a - a) with 0 by lia. reflexivity.
Qed.

Lemma wrap_opp_sub (a b : Z) :
  Int64.wrap (b - a) = Int64.wrap (- Int64.wrap (a - b)).
Proof.
  replace (- Int64.wrap (a - b)) with (0 - Int64.wrap (a - b)) by lia.
  rewrite wrap_sub_r. f_equal. lia.
Qed.

(** X14. [TimestampDurationDiff] is zero exactly when the two periods have
    the same duration, changes sign (modulo [int64]) when the periods are
    swapped, and [DurationDiff] is the same number. *)
Theorem TimestampDurationDiff_zero (p q : Period) :
  (TimestampDurationDiff p q = 0 <->
   GetDurationInterval p = GetDurationInterval q)
  /\ TimestampDurationDiff q p = Int64.wrap (- TimestampDurationDiff p q)
  /\ DurationDiff p q = TimestampDurationDiff p q.
Proof.
  split; [| split].
  - apply wrap_sub_zero; apply GetDurationInterval_in_range.
  - apply wrap_opp_sub.
  - unfold DurationDiff, TimestampDurationDiff, Int64.sub.
    rewrite mul_one. apply wrap_wrap.
Qed.

(** X15. A period never contains its own end, and contains its start
    exactly when the start compares before the end. *)
Theorem Contains_boundaries (p : Period) :
  Contains p (End p) = false
  /\ (Contains p (Start p) = true <-> UnixNano (Start p) < UnixNano (End p)).
Proof.
  unfold Contains. split.
  - rewrite (compareDate_refl (End p)). apply andb_false_r.
  - rewrite (compareDate_refl (Start p)).
    compare_all; split; intros; try lia; try discriminate; reflexivity.
Qed.

(** X16. [SameValueAs] is an equivalence on periods, and [Contains],
    [Overlaps] and the verdict of [Abuts] do not tell two periods of the
    same value apart. *)
Theorem SameValueAs_equivalence (p q r : Period) (t : Time) :
  SameValueAs p p = true
  /\ SameValueAs p q = SameValueAs q p
  /\ (SameValueAs p q = true -> SameValueAs q r = true ->
      SameValueAs p r = true)
  /\ (SameValueAs p q = true ->
      Contains p t = Contains q t
      /\ Overlaps p r = Overlaps q r
      /\ fst (Abuts p r) = fst (Abuts q r)).
Proof.
  unfold SameValueAs, Contains, Overlaps, Abuts, in_array.
  cbn [in_array_from].
  conjuncts.
  - rewrite !compareDate_refl. reflexivity.
  - by_comparisons.
  - intros E F. revert E F. by_comparisons.
  - intros E. conjuncts; revert E; by_comparisons.
Qed.

(** X27. [IsAfter] compares the two starts and [IsBefore] the two ends,
    nothing else: each is reflexive, transitive and total, so of any two
    periods one is after the other and one is before the other, and a
    period is both after and before every period of the same value. *)
Theorem IsAfter_IsBefore_total_preorders (p q r : Period) :
  IsAfter p p = true
  /\ IsBefore p p = true
  /\ (IsAfter p q = true -> IsAfter q r = true -> IsAfter p r = true)
  /\ (IsBefore p q = true -> IsBefore q r = true -> IsBefore p r = true)
  /\ IsAfter p q || IsAfter q p = true
  /\ IsBefore p q || IsBefore q p = true
  /\ (SameValueAs p q = true -> IsAfter p q && IsBefore p q = true).
Proof.
  unfold IsAfter, IsBefore, SameValueAs.
  conjuncts.
  - rewrite compareDate_refl. reflexivity.
  - rewrite compareDate_refl. reflexivity.
  - intros E F. revert E F. by_comparisons.
  - intros E F. revert E F. by_comparisons.
  - by_comparisons.
  - by_comparisons.
  - intros E. revert E. by_comparisons.
Qed.

Lemma in_array_from_spec (val : Z) (array : list Z) : forall i,
  (fst (in_array_from i val array) = true <-> In val array)
  /\ (fst (in_array_from i val array) = false ->
      snd (in_array_from i val array) = -1)
  /\ (fst (in_array_from i val array) = true ->
      exists n : nat,
        snd (in_array_from i val array) = i + Z.of_nat n
        /\ nth_error array n = Some val
        /\ (forall j, (j < n)%nat -> nth_error array j <> Some val)).
Proof.
  induction array as [| x rest IH]; intros i; cbn [in_array_from].
  - cbn [fst snd In]. split; [| split].
    + split; [discriminate | contradiction].
    + reflexivity.
    + discriminate.
  - destruct (val =? x) eqn:E.
    + apply Z.eqb_eq in E. subst x. cbn [fst snd In].
      split; [| split].
      * split; auto.
      * discriminate.
      * intros _. exists 0%nat. split; [lia | split; [reflexivity |]].
        intros j Hj. lia.
    + apply Z.eqb_neq in E. destruct (IH (i + 1)) as (I1 & I2 & I3).
      split; [| split].
      * rewrite I1. cbn [In]. split; [auto |].
        intros [H | H]; [congruence | exact H].
      * exact I2.
      * intros F. destruct (I3 F) as (n & P & N & B).
        exists (Datatypes.S n). split; [lia | split; [exact N |]].
        intros [| j] Hj; cbn [nth_error].
        -- congruence.
        -- apply B. lia.
Qed.

(** X28. [in_array] finds the first occurrence: it reports that the value
    occurs exactly when it does, with the index of its first occurrence,
    and returns the index [-1] when it does not occur. *)
Theorem in_array_first_occurrence (val : Z) (array : list Z) :
  (fst (in_array val array) = true <-> In val array)
  /\ (fst (in_array val array) = false -> snd (in_array val array) = -1)
  /\ (fst (in_array val array) = true ->
      exists n : nat,
        snd (in_array val array) = Z.of_nat n
        /\ nth_error array n = Some val
        /\ (forall j, (j < n)%nat -> nth_error array j <> Some val)).
Proof.
  unfold in_array. destruct (in_array_from_spec val array 0) as (I1 & I2 & I3).
  split; [exact I1 | split; [exact I2 |]].
  intros F. destruct (I3 F) as (n & P & N & B).
  exists n. split; [lia | split; [exact N | exact B]].
Qed.

Lemma Diff_symmetric_difference_witness :
  existsb (fun r => Contains r (Unix 3 0))
    (fst (Diff tenSeconds lastFiveSeconds))
  = xorb (Contains tenSeconds (Unix 3 0)) (Contains lastFiveSeconds (Unix 3 0)).
Proof.
  apply (Diff_symmetric_difference tenSeconds lastFiveSeconds (Unix 3 0)).
  vm_compute. reflexivity.
Defined.

(** X29. Of [DurationGreaterThan], [DurationLessThan] and [SameDurationAs]
    exactly one holds for any two periods, and swapping the periods swaps
    greater and less. *)
Theorem duration_comparisons_trichotomy (p q : Period) :
  DurationGreaterThan p q = DurationLessThan q p
  /\ SameDurationAs p q = SameDurationAs q p
  /\ (DurationGreaterThan p q = true
      /\ DurationLessThan p q = false /\ SameDurationAs p q = false
      \/ DurationGreaterThan p q = false
         /\ DurationLessThan p q = true /\ SameDurationAs p q = false
      \/ DurationGreaterThan p q = false
         /\ DurationLessThan p q = false /\ SameDurationAs p q = true).
Proof.
  unfold DurationGreaterThan, DurationLessThan, SameDurationAs,
    CompareDuration.
  split; [| split].
  - by_comparisons.
  - by_comparisons.
  - compare_all; auto.
Qed.

(** X30. [Intersect] does not depend on which period is the receiver: the
    two results have the same value and the same errors; and a period that
    does not abut itself is its own intersection with itself. *)
Theorem Intersect_commutes (p q : Period) :
  SameValueAs (fst (Intersect p q)) (fst (Intersect q p)) = true
  /\ snd (Intersect p q) = snd (Intersect q p)
  /\ (fst (Abuts p p) = false -> Intersect p p = (p, [])).
Proof.
  split; [| split].
  - unfold Intersect, Abuts, in_array, SameValueAs, zeroPeriod.
    cbn [in_array_from]. by_comparisons.
  - unfold Intersect, Abuts, in_array. cbn [in_array_from]. by_comparisons.
  - intros A. unfold Intersect. rewrite A. cbv zeta.
    rewrite !compareDate_refl. destruct p as [s e]. reflexivity.
Qed.

End PeriodAlgebra.

(* ------------------------------------------------------------------ *)
(** ** The two copies of the package compared *)

Section SecondCopy.

Import time.

Lemma After_nanos (t u : Time) :
  wf_time t -> wf_time u -> After t u = (nanos u <? nanos t).
Proof.
  unfold wf_time, After, nanos, unixSec. intros Wt Wu.
  destruct (sec u <? sec t) eqn:A; cbn [orb].
  - symmetry. apply Z.ltb_lt. apply Z.ltb_lt in A. lia.
  - apply Z.ltb_ge in A.
    destruct (sec t =? sec u) eqn:B; cbn [andb].
    + apply Z.eqb_eq in B. rewrite B.
      destruct (nsec u <? nsec t) eqn:C; symmetry.
      * apply Z.ltb_lt. apply Z.ltb_lt in C. lia.
      * apply Z.ltb_ge. apply Z.ltb_ge in C. lia.
    + apply Z.eqb_neq in B. symmetry. apply Z.ltb_ge. lia.
Qed.

Lemma Before_After (t u : Time) : Before t u = After u t.
Proof. unfold Before, After. rewrite (Z.eqb_sym (sec t)). reflexivity. Qed.

Lemma Equal_nanos (t u : Time) :
  wf_time t -> wf_time u -> Equal t u = (nanos t =? nanos u).
Proof.
  unfold wf_time, Equal, nanos, unixSec. intros Wt Wu.
  destruct (sec t =? sec u) eqn:B; cbn [andb].
  - apply Z.eqb_eq in B. rewrite B.
    destruct (nsec t =? nsec u) eqn:C; symmetry.
    + apply Z.eqb_eq. apply Z.eqb_eq in C. lia.
    + apply Z.eqb_neq. apply Z.eqb_neq in C. lia.
  - apply Z.eqb_neq in B. symmetry. apply Z.eqb_neq. lia.
Qed.

Lemma alt_compareDate_nanos (a b : Time) :
  wf_time a -> wf_time b ->
  period_alt.compareDate a b
  = match nanos a ?= nanos b with Lt => -1 | Eq => 0 | Gt => 1 end.
Proof.
  intros Wa Wb. unfold period_alt.compareDate.
  rewrite Before_After, !After_nanos by assumption.
  destruct (nanos a ?= nanos b) eqn:C.
  - apply Z.compare_eq in C. rewrite C, Z.ltb_irrefl. reflexivity.
  - rewrite Z.compare_lt_iff in C.
    rewrite (proj2 (Z.ltb_ge _ _)) by lia.
    rewrite (proj2 (Z.ltb_lt _ _)) by lia. reflexivity.
  - rewrite Z.compare_gt_iff in C.
    rewrite (proj2 (Z.ltb_lt _ _)) by lia. reflexivity.
Qed.

Lemma compareDate_nanos (a b : Time) :
  representable a -> representable b ->
  period.compareDate a b
  = match nanos a ?= nanos b with Lt => -1 | Eq => 0 | Gt => 1 end.
Proof.
  intros Ra Rb. unfold period.compareDate.
  rewrite !UnixNano_exact by assumption.
  destruct (nanos a ?= nanos b) eqn:C.
  - apply Z.compare_eq in C. rewrite C, Z.ltb_irrefl. reflexivity.
  - rewrite Z.compare_lt_iff in C.
    rewrite (proj2 (Z.ltb_ge _ _)) by lia.
    rewrite (proj2 (Z.ltb_lt _ _)) by lia. reflexivity.
  - rewrite Z.compare_gt_iff in C.
    rewrite (proj2 (Z.ltb_lt _ _)) by lia. reflexivity.
Qed.

Lemma compareDate_agree (a b : Time) :
  ordinary a -> ordinary b ->
  period_alt.compareDate a b = period.compareDate a b.
Proof.
  intros [Wa Ra] [Wb Rb].
  rewrite alt_compareDate_nanos, compareDate_nanos by assumption.
  reflexivity.
Qed.

(** X17. The second copy's [compareDate], by [After] and [Before], orders
    well-formed instants by their exact distance from the epoch, whatever
    that distance; the first copy's, by [UnixNano], gives the same answer
    on the instants [UnixNano] is documented for. *)
Theorem alt_compareDate_orders_instants (a b : Time) :
  wf_time a -> wf_time b ->
  period_alt.compareDate a b
  = match nanos a ?= nanos b with Lt => -1 | Eq => 0 | Gt => 1 end
  /\ (representable a -> representable b ->
      period_alt.compareDate a b = period.compareDate a b).
Proof.
  intros Wa Wb. split.
  - apply alt_compareDate_nanos; assumption.
  - intros Ra Rb. apply compareDate_agree; split; assumption.
Qed.

Lemma alt_compareDate_orders_instants_witness :
  period_alt.compareDate (Date 1700 1 1 0 0 0 0) (Date 2200 1 1 0 0 0 0)
  = match nanos (Date 1700 1 1 0 0 0 0) ?= nanos (Date 2200 1 1 0 0 0 0)
    with Lt => -1 | Eq => 0 | Gt => 1 end
  /\ (representable (Date 1700 1 1 0 0 0 0) ->
      representable (Date 2200 1 1 0 0 0 0) ->
      period_alt.compareDate (Date 1700 1 1 0 0 0 0) (Date 2200 1 1 0 0 0 0)
      = period.compareDate (Date 1700 1 1 0 0 0 0) (Date 2200 1 1 0 0 0 0)).
Proof.
  apply (alt_compareDate_orders_instants (Date 1700 1 1 0 0 0 0) (Date 2200 1 1 0 0 0 0));
    vm_compute; split; congruence.
Defined.

Lemma alt_Abuts_fst (p q : period.Period) :
  ordinaryPeriod p -> ordinaryPeriod q ->
  period_alt.Abuts p q = period.Abuts p q.
Proof.
  intros [[Wsp Rsp] [Wep Rep]] [[Wsq Rsq] [Weq Req]].
  unfold period_alt.Abuts, period.Abuts, period.in_array.
  cbn [period.in_array_from].
  unfold period_alt.Start, period_alt.End.
  rewrite !Equal_nanos by assumption.
  rewrite !alt_compareDate_nanos, !compareDate_nanos by assumption.
  destruct (nanos (period.Start p) ?= nanos (period.End q)) eqn:C1;
    [ apply Z.compare_eq in C1 | rewrite Z.compare_lt_iff in C1
    | rewrite Z.compare_gt_iff in C1 ];
  (destruct (nanos (period.End p) ?= nanos (period.Start q)) eqn:C2;
    [ apply Z.compare_eq in C2 | rewrite Z.compare_lt_iff in C2
    | rewrite Z.compare_gt_iff in C2 ]);
  try rewrite C1; try rewrite C2; rewrite ?Z.eqb_refl;
  rewrite ?(proj2 (Z.eqb_neq _ _)) by lia; reflexivity.
Qed.

(** X18. On periods whose ends are well-formed instants in the range of
    [UnixNano] the two copies of the package agree: [Contains], [Overlaps]
    and [Abuts], position included, return the same. *)
Theorem copies_agree (p q : period.Period) (t : Time) :
  ordinaryPeriod p -> ordinaryPeriod q -> ordinary t ->
  period_alt.Contains p t = period.Contains p t
  /\ period_alt.Abuts p q = period.Abuts p q
  /\ period_alt.Overlaps p q = period.Overlaps p q.
Proof.
  intros Op Oq Ot.
  pose proof (alt_Abuts_fst p q Op Oq) as A.
  destruct Op as [Osp Oep], Oq as [Osq Oeq].
  split; [| split].
  - unfold period_alt.Contains, period.Contains.
    unfold period_alt.Start, period_alt.End.
    rewrite !compareDate_agree by assumption. reflexivity.
  - exact A.
  - unfold period_alt.Overlaps, period.Overlaps. rewrite A.
    unfold period_alt.Start, period_alt.End.
    rewrite !compareDate_agree by assumption. reflexivity.
Qed.

Lemma copies_agree_witness :
  period_alt.Contains tenSeconds (Unix 7 0)
  = period.Contains tenSeconds (Unix 7 0)
  /\ period_alt.Abuts tenSeconds lastFiveSeconds
     = period.Abuts tenSeconds lastFiveSeconds
  /\ period_alt.Overlaps tenSeconds lastFiveSeconds
     = period.Overlaps tenSeconds lastFiveSeconds.
Proof.
  apply (copies_agree tenSeconds lastFiveSeconds (Unix 7 0));
    vm_compute; repeat split; congruence.
Defined.

(** X19. In the second copy, [p.After(q)] is [q.Before(p)], and a period
    that is after or before another does not overlap it. *)
Theorem After_Before_exclude_overlap (p q : period.Period) :
  period_alt.Period_After p q = period_alt.Period_Before q p
  /\ (period_alt.Period_After p q = true -> period_alt.Overlaps p q = false)
  /\ (period_alt.Period_Before p q = true -> period_alt.Overlaps p q = false).
Proof.
  unfold period_alt.Period_After, period_alt.Period_Before.
  split; [| split].
  - symmetry. apply Before_After.
  - intros A. unfold period_alt.Overlaps.
    destruct (fst (period_alt.Abuts p q)); [reflexivity |].
    unfold period_alt.compareDate at 1. rewrite A. reflexivity.
  - intros B. unfold period_alt.Overlaps.
    destruct (fst (period_alt.Abuts p q)); [reflexivity |].
    unfold period_alt.compareDate at 2.
    revert B. unfold Before, After.
    destruct (sec (period_alt.End p) <? sec (period_alt.Start q)) eqn:A1;
    destruct (sec (period_alt.Start q) <? sec (period_alt.End p)) eqn:A2;
    destruct (sec (period_alt.End p) =? sec (period_alt.Start q)) eqn:A3;
    destruct (nsec (period_alt.End p) <? nsec (period_alt.Start q)) eqn:A4;
    destruct (nsec (period_alt.Start q) <? nsec (period_alt.End p)) eqn:A5;
    cbn [orb andb]; intros B; try discriminate B;
    try apply andb_false_r;
    rewrite ?Z.ltb_lt, ?Z.ltb_ge, ?Z.eqb_eq, ?Z.eqb_neq in *; lia.
Qed.

Lemma wrap_mul_l (x k : Z) : Int64.wrap (Int64.wrap x * k) = Int64.wrap (x * k).
Proof.
  apply wrap_congr.
  rewrite <- (Z.mul_mod_idemp_l (Int64.wrap x)) by lia.
  rewrite wrap_mod.
  rewrite Z.mul_mod_idemp_l by lia. reflexivity.
Qed.

Lemma Sub_wrap (t u : Time) :
  Int64.add (Int64.mul (Int64.sub (sec t) (sec u)) Second) (nsec t - nsec u)
  = Int64.wrap (nanos t - nanos u).
Proof.
  unfold Int64.add, Int64.mul, Int64.sub.
  rewrite wrap_mul_l, wrap_add_l. f_equal.
  unfold nanos, unixSec, Second. lia.
Qed.

(** X20. The second copy takes the duration with [Sub]: on well-formed
    instants it is the exact distance when that fits an [int64], the least
    duration when the distance is below and the greatest when it is above;
    the first copy's wraps around instead, and the two agree when the
    distance fits. *)
Theorem alt_GetDurationInterval_saturates (p : period.Period) :
  wf_time (period.Start p) -> wf_time (period.End p) ->
  (Int64.in_range (nanos (period.End p) - nanos (period.Start p)) ->
   period_alt.GetDurationInterval p
   = nanos (period.End p) - nanos (period.Start p)
   /\ period.GetDurationInterval p = period_alt.GetDurationInterval p)
  /\ (nanos (period.End p) - nanos (period.Start p) < Int64.min_int ->
      period_alt.GetDurationInterval p = minDuration)
  /\ (Int64.max_int < nanos (period.End p) - nanos (period.Start p) ->
      period_alt.GetDurationInterval p = maxDuration).
Proof.
  intros Ws We.
  unfold period_alt.GetDurationInterval, period_alt.Start, period_alt.End, Sub.
  rewrite Sub_wrap.
  rewrite Equal_nanos by (try apply wf_Add; assumption).
  rewrite nanos_Add, Before_After, After_nanos by assumption.
  remember (nanos (period.End p)) as e eqn:Ee.
  remember (nanos (period.Start p)) as s eqn:Es.
  split; [| split].
  - intros R. rewrite (wrap_small _ R).
    rewrite (proj2 (Z.eqb_eq _ _)) by lia.
    split; [reflexivity |].
    rewrite GetDurationInterval_wrap, <- Ee, <- Es. apply wrap_small, R.
  - intros L. pose proof (wrap_in_range (e - s)) as I.
    unfold Int64.in_range in I.
    rewrite (proj2 (Z.eqb_neq _ _)) by lia.
    rewrite (proj2 (Z.ltb_lt _ _)); [reflexivity |].
    unfold Int64.min_int in L. lia.
  - intros L. pose proof (wrap_in_range (e - s)) as I.
    unfold Int64.in_range in I.
    rewrite (proj2 (Z.eqb_neq _ _)) by lia.
    rewrite (proj2 (Z.ltb_ge _ _)); [reflexivity |].
    unfold Int64.max_int in L. lia.
Qed.

Lemma alt_GetDurationInterval_saturates_witness :
  period_alt.GetDurationInterval fiveCenturies = maxDuration.
Proof.
  apply (alt_GetDurationInterval_saturates fiveCenturies);
    vm_compute; try split; congruence.
Defined.

End SecondCopy.

(* ------------------------------------------------------------------ *)
(** ** The calendar constructors on a year of four digits *)

Section ParsedYears.

Import time fmt period.

Lemma digitVal_digitChar (d : Z) :
  0 <= d <= 9 -> digitVal (digitChar d) = d.
Proof.
  intros R.
  assert (C : d = 0 \/ d = 1 \/ d = 2 \/ d = 3 \/ d = 4 \/ d = 5 \/ d = 6
              \/ d = 7 \/ d = 8 \/ d = 9) by lia.
  repeat (destruct C as [C | C]; [subst d; reflexivity |]).
  subst d; reflexivity.
Qed.

Lemma fmt_d_four_digits (y : Z) :
  1000 <= y <= 9999 ->
  fmt_d y
  = String (digitChar (y / 10 / 10 / 10))
      (String (digitChar (y / 10 / 10 mod 10))
         (String (digitChar (y / 10 mod 10))
            (String (digitChar (y mod 10)) EmptyString))).
Proof.
  intros R. unfold fmt_d, digits.
  rewrite (proj2 (Z.ltb_ge y 0)) by lia.
  rewrite step_fmtDigits by lia.
  rewrite step_fmtDigits by zdiv.
  rewrite step_fmtDigits by zdiv.
  rewrite last_fmtDigits by zdiv.
  reflexivity.
Qed.

Lemma getyear_fmt_d (y : Z) (rest : string) :
  1000 <= y <= 9999 ->
  getyear (fmt_d y ++ rest) = Some (y, rest).
Proof.
  intros R. rewrite fmt_d_four_digits by exact R.
  cbn [append getyear].
  rewrite !isDigit_digitChar by zdiv.
  rewrite !digitVal_digitChar by zdiv.
  cbn [andb]. f_equal. f_equal. zdiv.
Qed.

Lemma daysIn_first (m y : Z) :
  1 <= m <= 12 -> (daysIn m y <? 1) = false.
Proof.
  intros R. apply Z.ltb_ge. unfold daysIn.
  destruct ((m =? February) && isLeap y); [lia |].
  assert (C : m = 1 \/ m = 2 \/ m = 3 \/ m = 4 \/ m = 5 \/ m = 6 \/ m = 7
              \/ m = 8 \/ m = 9 \/ m = 10 \/ m = 11 \/ m = 12) by lia.
  repeat (destruct C as [C | C]; [subst m; vm_compute; discriminate |]).
  subst m; vm_compute; discriminate.
Qed.

Ltac parse_step :=
  lazymatch goal with
  | |- context [daysIn ?m ?y <? 1] => rewrite (daysIn_first m y) by lia
  | |- bind ?o _ = _ =>
      let v := eval vm_compute in o in
      change o with v; rewrite bind_Some; cbv beta iota
  | |- (let '(_, _) := fraction ?s in _) = _ =>
      let v := eval vm_compute in (fraction s) in
      change (fraction s) with v; cbv beta iota
  end.

Lemma parseFields_first_of_year (y : Z) :
  1000 <= y <= 9999 ->
  parseFields (sprintfYear y) = Some (Date y 1 1 0 0 0 0).
Proof.
  intros Ry. unfold sprintfYear, parseFields.
  rewrite getyear_fmt_d by exact Ry. rewrite bind_Some. cbv beta iota.
  repeat parse_step. reflexivity.
Qed.

Lemma parseFields_first_of_month (y m : Z) :
  1000 <= y <= 9999 -> 1 <= m <= 12 ->
  parseFields (sprintfYearMonth y m) = Some (Date y m 1 0 0 0 0).
Proof.
  intros Ry Rm. unfold sprintfYearMonth, parseFields.
  rewrite getyear_fmt_d by exact Ry. rewrite bind_Some. cbv beta iota.
  assert (C : m = 1 \/ m = 2 \/ m = 3 \/ m = 4 \/ m = 5 \/ m = 6 \/ m = 7
              \/ m = 8 \/ m = 9 \/ m = 10 \/ m = 11 \/ m = 12) by lia.
  repeat (destruct C as [C | C];
          [subst m;
           match goal with
           | |- context [("-" ++ ?s)%string] =>
               let v := eval vm_compute in ("-" ++ s)%string in
               change ("-" ++ s)%string with v
           end;
           repeat parse_step; reflexivity |]).
  subst m.
  match goal with
  | |- context [("-" ++ ?s)%string] =>
      let v := eval vm_compute in ("-" ++ s)%string in
      change ("-" ++ s)%string with v
  end.
  repeat parse_step. reflexivity.
Qed.

End ParsedYears.

Section CalendarDates.

Import time period.

Lemma monthDay_back_table :
  forallb (fun leap =>
    forallb (fun m =>
      forallb (fun d => monthDay_back leap (Z.of_nat m) (Z.of_nat d))
        (seq 1 31)) (seq 1 12)) [false; true] = true.
Proof. vm_compute. reflexivity. Qed.

Lemma daysIn_leap (m y : Z) :
  daysIn m y
  = if (m =? February) && isLeap y then 29
    else daysBefore m - daysBefore (m - 1).
Proof. reflexivity. Qed.

Lemma daysIn_le_31 (m y : Z) : 1 <= m <= 12 -> 28 <= daysIn m y <= 31.
Proof.
  intros R. unfold daysIn.
  destruct ((m =? February) && isLeap y); [lia |].
  assert (C : m = 1 \/ m = 2 \/ m = 3 \/ m = 4 \/ m = 5 \/ m = 6 \/ m = 7
              \/ m = 8 \/ m = 9 \/ m = 10 \/ m = 11 \/ m = 12) by lia.
  repeat (destruct C as [C | C]; [subst m; vm_compute; split; discriminate |]).
  subst m; vm_compute; split; discriminate.
Qed.

Lemma monthDay_yearDay (y m d : Z) :
  1 <= m <= 12 -> 1 <= d <= daysIn m y ->
  monthDay (isLeap y) (yearDay (isLeap y) m d) = (m, d)
  /\ 0 <= yearDay (isLeap y) m d < 365 + leapDay y.
Proof.
  intros Rm Rd. pose proof (daysIn_le_31 m y Rm) as L.
  pose proof monthDay_back_table as T.
  rewrite forallb_forall in T.
  assert (Il : In (isLeap y) [false; true]).
  { destruct (isLeap y); cbn; auto. }
  specialize (T _ Il). rewrite forallb_forall in T.
  assert (Im : In (Z.to_nat m) (seq 1 12)) by (apply in_seq; lia).
  specialize (T _ Im). rewrite forallb_forall in T.
  assert (Id : In (Z.to_nat d) (seq 1 31)) by (apply in_seq; lia).
  specialize (T _ Id). rewrite !Z2Nat.id in T by lia.
  unfold monthDay_back in T. rewrite <- daysIn_leap in T.
  rewrite (proj2 (Z.leb_le d (daysIn m y))) in T by lia.
  destruct (monthDay (isLeap y) (yearDay (isLeap y) m d)) as [m' d'].
  apply andb_true_iff in T. destruct T as [T B].
  apply andb_true_iff in T. destruct T as [T1 T2].
  apply Z.eqb_eq in T1, T2. apply Z.ltb_lt in B. subst m' d'.
  split; [reflexivity |].
  unfold leapDay. split; [| exact B].
  unfold yearDay.
  assert (0 <= daysBefore (m - 1)).
  { assert (C : m = 1 \/ m = 2 \/ m = 3 \/ m = 4 \/ m = 5 \/ m = 6 \/ m = 7
              \/ m = 8 \/ m = 9 \/ m = 10 \/ m = 11 \/ m = 12) by lia.
    repeat (destruct C as [C | C]; [subst m; vm_compute; discriminate |]).
    subst m; vm_compute; discriminate. }
  destruct (isLeap y && (March <=? m)); lia.
Qed.

Lemma Date_midnight (y m d : Z) :
  1 <= m <= 12 ->
  Date y m d 0 0 0 0
  = mkTime ((daysSinceEpoch y + yearDay (isLeap y) m d) * secondsPerDay) 0.
Proof.
  intros Rm. unfold Date.
  rewrite (norm_id y (m - 1) 12) by lia.
  change (norm 0 0 1000000000) with (0, 0). cbv beta iota zeta.
  change (norm 0 0 60) with (0, 0). cbv beta iota zeta.
  change (norm 0 0 60) with (0, 0). cbv beta iota zeta.
  rewrite (norm_id d 0 24) by lia.
  replace (m - 1 + 1) with m by lia.
  unfold yearDay, secondsPerDay, secondsPerHour, secondsPerMinute.
  f_equal. destruct (isLeap y && (March <=? m)); lia.
Qed.

Lemma Time_Date_midnight (y m d : Z) :
  1 <= m <= 12 -> 1 <= d <= daysIn m y ->
  Time_Date (Date y m d 0 0 0 0) = (y, m, d)
  /\ Time_Clock (Date y m d 0 0 0 0) = (0, 0, 0)
  /\ nsec (Date y m d 0 0 0 0) = 0.
Proof.
  intros Rm Rd. rewrite Date_midnight by exact Rm.
  destruct (monthDay_yearDay y m d Rm Rd) as [M B].
  remember (yearDay (isLeap y) m d) as yd eqn:Eyd.
  split; [| split].
  - unfold Time_Date, absDate. cbn [sec].
    unfold secondsPerDay. rewrite Z.div_mul by lia.
    rewrite (absYear_unique (daysSinceEpoch y + yd) y).
    + replace (daysSinceEpoch y + yd - daysSinceEpoch y) with yd by lia.
      rewrite M. reflexivity.
    + rewrite daysSinceEpoch_succ. lia.
  - unfold Time_Clock. cbn [sec]. unfold secondsPerDay.
    rewrite Z.mod_mul by lia. reflexivity.
  - reflexivity.
Qed.

Lemma norm_carry (hi lo base : Z) :
  0 <= lo < base -> norm hi (lo + base) base = (hi + 1, lo).
Proof.
  intros R. unfold norm.
  rewrite (proj2 (Z.ltb_ge (lo + base) 0)) by lia.
  rewrite (proj2 (Z.leb_le base (lo + base))) by lia.
  assert (Q : Z.quot (lo + base) base = 1).
  { rewrite Z.quot_div_nonneg by lia.
    replace (lo + base) with (lo + 1 * base) by lia.
    rewrite Z.div_add by lia. rewrite Z.div_small by lia. reflexivity. }
  rewrite Q. f_equal. lia.
Qed.

Lemma Date_month_13 (y m d h mi s ns : Z) :
  1 <= m <= 12 ->
  Date y (m + 12) d h mi s ns = Date (y + 1) m d h mi s ns.
Proof.
  intros R. unfold Date.
  replace (m + 12 - 1) with (m - 1 + 12) by lia.
  rewrite norm_carry by lia.
  rewrite (norm_id (y + 1) (m - 1) 12) by lia.
  reflexivity.
Qed.

Lemma AddDate_midnight (y m d years months days : Z) :
  1 <= m <= 12 -> 1 <= d <= daysIn m y ->
  AddDate (Date y m d 0 0 0 0) years months days
  = Date (y + years) (m + months) (d + days) 0 0 0 0.
Proof.
  intros Rm Rd. unfold AddDate.
  destruct (Time_Date_midnight y m d Rm Rd) as (D & C & N).
  rewrite D, C, N. reflexivity.
Qed.

Lemma first_of_month (y m : Z) : 1 <= m <= 12 -> 1 <= 1 <= daysIn m y.
Proof. intros R. pose proof (daysIn_le_31 m y R). lia. Qed.

Lemma daysBefore_step (m y : Z) :
  1 <= m <= 12 ->
  yearDay (isLeap y) m 1 + daysIn m y
  = if m =? 12 then 365 + leapDay y else yearDay (isLeap y) (m + 1) 1.
Proof.
  intros R. unfold yearDay, daysIn, leapDay.
  assert (C : m = 1 \/ m = 2 \/ m = 3 \/ m = 4 \/ m = 5 \/ m = 6 \/ m = 7
              \/ m = 8 \/ m = 9 \/ m = 10 \/ m = 11 \/ m = 12) by lia.
  repeat (destruct C as [C | C];
          [subst m; destruct (isLeap y); vm_compute; reflexivity |]).
  subst m; destruct (isLeap y); vm_compute; reflexivity.
Qed.

Lemma yearDay_first (leap : bool) : yearDay leap 1 1 = 0.
Proof. destruct leap; reflexivity. Qed.

Lemma Date_next_month (y m : Z) :
  1 <= m <= 12 ->
  Date y (m + 1) 1 0 0 0 0 = shiftDays (daysIn m y) (Date y m 1 0 0 0 0).
Proof.
  intros R. pose proof (daysBefore_step m y R) as S.
  rewrite (Date_midnight y m 1) by exact R.
  unfold shiftDays. cbn [sec nsec].
  destruct (Z.eq_dec m 12) as [E | E].
  - subst m. change (12 + 1) with (1 + 12).
    rewrite Date_month_13 by lia. rewrite Date_midnight by lia.
    rewrite daysSinceEpoch_succ.
    change (12 =? 12) with true in S. cbv iota in S.
    rewrite yearDay_first. f_equal. lia.
  - rewrite (proj2 (Z.eqb_neq m 12) E) in S.
    rewrite Date_midnight by lia. f_equal. lia.
Qed.

Lemma Date_next_year (y : Z) :
  Date (y + 1) 1 1 0 0 0 0
  = shiftDays (365 + leapDay y) (Date y 1 1 0 0 0 0).
Proof.
  rewrite !Date_midnight by lia. rewrite daysSinceEpoch_succ.
  unfold shiftDays. cbn [sec nsec].
  rewrite !yearDay_first. f_equal. lia.
Qed.

Lemma Parse_first_of_month (y m : Z) :
  1000 <= y <= 9999 -> 1 <= m <= 12 ->
  Parse_YMDHIS (sprintfYearMonth y m) = (Date y m 1 0 0 0 0, None).
Proof.
  intros Ry Rm. unfold Parse_YMDHIS.
  rewrite parseFields_first_of_month by assumption. reflexivity.
Qed.

Lemma Parse_first_of_year (y : Z) :
  1000 <= y <= 9999 ->
  Parse_YMDHIS (sprintfYear y) = (Date y 1 1 0 0 0 0, None).
Proof.
  intros Ry. unfold Parse_YMDHIS.
  rewrite parseFields_first_of_year by assumption. reflexivity.
Qed.

Lemma CreateFromMonth_dates (y m : Z) :
  1000 <= y <= 9999 -> 1 <= m <= 12 ->
  CreateFromMonth y m
  = (mkPeriod (Date y m 1 0 0 0 0) (Date y (m + 1) 1 0 0 0 0), []).
Proof.
  intros Ry Rm. unfold CreateFromMonth.
  rewrite validateRange_in by exact Rm. cbv beta iota zeta. cbn [notNil].
  rewrite Parse_first_of_month by assumption. cbn [fst].
  rewrite AddDate_midnight by (try apply first_of_month; exact Rm).
  rewrite !Z.add_0_r. reflexivity.
Qed.

Lemma CreateFromQuarter_dates (y q : Z) :
  1000 <= y <= 9999 -> 1 <= q <= 4 ->
  CreateFromQuarter y q
  = (mkPeriod (Date y ((q - 1) * 3 + 1) 1 0 0 0 0)
       (Date y ((q - 1) * 3 + 1 + 3) 1 0 0 0 0), []).
Proof.
  intros Ry Rq. unfold CreateFromQuarter.
  rewrite validateRange_in by exact Rq. cbv beta iota zeta. cbn [notNil].
  rewrite Parse_first_of_month by (try exact Ry; lia). cbn [fst].
  rewrite AddDate_midnight by (try apply first_of_month; lia).
  rewrite !Z.add_0_r. reflexivity.
Qed.

Lemma CreateFromSemester_dates (y s : Z) :
  1000 <= y <= 9999 -> 1 <= s <= 2 ->
  CreateFromSemester y s
  = (mkPeriod (Date y ((s - 1) * 6 + 1) 1 0 0 0 0)
       (Date y ((s - 1) * 6 + 1 + 6) 1 0 0 0 0), []).
Proof.
  intros Ry Rs. unfold CreateFromSemester.
  rewrite validateRange_in by exact Rs. cbv beta iota zeta. cbn [notNil].
  rewrite Parse_first_of_month by (try exact Ry; lia). cbn [fst].
  rewrite AddDate_midnight by (try apply first_of_month; lia).
  rewrite !Z.add_0_r. reflexivity.
Qed.

Lemma CreateFromYear_dates (y : Z) :
  1000 <= y <= 9999 ->
  CreateFromYear y
  = (mkPeriod (Date y 1 1 0 0 0 0) (Date (y + 1) 1 1 0 0 0 0), []).
Proof.
  intros Ry. unfold CreateFromYear.
  rewrite Parse_first_of_year by assumption. cbn [fst].
  rewrite AddDate_midnight by (try apply first_of_month; lia).
  reflexivity.
Qed.

Lemma Date_day_shift (y m d : Z) :
  1 <= m <= 12 ->
  Date y m d 0 0 0 0 = shiftDays (d - 1) (Date y m 1 0 0 0 0).
Proof.
  intros R. rewrite !Date_midnight by exact R.
  unfold shiftDays, yearDay. cbn [sec nsec]. f_equal. lia.
Qed.

(** X21. For a year of four digits and a month from 1 to 12,
    [CreateFromMonth] returns, without error, the period from midnight of
    the first day of that month to midnight of the first day of the next
    one, which is as many days later as the month has. *)
Theorem CreateFromMonth_is_the_month (year month : Z) :
  1000 <= year <= 9999 -> 1 <= month <= 12 ->
  CreateFromMonth year month
  = (mkPeriod (Date year month 1 0 0 0 0) (Date year (month + 1) 1 0 0 0 0),
     [])
  /\ Time_Date (Date year month 1 0 0 0 0) = (year, month, 1)
  /\ Time_Clock (Date year month 1 0 0 0 0) = (0, 0, 0)
  /\ Date year (month + 1) 1 0 0 0 0
     = shiftDays (daysIn month year) (Date year month 1 0 0 0 0)
  /\ 28 <= daysIn month year <= 31.
Proof.
  intros Ry Rm.
  destruct (Time_Date_midnight year month 1 Rm (first_of_month year month Rm))
    as (D & C & _).
  split; [| split; [| split; [| split]]].
  - apply CreateFromMonth_dates; assumption.
  - exact D.
  - exact C.
  - apply Date_next_month, Rm.
  - apply daysIn_le_31, Rm.
Qed.

Lemma CreateFromMonth_is_the_month_witness :
  CreateFromMonth 2016 2
  = (mkPeriod (Date 2016 2 1 0 0 0 0) (Date 2016 (2 + 1) 1 0 0 0 0), [])
  /\ Time_Date (Date 2016 2 1 0 0 0 0) = (2016, 2, 1)
  /\ Time_Clock (Date 2016 2 1 0 0 0 0) = (0, 0, 0)
  /\ Date 2016 (2 + 1) 1 0 0 0 0
     = shiftDays (daysIn 2 2016) (Date 2016 2 1 0 0 0 0)
  /\ 28 <= daysIn 2 2016 <= 31.
Proof. apply (CreateFromMonth_is_the_month 2016 2); lia. Defined.

(** X22. For a year of four digits [CreateFromYear] returns, without error,
    the period from midnight of 1 January of that year to midnight of
    1 January of the next: 365 days, 366 in a leap year. *)
Theorem CreateFromYear_is_the_year (year : Z) :
  1000 <= year <= 9999 ->
  CreateFromYear year
  = (mkPeriod (Date year 1 1 0 0 0 0) (Date (year + 1) 1 1 0 0 0 0), [])
  /\ Time_Date (Date year 1 1 0 0 0 0) = (year, 1, 1)
  /\ Time_Date (Date (year + 1) 1 1 0 0 0 0) = (year + 1, 1, 1)
  /\ Date (year + 1) 1 1 0 0 0 0
     = shiftDays (365 + leapDay year) (Date year 1 1 0 0 0 0).
Proof.
  intros Ry.
  assert (R1 : 1 <= 1 <= 12) by lia.
  split; [| split; [| split]].
  - apply CreateFromYear_dates, Ry.
  - apply (Time_Date_midnight year 1 1 R1 (first_of_month year 1 R1)).
  - apply (Time_Date_midnight (year + 1) 1 1 R1
             (first_of_month (year + 1) 1 R1)).
  - apply Date_next_year.
Qed.

Lemma CreateFromYear_is_the_year_witness :
  CreateFromYear 2016
  = (mkPeriod (Date 2016 1 1 0 0 0 0) (Date (2016 + 1) 1 1 0 0 0 0), [])
  /\ Time_Date (Date 2016 1 1 0 0 0 0) = (2016, 1, 1)
  /\ Time_Date (Date (2016 + 1) 1 1 0 0 0 0) = (2016 + 1, 1, 1)
  /\ Date (2016 + 1) 1 1 0 0 0 0
     = shiftDays (365 + leapDay 2016) (Date 2016 1 1 0 0 0 0).
Proof. apply (CreateFromYear_is_the_year 2016); lia. Defined.

(** X23. The calendar periods of a year of four digits fit together: a
    quarter runs from the start of its first month to the end of its third,
    a semester from the start of its first month to the end of its sixth,
    the year from the start of January to the end of December; each month
    ends where the next starts, and the year ends where the next year
    starts. *)
Theorem calendar_periods_fit_together (year : Z) :
  1000 <= year <= 9999 ->
  (forall quarter, 1 <= quarter <= 4 ->
     CreateFromQuarter year quarter
     = (mkPeriod (Start (fst (CreateFromMonth year (3 * quarter - 2))))
          (End (fst (CreateFromMonth year (3 * quarter)))), []))
  /\ (forall semester, 1 <= semester <= 2 ->
        CreateFromSemester year semester
        = (mkPeriod (Start (fst (CreateFromMonth year (6 * semester - 5))))
             (End (fst (CreateFromMonth year (6 * semester)))), []))
  /\ CreateFromYear year
     = (mkPeriod (Start (fst (CreateFromMonth year 1)))
          (End (fst (CreateFromMonth year 12))), [])
  /\ (forall month, 1 <= month < 12 ->
        End (fst (CreateFromMonth year month))
        = Start (fst (CreateFromMonth year (month + 1))))
  /\ (year < 9999 ->
      End (fst (CreateFromYear year)) = Start (fst (CreateFromYear (year + 1)))).
Proof.
  intros Ry. split; [| split; [| split; [| split]]].
  - intros q Rq.
    rewrite CreateFromQuarter_dates by assumption.
    rewrite !CreateFromMonth_dates by (try exact Ry; lia).
    cbn [fst Start End].
    replace ((q - 1) * 3 + 1) with (3 * q - 2) by lia.
    replace (3 * q - 2 + 3) with (3 * q + 1) by lia. reflexivity.
  - intros s Rs.
    rewrite CreateFromSemester_dates by assumption.
    rewrite !CreateFromMonth_dates by (try exact Ry; lia).
    cbn [fst Start End].
    replace ((s - 1) * 6 + 1) with (6 * s - 5) by lia.
    replace (6 * s - 5 + 6) with (6 * s + 1) by lia. reflexivity.
  - rewrite CreateFromYear_dates by assumption.
    rewrite !CreateFromMonth_dates by (try exact Ry; lia).
    cbn [fst Start End].
    change (12 + 1) with (1 + 12). rewrite Date_month_13 by lia. reflexivity.
  - intros m Rm.
    rewrite !CreateFromMonth_dates by (try exact Ry; lia). reflexivity.
  - intros L. rewrite !CreateFromYear_dates by lia. reflexivity.
Qed.

Lemma calendar_periods_fit_together_witness :
  CreateFromYear 2015
  = (mkPeriod (Start (fst (CreateFromMonth 2015 1)))
       (End (fst (CreateFromMonth 2015 12))), []).
Proof. apply (calendar_periods_fit_together 2015). lia. Defined.

(** X24. The second copy reports what the first one drops: its
    [CreateFromYear] and [CreateFromMonth] return the zero period and the
    parse error for a year that has not four digits, the zero period and
    the range error for a month outside 1 to 12, and otherwise no error and
    the period of the first copy. *)
Theorem alt_constructors_report_errors (year month : Z) :
  (1000 <= year <= 9999 ->
   period_alt.CreateFromYear year = (fst (CreateFromYear year), None))
  /\ (year < 1000 \/ 9999 < year ->
      period_alt.CreateFromYear year
      = (zeroPeriod, Some (period_alt.ParseFailure parseError)))
  /\ (month < 1 \/ 12 < month ->
      period_alt.CreateFromMonth year month
      = (zeroPeriod, Some (period_alt.PeriodError OutOfRangeError)))
  /\ (1 <= month <= 12 -> year < 1000 \/ 9999 < year ->
      period_alt.CreateFromMonth year month
      = (zeroPeriod, Some (period_alt.ParseFailure parseError)))
  /\ (1 <= month <= 12 -> 1000 <= year <= 9999 ->
      period_alt.CreateFromMonth year month
      = (fst (CreateFromMonth year month), None)).
Proof.
  split; [| split; [| split; [| split]]].
  - intros Ry. unfold period_alt.CreateFromYear.
    rewrite CreateFromYear_dates, Parse_first_of_year by exact Ry.
    cbv beta iota zeta. cbn [fst].
    rewrite AddDate_midnight by (try apply first_of_month; lia).
    reflexivity.
  - intros Ry. unfold period_alt.CreateFromYear.
    rewrite Parse_sprintfYear_fails by exact Ry. reflexivity.
  - intros Rm. unfold period_alt.CreateFromMonth, period_alt.validateRange.
    assert (B : (month <? 1) || (12 <? month) = true).
    { apply orb_true_iff. rewrite !Z.ltb_lt. exact Rm. }
    rewrite B. reflexivity.
  - intros Rm Ry. unfold period_alt.CreateFromMonth, period_alt.validateRange.
    assert (B : (month <? 1) || (12 <? month) = false).
    { apply orb_false_iff. rewrite !Z.ltb_ge. lia. }
    rewrite B. cbv beta iota zeta.
    rewrite Parse_sprintfYearMonth_fails by exact Ry. reflexivity.
  - intros Rm Ry. unfold period_alt.CreateFromMonth, period_alt.validateRange.
    assert (B : (month <? 1) || (12 <? month) = false).
    { apply orb_false_iff. rewrite !Z.ltb_ge. lia. }
    rewrite B. cbv beta iota zeta.
    rewrite CreateFromMonth_dates, Parse_first_of_month by assumption.
    cbv beta iota zeta. cbn [fst].
    rewrite AddDate_midnight by (try apply first_of_month; lia).
    rewrite !Z.add_0_r. reflexivity.
Qed.

(** X25. [CreateFromDay] of the second copy: the range error and the zero
    period for a month outside 1 to 12 or a day outside 1 to 31; otherwise,
    for a year of [calendarYear], no error and the period of one day that
    starts [day - 1] days after midnight of the first of the month.  That
    is the day asked for when the month has it, and a day of the next month
    when it has not. *)
Theorem alt_CreateFromDay_one_day (year month day : Z) :
  (month < 1 \/ 12 < month \/ day < 1 \/ 31 < day ->
   period_alt.CreateFromDay year month day
   = (zeroPeriod, Some (period_alt.PeriodError OutOfRangeError)))
  /\ (calendarYear year -> 1 <= month <= 12 -> 1 <= day <= 31 ->
      period_alt.CreateFromDay year month day
      = (mkPeriod (shiftDays (day - 1) (Date year month 1 0 0 0 0))
           (shiftDays day (Date year month 1 0 0 0 0)), None))
  /\ (calendarYear year ->
      1 <= month <= 12 -> 1 <= day <= daysIn month year ->
      Time_Date (Start (fst (period_alt.CreateFromDay year month day)))
      = (year, month, day))
  /\ (calendarYear year ->
      1 <= month <= 12 -> daysIn month year < day <= 31 ->
      Time_Date (Start (fst (period_alt.CreateFromDay year month day)))
      = (if month =? 12 then year + 1 else year,
         if month =? 12 then 1 else month + 1,
         day - daysIn month year)).
Proof.
  assert (In_range : 1 <= month <= 12 -> 1 <= day <= 31 ->
      period_alt.CreateFromDay year month day
      = (mkPeriod (Date year month day 0 0 0 0)
           (shiftDays 1 (Date year month day 0 0 0 0)), None)).
  { intros Rm Rd. unfold period_alt.CreateFromDay, period_alt.validateRange.
    assert (B : (month <? 1) || (12 <? month) = false).
    { apply orb_false_iff. rewrite !Z.ltb_ge. lia. }
    assert (B' : (day <? 1) || (31 <? day) = false).
    { apply orb_false_iff. rewrite !Z.ltb_ge. lia. }
    rewrite B. cbv beta iota zeta. rewrite B'. cbv beta iota zeta.
    rewrite AddDate_days; [reflexivity |].
    rewrite Date_midnight by exact Rm. unfold wf_time. cbn [nsec]. lia. }
  split; [| split; [| split]].
  - intros R. unfold period_alt.CreateFromDay, period_alt.validateRange.
    destruct ((month <? 1) || (12 <? month)) eqn:B; [reflexivity |].
    cbv beta iota zeta.
    assert (B' : (day <? 1) || (31 <? day) = true).
    { apply orb_false_iff in B. rewrite !Z.ltb_ge in B.
      apply orb_true_iff. rewrite !Z.ltb_lt. lia. }
    rewrite B'. reflexivity.
  - intros _ Rm Rd. rewrite In_range by assumption.
    rewrite (Date_day_shift year month day) by exact Rm.
    rewrite shiftDays_shiftDays.
    replace (day - 1 + 1) with day by lia. reflexivity.
  - intros _ Rm Rd. pose proof (daysIn_le_31 month year Rm).
    rewrite In_range by lia. cbn [fst Start].
    apply Time_Date_midnight; assumption.
  - intros _ Rm Rd. pose proof (daysIn_le_31 month year Rm) as L.
    rewrite In_range by lia. cbn [fst Start].
    rewrite (Date_day_shift year month day) by exact Rm.
    replace (day - 1) with (daysIn month year + (day - daysIn month year - 1))
      by lia.
    rewrite <- shiftDays_shiftDays, <- Date_next_month by exact Rm.
    destruct (Z.eq_dec month 12) as [E | E].
    + subst month. change (12 =? 12) with true. cbv iota.
      change (12 + 1) with (1 + 12). rewrite Date_month_13 by lia.
      rewrite <- Date_day_shift by lia.
      apply Time_Date_midnight; [lia |].
      pose proof (daysIn_le_31 1 (year + 1)). lia.
    + rewrite (proj2 (Z.eqb_neq month 12) E).
      rewrite <- Date_day_shift by lia.
      apply Time_Date_midnight; [lia |].
      pose proof (daysIn_le_31 (month + 1) year). lia.
Qed.

End CalendarDates.

(* ------------------------------------------------------------------ *)
(** ** [CreateFromWeek] and the package variable [StartWeek] *)

Section StartOfWeek.

Import time period.

Lemma CreateFromWeekAt_existing_week (startWeek year week : Z) :
  0 <= startWeek <= 6 -> 1 <= week <= 53 ->
  (exists t, ISOWeek t = (year, week)) ->
  exists (N : nat) (p : Period) (monday : Time),
    (forall fuel, (N <= fuel)%nat ->
       CreateFromWeekAt startWeek fuel year week = Some (p, []))
    /\ ISOWeek monday = (year, week)
    /\ Weekday monday = Monday
    /\ Start p = shiftDays (startWeek - Monday) monday
    /\ End p = shiftDays 7 (Start p).
Proof.
  intros HS HW (t & Ht).
  destruct (CreateFromWeekAt_run startWeek year week HS HW)
    as (N & k3 & k4 & t2 & W2 & M2 & T2 & C3 & B3 & D3 & K4 & D4 & R).
  pose proof (fst_ISOWeek t) as Ey. pose proof (snd_ISOWeek t) as Ew.
  rewrite Ht in Ey, Ew. cbn [fst snd] in Ey, Ew.
  pose proof (thursdayOf_is_thursday (dayOf t)) as Th.
  destruct (absYear_spec (thursdayOf (dayOf t))) as [S B].
  rewrite <- Ey in S, B.
  pose proof (daysSinceEpoch_succ year) as Y1.
  remember (thursdayOf (dayOf t)) as T eqn:ET0.
  remember (snd (absYear T)) as yd eqn:Eyd.
  assert (ET : T = dayOf t2 + 3 + 7 * (week - 1)) by zdiv.
  assert (Wk : forall j, 0 <= j <= 7 * (week - 1) + 6 ->
            ISOWeek (shiftDays j t2) = (year, j / 7 + 1)).
  { intros j Hj. apply ISOWeek_from_week_one; try assumption; zdiv. }
  assert (Wk' : forall j, 0 <= j <= 7 * (week - 1) + 6 ->
            snd (absYear (thursdayOf (dayOf t2 + j))) / 7 + 1 = j / 7 + 1).
  { intros j Hj. rewrite <- dayOf_shiftDays, <- snd_ISOWeek, Wk by exact Hj.
    reflexivity. }
  assert (K3 : Z.of_nat k3 = 7 * (week - 1)).
  { destruct (Z.lt_trichotomy (Z.of_nat k3) (7 * (week - 1)))
      as [L | [E | L]]; [exfalso | exact E | exfalso].
    - rewrite Wk' in C3 by lia. zdiv.
    - pose proof (B3 (Z.to_nat (7 * (week - 1))) ltac:(lia)) as P.
      rewrite Z2Nat.id in P by lia.
      rewrite Wk' in P by lia. zdiv. }
  assert (S4 : Z.of_nat k4 * (startWeek - Monday) = startWeek - Monday).
  { rewrite Weekday_shiftDays, dayOf_shiftDays in D4.
    unfold Monday in *.
    assert (C : k4 = 0%nat \/ k4 = 1%nat) by lia.
    destruct C as [C | C]; subst k4; [| lia].
    replace (dayOf t2 + Z.of_nat k3 + Z.of_nat 0 * (startWeek - 1) + 1)
      with (dayOf t2 + Z.of_nat k3 + 1) in D4 by lia.
    lia. }
  exists N. eexists. exists (shiftDays (Z.of_nat k3) t2).
  split; [exact R |].
  cbn [Start End]. rewrite S4.
  split; [| split; [| split; reflexivity]].
  - rewrite K3, Wk by lia. f_equal. zdiv.
  - rewrite Weekday_shiftDays. exact D3.
Qed.

(** X26. [CreateFromWeek] under any setting of the package variable
    [StartWeek]: for a year of [calendarYear] and a week the year has, the
    period returned lasts seven days and starts [StartWeek - Monday] days
    from the Monday of that ISO week, on a day of the week [StartWeek];
    with [StartWeek] set to Sunday that is the day before the ISO week
    begins. *)
Theorem CreateFromWeekAt_starts_on_StartWeek (startWeek year week : Z) :
  calendarYear year ->
  0 <= startWeek <= 6 -> 1 <= week <= 53 ->
  week <= 52 \/ (exists t, ISOWeek t = (year, week)) ->
  exists (N : nat) (p : Period) (monday : Time),
    (forall fuel, (N <= fuel)%nat ->
       CreateFromWeekAt startWeek fuel year week = Some (p, []))
    /\ ISOWeek monday = (year, week)
    /\ Weekday monday = Monday
    /\ Start p = shiftDays (startWeek - Monday) monday
    /\ Weekday (Start p) = startWeek
    /\ End p = shiftDays 7 (Start p).
Proof.
  intros _ HS HW E.
  assert (X : exists t, ISOWeek t = (year, week)).
  { destruct E as [L | X]; [| exact X]. apply week_exists. lia. }
  destruct (CreateFromWeekAt_existing_week startWeek year week HS HW X)
    as (N & p & monday & R & I & M & S & F).
  exists N, p, monday.
  split; [exact R | split; [exact I | split; [exact M | split; [exact S |]]]].
  split; [| exact F].
  rewrite S, Weekday_shiftDays. rewrite Weekday_dayOf in M.
  unfold Monday in *. zdiv.
Qed.

Lemma CreateFromWeekAt_starts_on_StartWeek_witness :
  exists (N : nat) (p : Period) (monday : Time),
    (forall fuel, (N <= fuel)%nat ->
       CreateFromWeekAt Sunday fuel 2015 1 = Some (p, []))
    /\ ISOWeek monday = (2015, 1)
    /\ Weekday monday = Monday
    /\ Start p = shiftDays (Sunday - Monday) monday
    /\ Weekday (Start p) = Sunday
    /\ End p = shiftDays 7 (Start p).
Proof.
  apply (CreateFromWeekAt_starts_on_StartWeek Sunday 2015 1).
  - unfold calendarYear. lia.
  - unfold Sunday. lia.
  - lia.
  - left. lia.
Defined.

End StartOfWeek.

(* ------------------------------------------------------------------ *)
(** ** Instants within and beyond the range of [UnixNano] *)

Section UnixNanoRange.

Import time period.

Lemma nanos_compare (a b : Time) :
  representable a -> representable b ->
  (compareDate a b = 0 <-> nanos a = nanos b)
  /\ (compareDate a b = -1 <-> nanos a < nanos b)
  /\ (compareDate a b = 1 <-> nanos b < nanos a).
Proof.
  intros Ra Rb.
  rewrite compareDate_eq, compareDate_lt, compareDate_gt.
  rewrite !UnixNano_exact by assumption.
  split; [reflexivity | split; reflexivity].
Qed.

Lemma Abuts_instants (p q : Period) :
  representablePeriod p -> representablePeriod q ->
  (fst (Abuts p q) = true <->
   nanos (Start p) = nanos (End q) \/ nanos (End p) = nanos (Start q)).
Proof.
  intros [Rsp Rep] [Rsq Req].
  rewrite Abuts_true.
  rewrite (proj1 (nanos_compare _ _ Rsp Req)).
  rewrite (proj1 (nanos_compare _ _ Rep Rsq)).
  reflexivity.
Qed.

Lemma Overlaps_instants (p q : Period) :
  representablePeriod p -> representablePeriod q ->
  (Overlaps p q = true <->
   fst (Abuts p q) = false
   /\ nanos (Start p) < nanos (End q) /\ nanos (Start q) < nanos (End p)).
Proof.
  intros [Rsp Rep] [Rsq Req].
  destruct (Overlaps_iff_not_abuts_and_strict p q) as (_ & O & _).
  rewrite O. rewrite !UnixNano_exact by assumption. reflexivity.
Qed.

Lemma Contains_instants (p : Period) (t : Time) :
  representablePeriod p -> representable t ->
  (Contains p t = true <-> nanos (Start p) <= nanos t < nanos (End p)).
Proof.
  intros [Rs Re] Rt. rewrite Contains_nanos.
  rewrite !UnixNano_exact by assumption. reflexivity.
Qed.

(** C1. Within the range of [UnixNano] (all four ends representable),
    [Overlaps(p, q)] is true exactly when the periods do not abut, [p.Start]
    is strictly before [q.End] and [p.End] strictly after [q.Start], the
    periods abutting when an end of one is the instant the other starts at;
    and abutting periods never overlap, whatever the instants.  Beyond that
    range [compareDate] orders wrapped readings: the period
    [CreateFromYear(2262)] returns ends on 2263-01-01, past the last
    representable instant, and it does not overlap February 2262, which
    lies inside it and does not abut it; the second copy of the package,
    which compares with [After] and [Before], finds that they overlap. *)
Theorem Overlaps_strict_within_UnixNano_range (p q : Period) :
  (fst (Abuts p q) = true -> Overlaps p q = false)
  /\ (representablePeriod p -> representablePeriod q ->
      (fst (Abuts p q) = true <->
       nanos (Start p) = nanos (End q) \/ nanos (End p) = nanos (Start q))
      /\ (Overlaps p q = true <->
          fst (Abuts p q) = false
          /\ nanos (Start p) < nanos (End q)
          /\ nanos (Start q) < nanos (End p)))
  /\ CreateFromYear 2262 = (years 2262 2263, [])
  /\ CreateFromMonth 2262 2
     = (mkPeriod (Date 2262 2 1 0 0 0 0) (Date 2262 3 1 0 0 0 0), [])
  /\ nanos (Start year2262) < nanos (Start february2262)
  /\ nanos (Start february2262) < nanos (End february2262)
  /\ nanos (End february2262) < nanos (End year2262)
  /\ ~ representable (End year2262)
  /\ fst (Abuts year2262 february2262) = false
  /\ Overlaps year2262 february2262 = false
  /\ period_alt.Overlaps year2262 february2262 = true.
Proof.
  split; [| split].
  - intros A. unfold Overlaps. rewrite A. reflexivity.
  - intros Rp Rq. split.
    + apply Abuts_instants; assumption.
    + apply Overlaps_instants; assumption.
  - split; [vm_compute; reflexivity |].
    split; [vm_compute; reflexivity |].
    split; [vm_compute; reflexivity |].
    split; [vm_compute; reflexivity |].
    split; [vm_compute; reflexivity |].
    split; [vm_compute; intros [_ H]; apply H; reflexivity |].
    split; [vm_compute; reflexivity |].
    split; vm_compute; reflexivity.
Qed.

(** C4. Within the range of [UnixNano], [Contains(p, t)] is true exactly
    when [t] is at or after [p.Start] and strictly before [p.End]: the
    period is half-open.  Beyond it the wrapped readings decide: the period
    from 1700 to 2200 contains 2300-01-01, a century after its end, and the
    period [CreateFromYear(2262)] returns does not contain 2262-02-01; the
    second copy of the package answers both the other way. *)
Theorem Contains_half_open_within_UnixNano_range (p : Period) (t : Time) :
  (representablePeriod p -> representable t ->
   (Contains p t = true <-> nanos (Start p) <= nanos t < nanos (End p)))
  /\ nanos (End fiveCenturies) < nanos (Date 2300 1 1 0 0 0 0)
  /\ Contains fiveCenturies (Date 2300 1 1 0 0 0 0) = true
  /\ period_alt.Contains fiveCenturies (Date 2300 1 1 0 0 0 0) = false
  /\ nanos (Start year2262) <= nanos (Date 2262 2 1 0 0 0 0)
  /\ nanos (Date 2262 2 1 0 0 0 0) < nanos (End year2262)
  /\ Contains year2262 (Date 2262 2 1 0 0 0 0) = false
  /\ period_alt.Contains year2262 (Date 2262 2 1 0 0 0 0) = true.
Proof.
  split.
  - apply Contains_instants.
  - split; [vm_compute; reflexivity |].
    split; [vm_compute; reflexivity |].
    split; [vm_compute; reflexivity |].
    split; [vm_compute; discriminate |].
    split; [vm_compute; reflexivity |].
    split; vm_compute; reflexivity.
Qed.

(** C2. Within the range of [UnixNano], [Intersect(p, q)] fails with
    [BothShouldNotAbuts] when the periods abut, and otherwise returns,
    without error, the period from the later of the two starts to the
    earlier of the two ends; [[0,10)] and [[5,15)] give [[5,10)].  Beyond
    that range the wrapped readings decide: the period from 2000 to 2300
    and the period from 2100 to 2200 give the period from 2100 to 2300,
    whose end is the later of the two ends; and the period from 1700 to
    1800 and a period from 2250 to an instant in 2284 have no end in
    common, yet [Intersect] fails as if they abutted. *)
Theorem Intersect_within_UnixNano_range (p q : Period) :
  (representablePeriod p -> representablePeriod q ->
   (nanos (Start p) = nanos (End q) \/ nanos (End p) = nanos (Start q) ->
    Intersect p q = (zeroPeriod, [BothShouldNotAbuts]))
   /\ (nanos (Start p) <> nanos (End q) ->
       nanos (End p) <> nanos (Start q) ->
       exists r, Intersect p q = (r, [])
         /\ (Start r = Start p \/ Start r = Start q)
         /\ nanos (Start r) = Z.max (nanos (Start p)) (nanos (Start q))
         /\ (End r = End p \/ End r = End q)
         /\ nanos (End r) = Z.min (nanos (End p)) (nanos (End q))))
  /\ Intersect (mkPeriod (Unix 0 0) (Unix 10 0))
               (mkPeriod (Unix 5 0) (Unix 15 0))
     = (mkPeriod (Unix 5 0) (Unix 10 0), [])
  /\ nanos (End (years 2100 2200)) < nanos (End (years 2000 2300))
  /\ Intersect (years 2000 2300) (years 2100 2200) = (years 2100 2300, [])
  /\ nanos (Start (years 1700 1800))
     <> nanos (End (mkPeriod (Date 2250 1 1 0 0 0 0) readsAs1700))
  /\ nanos (End (years 1700 1800))
     <> nanos (Start (mkPeriod (Date 2250 1 1 0 0 0 0) readsAs1700))
  /\ Intersect (years 1700 1800)
       (mkPeriod (Date 2250 1 1 0 0 0 0) readsAs1700)
     = (zeroPeriod, [BothShouldNotAbuts]).
Proof.
  split.
  - intros Rp Rq.
    pose proof (Abuts_instants p q Rp Rq) as A.
    destruct Rp as [Rsp Rep], Rq as [Rsq Req].
    destruct (Intersect_abuts_or_max_min p q) as (I1 & I2 & _).
    split.
    + intros H. apply I1, A, H.
    + intros N1 N2.
      assert (F : fst (Abuts p q) = false).
      { destruct (fst (Abuts p q)) eqn:E; [| reflexivity].
        destruct (proj1 A eq_refl) as [H | H]; [destruct (N1 H) | destruct (N2 H)]. }
      destruct (I2 F) as (r & E & S1 & S2 & E1 & E2).
      exists r. split; [exact E |].
      assert (Rs : representable (Start r)) by (destruct S1 as [-> | ->]; assumption).
      assert (Re : representable (End r)) by (destruct E1 as [-> | ->]; assumption).
      rewrite !UnixNano_exact in S2, E2 by assumption.
      split; [exact S1 | split; [exact S2 | split; [exact E1 | exact E2]]].
  - split; [vm_compute; reflexivity |].
    split; [vm_compute; reflexivity |].
    split; [vm_compute; reflexivity |].
    split; [vm_compute; discriminate |].
    split; vm_compute; [discriminate | reflexivity].
Qed.

Lemma createFromDatepoints_ends (a b : Time) :
  let r := createFromDatepoints a b in
  (Start r = a /\ End r = b) \/ (Start r = b /\ End r = a).
Proof. apply createFromDatepoints_spec. Qed.

Lemma empty_reading_instants (a b : Time) :
  representable a -> representable b ->
  negb (compareDate a b =? 0) = negb (nanos a =? nanos b).
Proof.
  intros Ra Rb. f_equal.
  destruct (nanos_compare a b Ra Rb) as (E & _).
  destruct (compareDate a b =? 0) eqn:C.
  - apply Z.eqb_eq in C. symmetry. apply Z.eqb_eq, E, C.
  - apply Z.eqb_neq in C. symmetry. apply Z.eqb_neq.
    intros N. apply C, E, N.
Qed.

(** C3. [Diff(p, q)] fails with [ShouldOverlapsError] exactly when
    [Overlaps(p, q)] is false, and returns at most two periods.  Within
    the range of [UnixNano], for overlapping periods it returns the leading
    slice, from the earlier to the later of the two starts, and the
    trailing slice, from the earlier to the later of the two ends, each
    kept only when its two ends differ, so every slice has its start
    strictly before its end.  Beyond that range the wrapped readings
    decide: for the period from 2200 to 2300 and the period from 1700 to
    2250 the trailing slice runs from 2300 back to 2250. *)
Theorem Diff_slices_within_UnixNano_range (p q : Period) :
  (Overlaps p q = false -> Diff p q = ([], [ShouldOverlapsError]))
  /\ (snd (Diff p q) = [ShouldOverlapsError] <-> Overlaps p q = false)
  /\ (List.length (fst (Diff p q)) <= 2)%nat
  /\ (representablePeriod p -> representablePeriod q ->
      Overlaps p q = true ->
      let lead := createFromDatepoints (Start p) (Start q) in
      let trail := createFromDatepoints (End p) (End q) in
        Diff p q
        = (filter (fun r => negb (nanos (Start r) =? nanos (End r)))
             [lead; trail], [])
        /\ nanos (Start lead) = Z.min (nanos (Start p)) (nanos (Start q))
        /\ nanos (End lead) = Z.max (nanos (Start p)) (nanos (Start q))
        /\ nanos (Start trail) = Z.min (nanos (End p)) (nanos (End q))
        /\ nanos (End trail) = Z.max (nanos (End p)) (nanos (End q))
        /\ (forall r, In r (fst (Diff p q)) ->
              nanos (Start r) < nanos (End r)))
  /\ Overlaps (years 2200 2300) (years 1700 2250) = true
  /\ Diff (years 2200 2300) (years 1700 2250)
     = ([years 1700 2200;
         mkPeriod (Date 2300 1 1 0 0 0 0) (Date 2250 1 1 0 0 0 0)], [])
  /\ nanos (Date 2250 1 1 0 0 0 0) < nanos (Date 2300 1 1 0 0 0 0).
Proof.
  pose proof (Diff_must_overlap_or_fringe p q) as D. cbv zeta in D.
  destruct D as (D1 & D2 & D3 & L1 & L2 & T1 & T2 & D4 & _).
  split; [exact D1 | split; [exact D3 | split; [exact D4 | split]]].
  - intros [Rsp Rep] [Rsq Req] O. cbv zeta.
    pose proof (createFromDatepoints_ends (Start p) (Start q)) as CL.
    pose proof (createFromDatepoints_ends (End p) (End q)) as CT.
    cbv zeta in CL, CT.
    remember (createFromDatepoints (Start p) (Start q)) as lead eqn:El.
    remember (createFromDatepoints (End p) (End q)) as trail eqn:Et.
    assert (RL : representable (Start lead) /\ representable (End lead)).
    { destruct CL as [[-> ->] | [-> ->]]; split; assumption. }
    assert (RT : representable (Start trail) /\ representable (End trail)).
    { destruct CT as [[-> ->] | [-> ->]]; split; assumption. }
    destruct RL as [RL1 RL2], RT as [RT1 RT2].
    rewrite !UnixNano_exact in L1, L2, T1, T2 by assumption.
    assert (E : Diff p q
        = (filter (fun r => negb (nanos (Start r) =? nanos (End r)))
             [lead; trail], [])).
    { rewrite (D2 O). cbn [filter].
      rewrite !empty_reading_instants by assumption. reflexivity. }
    split; [exact E |].
    split; [exact L1 | split; [exact L2 | split; [exact T1 | split; [exact T2 |]]]].
    intros r I. rewrite E in I. cbn [fst] in I.
    apply filter_In in I. destruct I as [I N].
    apply negb_true_iff, Z.eqb_neq in N.
    cbn [In] in I. destruct I as [<- | [<- | []]]; lia.
  - split; [vm_compute; reflexivity |].
    split; vm_compute; reflexivity.
Qed.

Lemma Period_eq (a b : Period) :
  Start a = Start b -> End a = End b -> a = b.
Proof. destruct a, b. cbn [Start End]. intros -> ->. reflexivity. Qed.

(** C6. [Merge(p, periods...)] leaves in the receiver a start and an end
    taken from the periods given.  Within the range of [UnixNano] the start
    is the earliest start and the end the latest end, and (the instants
    being well formed) the result is the same period in whatever order the
    periods are given, the receiver included.  Beyond that range the
    wrapped readings decide: merging the 21st century with the 24th gives
    the period from 2300 back to 2100; and of two starts with the same
    reading, 1700-01-01 and an instant in 2284, the one that comes first in
    the arguments is kept. *)
Theorem Merge_envelope_within_UnixNano_range
  (p : Period) (periods : list Period) :
  In (Start (Merge p periods)) (map Start (p :: periods))
  /\ In (End (Merge p periods)) (map End (p :: periods))
  /\ ((forall x, In x (p :: periods) -> representablePeriod x) ->
      forall x, In x (p :: periods) ->
        nanos (Start (Merge p periods)) <= nanos (Start x)
        /\ nanos (End x) <= nanos (End (Merge p periods)))
  /\ ((forall x, In x (p :: periods) -> ordinaryPeriod x) ->
      forall p' periods', Permutation (p :: periods) (p' :: periods') ->
        Merge p periods = Merge p' periods')
  /\ nanos (Start (years 2000 2100)) < nanos (Start (years 2300 2400))
  /\ nanos (End (years 2000 2100)) < nanos (End (years 2300 2400))
  /\ Merge (years 2000 2100) [years 2300 2400]
     = mkPeriod (Date 2300 1 1 0 0 0 0) (Date 2100 1 1 0 0 0 0)
  /\ Start (Merge (years 1700 1800)
              [mkPeriod readsAs1700 (Date 1800 1 1 0 0 0 0)])
     = Date 1700 1 1 0 0 0 0
  /\ Start (Merge (mkPeriod readsAs1700 (Date 1800 1 1 0 0 0 0))
              [years 1700 1800])
     = readsAs1700
  /\ readsAs1700 <> Date 1700 1 1 0 0 0 0.
Proof.
  destruct (Merge_Start periods p) as [IS BS].
  destruct (Merge_End periods p) as [IE BE].
  split; [exact IS | split; [exact IE | split; [| split]]].
  - intros G x Hx.
    pose proof (BS x Hx) as S1. pose proof (BE x Hx) as E1.
    pose proof IS as IS0. pose proof IE as IE0.
    apply in_map_iff in IS0, IE0.
    destruct IS0 as (a & Ea & Ia). destruct IE0 as (b & Eb & Ib).
    destruct (G a Ia) as [Ra _]. destruct (G b Ib) as [_ Rb].
    destruct (G x Hx) as [Rxs Rxe].
    rewrite <- Ea in S1. rewrite <- Eb in E1.
    rewrite !UnixNano_exact in S1, E1 by assumption.
    rewrite <- Ea, <- Eb. split; [exact S1 | exact E1].
  - intros G p' periods' P.
    assert (G' : forall x, In x (p' :: periods') -> ordinaryPeriod x).
    { intros x Hx. apply G.
      apply (Permutation_in _ (Permutation_sym P) Hx). }
    destruct (Merge_Start periods' p') as [IS' BS'].
    destruct (Merge_End periods' p') as [IE' BE'].
    apply in_map_iff in IS, IE, IS', IE'.
    destruct IS as (a & Ea & Ia). destruct IE as (b & Eb & Ib).
    destruct IS' as (a' & Ea' & Ia'). destruct IE' as (b' & Eb' & Ib').
    pose proof (BS a' (Permutation_in _ (Permutation_sym P) Ia')) as S1.
    pose proof (BS' a (Permutation_in _ P Ia)) as S2.
    pose proof (BE b' (Permutation_in _ (Permutation_sym P) Ib')) as E1.
    pose proof (BE' b (Permutation_in _ P Ib)) as E2.
    destruct (G a Ia) as [[Wa Ra] _]. destruct (G b Ib) as [_ [Wb Rb]].
    destruct (G' a' Ia') as [[Wa' Ra'] _].
    destruct (G' b' Ib') as [_ [Wb' Rb']].
    rewrite <- Ea in S1. rewrite <- Ea' in S2.
    rewrite <- Eb in E1. rewrite <- Eb' in E2.
    rewrite !UnixNano_exact in S1, S2, E1, E2 by assumption.
    apply Period_eq.
    + rewrite <- Ea, <- Ea'. apply nanos_inj; try assumption; lia.
    + rewrite <- Eb, <- Eb'. apply nanos_inj; try assumption; lia.
  - split; [vm_compute; reflexivity |].
    split; [vm_compute; reflexivity |].
    split; [vm_compute; reflexivity |].
    split; [vm_compute; reflexivity |].
    split; [vm_compute; reflexivity |].
    vm_compute. discriminate.
Qed.

(** C7. For well-formed end instants within the range of [UnixNano]: in
    [period.go], [CompareDuration(p, q)] is the three-way comparison of the
    end instants [p.End] and [q.End], not of the two durations, and
    [DurationGreaterThan], [DurationLessThan] and [SameDurationAs] tell
    whether [p.End] is after, before or the same instant as [q.End].  In
    the second copy of the package [CompareDuration], [DurationGreaterThan]
    and [DurationLessThan] are the same comparisons of the end instants,
    but [SameDurationAs] tells whether the two durations, [End.Sub(Start)],
    are equal. *)
Theorem CompareDuration_compares_end_instants (p q : Period) :
  ordinary (End p) -> ordinary (End q) ->
  CompareDuration p q
  = match nanos (End p) ?= nanos (End q) with Lt => -1 | Eq => 0 | Gt => 1 end
  /\ DurationGreaterThan p q = (nanos (End q) <? nanos (End p))
  /\ DurationLessThan p q = (nanos (End p) <? nanos (End q))
  /\ SameDurationAs p q = (nanos (End p) =? nanos (End q))
  /\ period_alt.CompareDuration p q
     = match nanos (End p) ?= nanos (End q)
       with Lt => -1 | Eq => 0 | Gt => 1 end
  /\ period_alt.DurationGreaterThan p q = (nanos (End q) <? nanos (End p))
  /\ period_alt.DurationLessThan p q = (nanos (End p) <? nanos (End q))
  /\ period_alt.SameDurationAs p q
     = (Sub (End p) (Start p) =? Sub (End q) (Start q)).
Proof.
  intros [Wp Rp] [Wq Rq].
  assert (C : CompareDuration p q
    = match nanos (End p) ?= nanos (End q)
      with Lt => -1 | Eq => 0 | Gt => 1 end).
  { unfold CompareDuration. apply compareDate_nanos; assumption. }
  assert (C' : period_alt.CompareDuration p q
    = match nanos (End p) ?= nanos (End q)
      with Lt => -1 | Eq => 0 | Gt => 1 end).
  { unfold period_alt.CompareDuration.
    apply alt_compareDate_nanos; assumption. }
  unfold DurationGreaterThan, DurationLessThan, SameDurationAs,
    period_alt.DurationGreaterThan, period_alt.DurationLessThan.
  rewrite C, C'.
  assert (T : forall c : comparison,
    c = (nanos (End p) ?= nanos (End q)) ->
    (1 =? match c with Lt => -1 | Eq => 0 | Gt => 1 end)
    = (nanos (End q) <? nanos (End p))
    /\ (-1 =? match c with Lt => -1 | Eq => 0 | Gt => 1 end)
       = (nanos (End p) <? nanos (End q))
    /\ (0 =? match c with Lt => -1 | Eq => 0 | Gt => 1 end)
       = (nanos (End p) =? nanos (End q))).
  { intros c Ec. symmetry in Ec. destruct c.
    - apply Z.compare_eq in Ec. rewrite Ec.
      rewrite !Z.ltb_irrefl, !Z.eqb_refl. repeat split.
    - rewrite Z.compare_lt_iff in Ec.
      rewrite (proj2 (Z.ltb_ge (nanos (End q)) (nanos (End p)))) by lia.
      rewrite (proj2 (Z.ltb_lt (nanos (End p)) (nanos (End q)))) by lia.
      rewrite (proj2 (Z.eqb_neq (nanos (End p)) (nanos (End q)))) by lia.
      repeat split.
    - rewrite Z.compare_gt_iff in Ec.
      rewrite (proj2 (Z.ltb_lt (nanos (End q)) (nanos (End p)))) by lia.
      rewrite (proj2 (Z.ltb_ge (nanos (End p)) (nanos (End q)))) by lia.
      rewrite (proj2 (Z.eqb_neq (nanos (End p)) (nanos (End q)))) by lia.
      repeat split. }
  destruct (T _ eq_refl) as (T1 & T2 & T3).
  split; [reflexivity |].
  split; [exact T1 | split; [exact T2 | split; [exact T3 |]]].
  split; [reflexivity |].
  split; [exact T1 | split; [exact T2 | reflexivity]].
Qed.

Lemma CompareDuration_compares_end_instants_witness :
  CompareDuration tenSeconds lastFiveSeconds
  = match nanos (End tenSeconds) ?= nanos (End lastFiveSeconds)
    with Lt => -1 | Eq => 0 | Gt => 1 end
  /\ DurationGreaterThan tenSeconds lastFiveSeconds
     = (nanos (End lastFiveSeconds) <? nanos (End tenSeconds))
  /\ DurationLessThan tenSeconds lastFiveSeconds
     = (nanos (End tenSeconds) <? nanos (End lastFiveSeconds))
  /\ SameDurationAs tenSeconds lastFiveSeconds
     = (nanos (End tenSeconds) =? nanos (End lastFiveSeconds))
  /\ period_alt.CompareDuration tenSeconds lastFiveSeconds
     = match nanos (End tenSeconds) ?= nanos (End lastFiveSeconds)
       with Lt => -1 | Eq => 0 | Gt => 1 end
  /\ period_alt.DurationGreaterThan tenSeconds lastFiveSeconds
     = (nanos (End lastFiveSeconds) <? nanos (End tenSeconds))
  /\ period_alt.DurationLessThan tenSeconds lastFiveSeconds
     = (nanos (End tenSeconds) <? nanos (End lastFiveSeconds))
  /\ period_alt.SameDurationAs tenSeconds lastFiveSeconds
     = (Sub (End tenSeconds) (Start tenSeconds)
        =? Sub (End lastFiveSeconds) (Start lastFiveSeconds)).
Proof.
  apply (CompareDuration_compares_end_instants tenSeconds lastFiveSeconds);
    vm_compute; repeat split; discriminate.
Defined.

End UnixNanoRange.
